(** * LLM system monitor: the query-to-function dispatch pipeline

    A shallow embedding of [system_info_collector.py] (the registry of
    collectors and its dispatch), [llm_processor.py] (the two language-model
    round trips with their fallbacks), [system_monitor_agent.py] (the
    orchestrator and its component test) and [main.py] (the start of the
    program and its loop), followed by the properties of the specification
    that concern them.

    Conventions.
    - A Python value is a [pyval]; a Python [str] is a [string] whose
      characters are code points below 256.
    - A Python [dict] is an association list in insertion order with
      pairwise different keys.
    - A method that can raise or touch the outside world (the operating
      system read by the collectors, the chat-completion service) is a
      function [World -> outcome A * World]: it returns or raises, and in
      both cases leaves a world behind.  Only subclasses of [Exception] are
      exceptions here.  The interrupt of the user ([KeyboardInterrupt]),
      which [except Exception] does not catch, is kept apart and arrives
      where the program waits for the user, at [input].
    - What a collector returns is a [pyval], so [json.dumps] does not
      raise on it.
    - [print] is the console, which takes a line or raises (a
      [UnicodeEncodeError] when it cannot encode the text, a [ValueError]
      when it is closed); nothing is assumed about the lines it takes.
      The lines that carry the query, a value decoded from the reply of
      the model, or the answer are calls of [print].  A line of fixed
      wording, of a registered name or of the text of an exception is
      taken as written: it is left out, or kept as what [main] shows. *)

From Stdlib Require Import ZArith List String Ascii Bool Lia DecimalString.
From Stdlib Require Import Sorting.Permutation Sorting.Sorted.
Import ListNotations.

Set Warnings "-register-all".

Local Open Scope string_scope.
Local Open Scope Z_scope.

(** ** Python values *)

(** [PFloat m e r] is the float of value [m * 2^e] whose [repr] is the text
    [r]; infinities and NaN are not represented. *)
Inductive pyval : Type :=
| PNone
| PBool (b : bool)
| PInt (z : Z)
| PFloat (m e : Z) (r : string)
| PStr (s : string)
| PList (l : list pyval)
| PDict (d : list (pyval * pyval)).

Definition pydict : Type := list (pyval * pyval).

(** [type(v).__name__], as it appears in the interpreter's messages. *)
Definition py_type_name (v : pyval) : string :=
  match v with
  | PNone => "NoneType"
  | PBool _ => "bool"
  | PInt _ => "int"
  | PFloat _ _ _ => "float"
  | PStr _ => "str"
  | PList _ => "list"
  | PDict _ => "dict"
  end.

(** *** Exceptions *)

Inductive exn_class : Type :=
| JSONDecodeError
| AttributeError
| TypeError
| IndexError
| OtherException (name : string).

(** An exception is its class and [str(e)]. *)
Record exn : Type := Exn { exn_class_of : exn_class; exn_str : string }.

Definition is_JSONDecodeError (e : exn) : bool :=
  match exn_class_of e with
  | JSONDecodeError => true
  | _ => false
  end.

Inductive outcome (A : Type) : Type :=
| Returns (a : A)
| Raises (e : exn).
Arguments Returns {A} a.
Arguments Raises {A} e.

(** *** Keys: hashing and equality *)

(** Lists and dicts are unhashable; every other value of [pyval] hashes. *)
Definition hashable (v : pyval) : bool :=
  match v with
  | PList _ | PDict _ => false
  | _ => true
  end.

(** The number a [bool], [int] or [float] stands for, as [m * 2^e]. *)
Definition numeric_value (v : pyval) : option (Z * Z) :=
  match v with
  | PBool b => Some (Z.b2z b, 0)
  | PInt z => Some (z, 0)
  | PFloat m e _ => Some (m, e)
  | _ => None
  end.

Definition dyadic_eqb (x y : Z * Z) : bool :=
  let e := Z.min (snd x) (snd y) in
  (fst x * 2 ^ (snd x - e)) =? (fst y * 2 ^ (snd y - e)).

(** [a == b] between hashable values: strings by content, [None] with
    itself, numbers by value across [bool], [int] and [float]
    ([True == 1 == 1.0]). *)
Definition py_eqb (a b : pyval) : bool :=
  match a, b with
  | PNone, PNone => true
  | PStr s, PStr t => String.eqb s t
  | _, _ =>
      match numeric_value a, numeric_value b with
      | Some x, Some y => dyadic_eqb x y
      | _, _ => false
      end
  end.

(** *** Dictionaries *)

(** [key in d] and [d[key]] for a hashable [key]. *)
Fixpoint dict_lookup {V : Type} (d : list (pyval * V)) (key : pyval) : option V :=
  match d with
  | [] => None
  | (k, v) :: rest => if py_eqb k key then Some v else dict_lookup rest key
  end.

(** [d[key] = value]: an existing key keeps its place (and the key object
    that was stored first) and takes the new value; a new key goes last. *)
Fixpoint dict_set (d : pydict) (key value : pyval) : pydict :=
  match d with
  | [] => [(key, value)]
  | (k, v) :: rest =>
      if py_eqb k key then (k, value) :: rest
      else (k, v) :: dict_set rest key value
  end.

Definition dict_keys {V : Type} (d : list (pyval * V)) : list pyval := map fst d.

(** [d.get(key, default)] with a string literal as [key] *)
Definition dict_get (d : pydict) (key : string) (default : pyval) : pyval :=
  match dict_lookup d (PStr key) with
  | Some v => v
  | None => default
  end.

(** [obj.get(key, default)]: only a dict has the method. *)
Definition py_get (obj : pyval) (key : string) (default : pyval) : outcome pyval :=
  match obj with
  | PDict d => Returns (dict_get d key default)
  | _ => Raises (Exn AttributeError
                   ("'" ++ py_type_name obj ++ "' object has no attribute 'get'"))
  end.

(** What [for x in obj] visits: the items of a list, the characters of a
    string, the keys of a dict; the other values are not iterable. *)
Definition py_iter (obj : pyval) : outcome (list pyval) :=
  match obj with
  | PList l => Returns l
  | PStr s => Returns (map (fun c => PStr (String c EmptyString)) (list_ascii_of_string s))
  | PDict d => Returns (dict_keys d)
  | _ => Raises (Exn TypeError ("'" ++ py_type_name obj ++ "' object is not iterable"))
  end.

(** ** Formatting *)

Definition double_quote : ascii := ascii_of_nat 34.
Definition single_quote : ascii := ascii_of_nat 39.
Definition backslash : ascii := ascii_of_nat 92.

Fixpoint has_char (c : ascii) (s : string) : bool :=
  match s with
  | EmptyString => false
  | String a rest => Ascii.eqb a c || has_char c rest
  end.

Definition hex_digit (n : nat) : ascii :=
  ascii_of_nat (if Nat.ltb n 10 then 48 + n else 87 + n).

(** A character [repr] writes as it is: the printable ones, that is all but
    the controls, U+007F to U+00A0 and the soft hyphen U+00AD. *)
Definition is_printable (c : ascii) : bool :=
  let n := nat_of_ascii c in
  (Nat.leb 32 n && Nat.ltb n 127) || (Nat.ltb 160 n && negb (Nat.eqb n 173)).

Definition repr_char (quote c : ascii) : string :=
  let n := nat_of_ascii c in
  if Ascii.eqb c quote || Ascii.eqb c backslash then String backslash (String c "")
  else if Nat.eqb n 9 then String backslash "t"
  else if Nat.eqb n 10 then String backslash "n"
  else if Nat.eqb n 13 then String backslash "r"
  else if is_printable c then String c ""
  else String backslash
         (String "x" (String (hex_digit (Nat.div n 16)) (String (hex_digit (Nat.modulo n 16)) ""))).

(** [repr] of a string: single quotes, unless the text has a single quote
    and no double quote. *)
Definition repr_str (s : string) : string :=
  let quote :=
    if has_char single_quote s && negb (has_char double_quote s)
    then double_quote else single_quote in
  String quote
    (String.concat "" (map (repr_char quote) (list_ascii_of_string s)) ++ String quote "").

Fixpoint py_repr (v : pyval) : string :=
  match v with
  | PNone => "None"
  | PBool true => "True"
  | PBool false => "False"
  | PInt z => NilZero.string_of_int (Z.to_int z)
  | PFloat _ _ r => r
  | PStr s => repr_str s
  | PList l => "[" ++ String.concat ", " (map py_repr l) ++ "]"
  | PDict d =>
      "{" ++ String.concat ", "
               (map (fun kv => py_repr (fst kv) ++ ": " ++ py_repr (snd kv)) d) ++ "}"
  end.

(** [str(v)], which is also what an f-string field [{v}] inserts. *)
Definition py_str (v : pyval) : string :=
  match v with
  | PStr s => s
  | _ => py_repr v
  end.

(** The characters [str.isspace] accepts. *)
Definition is_space (c : ascii) : bool :=
  let n := nat_of_ascii c in
  (Nat.leb 9 n && Nat.leb n 13) || (Nat.leb 28 n && Nat.leb n 32)
  || Nat.eqb n 133 || Nat.eqb n 160.

Fixpoint lstrip (s : string) : string :=
  match s with
  | EmptyString => EmptyString
  | String c rest => if is_space c then lstrip rest else s
  end.

Fixpoint rstrip (s : string) : string :=
  match s with
  | EmptyString => EmptyString
  | String c rest =>
      match rstrip rest with
      | EmptyString => if is_space c then EmptyString else String c EmptyString
      | kept => String c kept
      end
  end.

(** [s.strip()] *)
Definition py_strip (s : string) : string := rstrip (lstrip s).

(** [needle in hay] between strings *)
Fixpoint py_in_str (needle hay : string) : bool :=
  String.prefix needle hay ||
  match hay with
  | EmptyString => false
  | String _ rest => py_in_str needle rest
  end.

(** ** Calls that raise and act on the world *)

Definition M (World A : Type) : Type := World -> outcome A * World.

Definition ret {World A : Type} (a : A) : M World A := fun w => (Returns a, w).

Definition raise {World A : Type} (e : exn) : M World A := fun w => (Raises e, w).

Definition bind {World A B : Type} (m : M World A) (k : A -> M World B) : M World B :=
  fun w =>
    match m w with
    | (Returns a, w') => k a w'
    | (Raises e, w') => (Raises e, w')
    end.

(** A computation that does not touch the world. *)
Definition lift {World A : Type} (o : outcome A) : M World A := fun w => (o, w).

(** [try: body / except Exception as e: handler e] *)
Definition try_except {World A : Type} (body : M World A) (handler : exn -> M World A)
  : M World A :=
  fun w =>
    match body w with
    | (Returns a, w') => (Returns a, w')
    | (Raises e, w') => handler e w'
    end.

Declare Scope py_scope.
Delimit Scope py_scope with py.
Notation "x <- m ;; k" := (bind m (fun x => k))
  (at level 61, m at next level, right associativity) : py_scope.
Notation "m ;;; k" := (bind m (fun _ => k))
  (at level 61, right associativity) : py_scope.
Local Open Scope py_scope.

(** ** The chat-completion client *)

(** A request is the call site of [client.chat.completions.create] with the
    values its messages are formatted from; the fixed wording of the
    prompts is not kept. *)
Inductive chat_request : Type :=
| ParsingRequest (model : string) (functions_desc : string) (user_query : string)
| ResponseRequest (model : string) (user_query : string)
    (parsing_result system_data : pyval) (response_style focus : pyval)
| ConnectionRequest (model : string).

(** A completion: [response.choices], each choice with its
    [message.content], which may be [None]. *)
Record ChatCompletion : Type := { choices : list (option string) }.

(** [response.choices[0].message.content] *)
Definition first_content (response : ChatCompletion) : outcome (option string) :=
  match choices response with
  | c :: _ => Returns c
  | [] => Raises (Exn IndexError "list index out of range")
  end.

(** ** The console *)

(** A line given to [print]: the call site and the text its f-string
    inserts, without the fixed wording around it. *)
Inductive console_line : Type :=
| ProcessingQuery (user_query : string)
| ParsedQuery (reasoning : string)
| CallingFunctions (functions_to_call : string)
| Response (response : string).

Section Pipeline.

(** The outside world: the state of the operating system the collectors
    read and of the service behind the client. *)
Variable World : Type.

(** [json.loads] on a string: the decoded value, or the exception it raises
    ([JSONDecodeError] on text that is not JSON). *)
Variable json_loads_str : string -> outcome pyval.

(** [print] on a line: it returns, or raises what the console raised. *)
Variable print : console_line -> outcome unit.

Let Py : Type -> Type := M World.

(** [json.loads(content)]: a [None] content is a [TypeError]. *)
Definition json_loads (content : option string) : outcome pyval :=
  match content with
  | Some s => json_loads_str s
  | None => Raises (Exn TypeError
                      "the JSON object must be str, bytes or bytearray, not NoneType")
  end.

Record OpenAI : Type := { create : chat_request -> Py ChatCompletion }.

(** *** [system_info_collector.py] *)

(** A collector called with keyword arguments. *)
Definition kwargs : Type := list (string * pyval).
Definition collector : Type := kwargs -> Py pyval.

(** The object: its nine collector methods, whose bodies read the operating
    system, and the [available_functions] dict of its instance, whose keys
    are strings. *)
Record SystemInfoCollector : Type := {
  get_battery_info : collector;
  get_cpu_info : collector;
  get_memory_info : collector;
  get_disk_info : collector;
  get_network_info : collector;
  get_processes_info : collector;
  get_system_info : collector;
  get_uptime_info : collector;
  get_temperature_info : collector;
  available_functions : list (string * collector)
}.

(** [self.available_functions[name]], when [name in self.available_functions]:
    only a string equals one of the keys. *)
Fixpoint registered (fs : list (string * collector)) (name : pyval) : option collector :=
  match fs with
  | [] => None
  | (k, f) :: rest => if py_eqb (PStr k) name then Some f else registered rest name
  end.

Definition error_record (message : string) : pyval :=
  PDict [(PStr "error", PStr message)].

Definition get_function_list (self : SystemInfoCollector) : list string :=
  map fst (available_functions self).

(** [function_name in self.available_functions] hashes the name first. *)
Definition call_function (self : SystemInfoCollector) (function_name : pyval)
    (kw : kwargs) : Py pyval :=
  if hashable function_name then
    match registered (available_functions self) function_name with
    | Some f =>
        try_except (f kw)
          (fun e => ret (error_record
                           ("Error calling " ++ py_str function_name ++ ": " ++ exn_str e)))
    | None => ret (error_record ("Unknown function: " ++ py_str function_name))
    end
  else raise (Exn TypeError ("unhashable type: '" ++ py_type_name function_name ++ "'")).

(** The loop of [call_multiple_functions] over the names still to visit. *)
Fixpoint call_each (self : SystemInfoCollector) (names : list pyval) (results : pydict)
  : Py pydict :=
  match names with
  | [] => ret results
  | func_name :: rest =>
      r <- call_function self func_name [] ;;
      call_each self rest (dict_set results func_name r)
  end.

Definition call_multiple_functions (self : SystemInfoCollector) (function_names : pyval)
  : Py pyval :=
  names <- lift (py_iter function_names) ;;
  results <- call_each self names [] ;;
  ret (PDict results).

(** [_test_core_functions]: three collectors are tried, a failure is only
    printed. *)
Definition _test_core_functions (self : SystemInfoCollector) : Py unit :=
  try_except
    (get_battery_info self [] ;;; get_cpu_info self [] ;;; get_memory_info self [] ;;; ret tt)
    (fun _ => ret tt).

(** [__init__]: the dict of the nine methods under their names, then the
    self test. *)
Definition SystemInfoCollector_init
    (battery cpu memory disk network processes system uptime temperature : collector)
  : Py SystemInfoCollector :=
  let self :=
    {| get_battery_info := battery; get_cpu_info := cpu; get_memory_info := memory;
       get_disk_info := disk; get_network_info := network;
       get_processes_info := processes; get_system_info := system;
       get_uptime_info := uptime; get_temperature_info := temperature;
       available_functions :=
         [("get_battery_info", battery); ("get_cpu_info", cpu);
          ("get_memory_info", memory); ("get_disk_info", disk);
          ("get_network_info", network); ("get_processes_info", processes);
          ("get_system_info", system); ("get_uptime_info", uptime);
          ("get_temperature_info", temperature)] |} in
  _test_core_functions self ;;; ret self.

(** *** [llm_processor.py] *)

Record LLMQueryProcessor : Type := { client : OpenAI; model : string }.

Definition descriptions : list (string * string) :=
  [("get_battery_info", "Battery percentage, charging status, time remaining");
   ("get_cpu_info", "CPU usage, cores, frequency");
   ("get_memory_info", "RAM usage, available memory, swap");
   ("get_disk_info", "Disk usage, free space, partitions");
   ("get_network_info", "Network statistics, data transferred");
   ("get_processes_info", "Running processes, CPU/memory usage");
   ("get_system_info", "OS, platform, architecture details");
   ("get_uptime_info", "System uptime, boot time");
   ("get_temperature_info", "System temperatures (if available)")].

Definition _get_function_description (func_name : string) : string :=
  match find (fun kv => String.eqb (fst kv) func_name) descriptions with
  | Some kv => snd kv
  | None => "System information"
  end.

Definition newline : string := String (ascii_of_nat 10) EmptyString.

(** The [functions_desc] lines that [get_system_prompt_for_parsing] puts
    into its prompt. *)
Definition get_system_prompt_for_parsing (available : list string) : string :=
  String.concat newline
    (map (fun func => "- " ++ func ++ ": " ++ _get_function_description func) available).

Definition fallback_descriptor (reasoning : string) : pyval :=
  PDict [(PStr "functions_to_call",
          PList [PStr "get_battery_info"; PStr "get_cpu_info"; PStr "get_memory_info"]);
         (PStr "response_style", PStr "brief");
         (PStr "focus", PStr "general");
         (PStr "reasoning", PStr reasoning)].

(** The request of [parse_query]. *)
Definition parsing_request (self : LLMQueryProcessor) (user_query : string)
    (available : list string) : chat_request :=
  ParsingRequest (model self) (get_system_prompt_for_parsing available) user_query.

(** The [try] body of [parse_query]. *)
Definition parse_query_body (self : LLMQueryProcessor) (user_query : string)
    (available : list string) : Py pyval :=
  response <- create (client self) (parsing_request self user_query available) ;;
  content <- lift (first_content response) ;;
  lift (json_loads content).

(** The two [except] clauses, [json.JSONDecodeError] before [Exception]. *)
Definition parse_query_handler (e : exn) : pyval :=
  if is_JSONDecodeError e then fallback_descriptor "Fallback due to parsing error"
  else fallback_descriptor "Fallback due to API error".

Definition parse_query (self : LLMQueryProcessor) (user_query : string)
    (available : list string) : Py pyval :=
  try_except (parse_query_body self user_query available)
    (fun e => ret (parse_query_handler e)).

(** [content.strip()] *)
Definition strip_content (content : option string) : outcome string :=
  match content with
  | Some s => Returns (py_strip s)
  | None => Raises (Exn AttributeError "'NoneType' object has no attribute 'strip'")
  end.

(** The request of [generate_response] for a [parsing_result] that is a
    dict. *)
Definition response_request (self : LLMQueryProcessor) (user_query : string)
    (system_data : pyval) (parsing_result : pydict) : chat_request :=
  ResponseRequest (model self) user_query (PDict parsing_result) system_data
    (dict_get parsing_result "response_style" (PStr "conversational"))
    (dict_get parsing_result "focus" (PStr "general")).

Definition response_fallback_prefix : string :=
  "I gathered your system information but had trouble generating a response. Here's the raw data: ".

(** The prompt is formatted before the [try]: the two [json.dumps] do not
    raise on a [pyval], the two [get] do on a [parsing_result] that is not
    a dict. *)
Definition generate_response (self : LLMQueryProcessor) (user_query : string)
    (system_data parsing_result : pyval) : Py string :=
  response_style <- lift (py_get parsing_result "response_style" (PStr "conversational")) ;;
  focus <- lift (py_get parsing_result "focus" (PStr "general")) ;;
  try_except
    (response <- create (client self)
                   (ResponseRequest (model self) user_query parsing_result system_data
                      response_style focus) ;;
     content <- lift (first_content response) ;;
     lift (strip_content content))
    (fun _ => ret (response_fallback_prefix ++ py_str system_data)).

(** ["OK" in content] *)
Definition ok_in_content (content : option string) : outcome bool :=
  match content with
  | Some s => Returns (py_in_str "OK" s)
  | None => Raises (Exn TypeError "argument of type 'NoneType' is not iterable")
  end.

Definition test_connection (self : LLMQueryProcessor) : Py bool :=
  try_except
    (response <- create (client self) (ConnectionRequest (model self)) ;;
     content <- lift (first_content response) ;;
     lift (ok_in_content content))
    (fun _ => ret false).

(** *** [system_monitor_agent.py] *)

Record SystemMonitorAgent : Type := {
  system_collector : SystemInfoCollector;
  llm_processor : LLMQueryProcessor
}.

Definition handle_query (self : SystemMonitorAgent) (user_query : string) : Py string :=
  lift (print (ProcessingQuery user_query)) ;;;
  let available := get_function_list (system_collector self) in
  parsing_result <- parse_query (llm_processor self) user_query available ;;
  reasoning <- lift (py_get parsing_result "reasoning" (PStr "No reasoning provided")) ;;
  lift (print (ParsedQuery (py_str reasoning))) ;;;
  functions_to_call <- lift (py_get parsing_result "functions_to_call" (PList [])) ;;
  lift (print (CallingFunctions (py_str functions_to_call))) ;;;
  system_data <- call_multiple_functions (system_collector self) functions_to_call ;;
  generate_response (llm_processor self) user_query system_data parsing_result.

Definition get_available_functions (self : SystemMonitorAgent) : list string :=
  get_function_list (system_collector self).

Definition get_raw_system_data (self : SystemMonitorAgent) (function_names : pyval)
  : Py pyval :=
  call_multiple_functions (system_collector self) function_names.

Definition test_components (self : SystemMonitorAgent) : Py pyval :=
  results <- try_except
               (get_cpu_info (system_collector self) [] ;;;
                ret (dict_set [] (PStr "system_collector") (PBool true)))
               (fun _ => ret (dict_set [] (PStr "system_collector") (PBool false))) ;;
  connected <- test_connection (llm_processor self) ;;
  ret (PDict (dict_set results (PStr "llm_processor") (PBool connected))).

End Pipeline.

Arguments ret {World A} a.
Arguments raise {World A} e.
Arguments bind {World A B} m k.
Arguments lift {World A} o.
Arguments try_except {World A} body handler.
Arguments create {World} o req.
Arguments available_functions {World} s.
Arguments get_cpu_info {World} s kw.
Arguments registered {World} fs name.
Arguments get_function_list {World} self.
Arguments call_function {World} self function_name kw.
Arguments call_each {World} self names results.
Arguments call_multiple_functions {World} self function_names.
Arguments _test_core_functions {World} self.
Arguments SystemInfoCollector_init {World}.
Arguments client {World} l.
Arguments model {World} l.
Arguments parsing_request {World} self user_query available.
Arguments response_request {World} self user_query system_data parsing_result.
Arguments parse_query_body {World} json_loads_str self user_query available.
Arguments parse_query {World} json_loads_str self user_query available.
Arguments generate_response {World} self user_query system_data parsing_result.
Arguments test_connection {World} self.
Arguments system_collector {World} s.
Arguments llm_processor {World} s.
Arguments handle_query {World} json_loads_str print self user_query.
Arguments get_available_functions {World} self.
Arguments get_raw_system_data {World} self function_names.
Arguments test_components {World} self.

(** ** Reference definitions for the properties *)

(** The names of a list in the order of their first occurrence. *)
Fixpoint first_occurrences (names : list string) : list string :=
  match names with
  | [] => []
  | n :: rest => n :: filter (fun m => negb (String.eqb n m)) (first_occurrences rest)
  end.

(** [invoke] applied to each name in turn, without keyword arguments: the
    list of the names with their results. *)
Fixpoint invoke_in_order {World : Type} (self : SystemInfoCollector World)
    (names : list pyval) : M World (list (pyval * pyval)) :=
  match names with
  | [] => ret []
  | n :: rest =>
      r <- call_function self n [] ;;
      entries <- invoke_in_order self rest ;;
      ret ((n, r) :: entries)
  end.

(** Writing a list of entries into a dict, one after the other. *)
Definition store_all (entries : list (pyval * pyval)) (d : pydict) : pydict :=
  fold_left (fun acc kv => dict_set acc (fst kv) (snd kv)) entries d.

(** The number of entries of a dict under the key [name]. *)
Definition count_key (name : string) (d : pydict) : nat :=
  List.length (filter (fun kv => py_eqb (fst kv) (PStr name)) d).

(** The descriptors [handle_query] can work with: a dict whose
    [functions_to_call], the empty list when absent, can be iterated and
    has only hashable items. *)
Definition dispatchable (descriptor : pyval) : bool :=
  match descriptor with
  | PDict d =>
      match py_iter (dict_get d "functions_to_call" (PList [])) with
      | Returns names => forallb hashable names
      | Raises _ => false
      end
  | _ => false
  end.

(** The lines [handle_query] prints for a query and the descriptor the
    parse left, in the order of the prints: the query, then, when the
    descriptor is a dict, its reasoning and its [functions_to_call] as
    [str] renders them. *)
Definition console_lines (user_query : string) (descriptor : pyval) : list console_line :=
  ProcessingQuery user_query ::
  match descriptor with
  | PDict d =>
      [ParsedQuery (py_str (dict_get d "reasoning" (PStr "No reasoning provided")));
       CallingFunctions (py_str (dict_get d "functions_to_call" (PList [])))]
  | _ => []
  end.

(** What the console raised on the first line it refused, if any. *)
Fixpoint first_refused (print : console_line -> outcome unit) (lines : list console_line)
  : option exn :=
  match lines with
  | [] => None
  | line :: rest =>
      match print line with
      | Raises e => Some e
      | Returns _ => first_refused print rest
      end
  end.

(** The client cannot be reached: every call raises. *)
Definition unreachable {World : Type} (c : OpenAI World) : Prop :=
  forall req w, exists e w', create c req w = (Raises e, w').

(** ** A small concrete installation

    The world is the number of readings the collectors have taken so far;
    a collector reports that number and rejects keyword arguments, as a
    method without parameters does. *)

Definition demo_reading (method field : string) : collector nat :=
  fun kw w =>
    match kw with
    | [] => (Returns (PDict [(PStr field, PInt (Z.of_nat w))]), S w)
    | (k, _) :: _ =>
        (Raises (Exn TypeError
                   (method ++ "() got an unexpected keyword argument '" ++ k ++ "'")), w)
    end.

Definition demo_collector : SystemInfoCollector nat :=
  let battery := demo_reading "get_battery_info" "percentage" in
  let cpu := demo_reading "get_cpu_info" "usage_percent" in
  let memory := demo_reading "get_memory_info" "used_gb" in
  let disk := demo_reading "get_disk_info" "used_gb" in
  let network := demo_reading "get_network_info" "bytes_sent" in
  let processes := demo_reading "get_processes_info" "top_processes" in
  let system := demo_reading "get_system_info" "platform" in
  let uptime := demo_reading "get_uptime_info" "uptime_seconds" in
  let temperature := demo_reading "get_temperature_info" "current" in
  {| get_battery_info := battery; get_cpu_info := cpu; get_memory_info := memory;
     get_disk_info := disk; get_network_info := network;
     get_processes_info := processes; get_system_info := system;
     get_uptime_info := uptime; get_temperature_info := temperature;
     available_functions :=
       [("get_battery_info", battery); ("get_cpu_info", cpu);
        ("get_memory_info", memory); ("get_disk_info", disk);
        ("get_network_info", network); ("get_processes_info", processes);
        ("get_system_info", system); ("get_uptime_info", uptime);
        ("get_temperature_info", temperature)] |}.

Definition connection_error : exn :=
  Exn (OtherException "APIConnectionError") "Connection error.".

(** A client whose every call fails. *)
Definition offline_client : OpenAI nat :=
  {| create := fun _ w => (Raises connection_error, w) |}.

(** The service answers the parsing request with a body that is not JSON,
    and the call itself raises the [JSONDecodeError]. *)
Definition garbled_body : exn :=
  Exn JSONDecodeError "Expecting value: line 1 column 1 (char 0)".

Definition garbled_client : OpenAI nat :=
  {| create := fun _ w => (Raises garbled_body, w) |}.

(** A client that answers the parsing request with [parsed], the response
    request with [answer] and the connection test with OK. *)
Definition replying_client (parsed answer : string) : OpenAI nat :=
  {| create := fun req w =>
       match req with
       | ParsingRequest _ _ _ => (Returns {| choices := [Some parsed] |}, w)
       | ResponseRequest _ _ _ _ _ _ => (Returns {| choices := [Some answer] |}, w)
       | ConnectionRequest _ => (Returns {| choices := [Some "OK"] |}, w)
       end |}.

(** A client that answers the parsing request with [parsed] and fails on
    the response request. *)
Definition half_client (parsed : string) : OpenAI nat :=
  {| create := fun req w =>
       match req with
       | ParsingRequest _ _ _ => (Returns {| choices := [Some parsed] |}, w)
       | _ => (Raises connection_error, w)
       end |}.

Definition demo_agent (c : OpenAI nat) : SystemMonitorAgent nat :=
  {| system_collector := demo_collector;
     llm_processor := {| client := c; model := "gpt-4o-mini" |} |}.

(** A console in UTF-8, which takes every line of our texts, and a console
    that was closed, which takes none. *)
Definition utf8_console : console_line -> outcome unit := fun _ => Returns tt.

Definition closed_file : exn :=
  Exn (OtherException "ValueError") "I/O operation on closed file.".

Definition closed_console : console_line -> outcome unit := fun _ => Raises closed_file.

(** A bundle with a value of every kind: a reading of the CPU, the error
    record of a name that is not registered, and a flag. *)
Definition demo_bundle : pyval :=
  PDict [(PStr "get_cpu_info",
          PDict [(PStr "usage_percent", PFloat 25 (-1) "12.5");
                 (PStr "cpu_count", PInt 8);
                 (PStr "per_cpu_usage", PList [PFloat 5 1 "10.0"; PInt (-3)]);
                 (PStr "max_frequency", PNone);
                 (PStr "throttled", PBool false)]);
         (PStr "get_wifi_info",
          PDict [(PStr "error", PStr "Unknown function: get_wifi_info")]);
         (PStr "plugged", PBool true)].

(** [json.loads] on the texts the examples send: an empty object, an empty
    array, and prose where the decoder finds no value. *)
Definition demo_json_loads (s : string) : outcome pyval :=
  if String.eqb s "{}" then Returns (PDict [])
  else if String.eqb s "[]" then Returns (PList [])
  else Raises (Exn JSONDecodeError "Expecting value: line 1 column 1 (char 0)").

(** ** More of Python *)

(** [bool(v)] *)
Definition py_truthy (v : pyval) : bool :=
  match v with
  | PNone => false
  | PBool b => b
  | PInt z => negb (z =? 0)
  | PFloat m _ _ => negb (m =? 0)
  | PStr s => negb (String.eqb s "")
  | PList l => match l with [] => false | _ => true end
  | PDict d => match d with [] => false | _ => true end
  end.

(** [str.lower] on one character: the capital letters of ASCII and of
    Latin-1 (U+00C0 to U+00DE without the multiplication sign) move by 32. *)
Definition lower_char (c : ascii) : ascii :=
  let n := nat_of_ascii c in
  if (Nat.leb 65 n && Nat.leb n 90)
     || (Nat.leb 192 n && Nat.leb n 222 && negb (Nat.eqb n 215))
  then ascii_of_nat (n + 32) else c.

(** [s.lower()] *)
Fixpoint py_lower (s : string) : string :=
  match s with
  | EmptyString => EmptyString
  | String c rest => String (lower_char c) (py_lower rest)
  end.

(** [try: body / except (classes) as e: handler e], where [caught] tells
    the exceptions of the listed classes: any other one goes on. *)
Definition try_except_when {World A : Type} (caught : exn -> bool)
    (body : M World A) (handler : exn -> M World A) : M World A :=
  fun w =>
    match body w with
    | (Returns a, w') => (Returns a, w')
    | (Raises e, w') => if caught e then handler e w' else (Raises e, w')
    end.

(** [x < y] between numbers given as [m * 2^e]. *)
Definition dyadic_ltb (x y : Z * Z) : bool :=
  let e := Z.min (snd x) (snd y) in
  (fst x * 2 ^ (snd x - e)) <? (fst y * 2 ^ (snd y - e)).

(** The decimal text of an integer, as [str] and an f-string give it. *)
Definition py_int_str (z : Z) : string := NilZero.string_of_int (Z.to_int z).

(** ** The collectors and [psutil] *)

(** [psutil.POWER_TIME_UNLIMITED]; [psutil.POWER_TIME_UNKNOWN] is [-1]. *)
Definition POWER_TIME_UNLIMITED : Z := -2.

(** What [psutil] returns.  The seconds a battery has left are an integer,
    the two special values included; a byte count is an integer; a reading
    that is a float, a flag or a text stays a [pyval]. *)
Record sbattery : Type := {
  battery_percent : pyval;
  battery_secsleft : Z;
  battery_power_plugged : pyval
}.

Record scpufreq : Type := {
  freq_current : pyval;
  freq_min : pyval;
  freq_max : pyval
}.

Record sdiskpart : Type := {
  part_device : string;
  part_mountpoint : string;
  part_fstype : string
}.

Record sdiskusage : Type := {
  usage_total : Z;
  usage_used : Z;
  usage_free : Z
}.

Record svmem : Type := {
  vm_total : Z;
  vm_available : Z;
  vm_used : Z;
  vm_percent : pyval
}.

Record sswap : Type := {
  swap_total : Z;
  swap_used : Z
}.

(** [proc.info] with the [cpu_percent] it holds: [None], or a float given
    by its value [m * 2^e]. *)
Record pinfo : Type := {
  info_dict : pyval;
  info_cpu_percent : option (Z * Z)
}.

Section Collectors.

Variable World : Type.
Let Py : Type -> Type := M World.

(** The calls of [psutil] the modelled collectors make.  Walking
    [process_iter] gives, for each process, its [info] or the exception
    reading it raises. *)
Record Psutil : Type := {
  sensors_battery : Py (option sbattery);
  cpu_percent_total : Py pyval;
  cpu_count : Py pyval;
  cpu_percent_percpu : Py pyval;
  cpu_freq : Py (option scpufreq);
  virtual_memory : Py svmem;
  swap_memory : Py sswap;
  disk_partitions : Py (list sdiskpart);
  disk_usage : string -> Py sdiskusage;
  process_iter : Py (list (outcome pinfo))
}.

(** Float arithmetic and the class tests of [except] clauses are taken as
    given: [round_gb x] is [round(x / (1024 ** 3), 2)], [round_percent u t]
    is [round((u / t) * 100, 1)] (and [round(u / t * 100, 1)], the same
    number) for a [t] that is not zero, [is_OSError]
    tells the instances of [OSError] (of which [PermissionError] is one),
    [is_gone] those of [psutil.NoSuchProcess] and [psutil.AccessDenied]. *)
Variable round_gb : Z -> pyval.
Variable round_percent : Z -> Z -> pyval.
Variable is_OSError : exn -> bool.
Variable is_gone : exn -> bool.

Definition time_left_formatted (secsleft : Z) : string :=
  if secsleft =? POWER_TIME_UNLIMITED then "Charging/Unknown"
  else py_int_str (secsleft / 3600) ++ "h " ++ py_int_str ((secsleft mod 3600) / 60) ++ "m".

(** The body of [get_battery_info]. *)
Definition get_battery_info_body (ps : Psutil) : Py pyval :=
  try_except
    (battery <- sensors_battery ps ;;
     match battery with
     | Some b =>
         ret (PDict
                [(PStr "percentage", battery_percent b);
                 (PStr "plugged_in", battery_power_plugged b);
                 (PStr "time_left_seconds",
                  if battery_secsleft b =? POWER_TIME_UNLIMITED then PNone
                  else PInt (battery_secsleft b));
                 (PStr "time_left_formatted",
                  PStr (time_left_formatted (battery_secsleft b)))])
     | None => ret (error_record "Battery information not available (desktop system?)")
     end)
    (fun e => ret (error_record ("Error getting battery info: " ++ exn_str e))).

(** The inner [try] of [get_cpu_info]: the frequencies are added when
    [cpu_freq] gives some, and any failure leaves [result] as it is. *)
Definition add_cpu_freq (ps : Psutil) (result : pydict) : Py pydict :=
  try_except
    (freq <- cpu_freq ps ;;
     match freq with
     | Some f =>
         ret (dict_set
                (dict_set
                   (dict_set result (PStr "frequency_mhz") (freq_current f))
                   (PStr "frequency_max") (freq_max f))
                (PStr "frequency_min") (freq_min f))
     | None => ret result
     end)
    (fun _ => ret result).

(** The body of [get_cpu_info]. *)
Definition get_cpu_info_body (ps : Psutil) : Py pyval :=
  try_except
    (percent <- cpu_percent_total ps ;;
     count <- cpu_count ps ;;
     per_core <- cpu_percent_percpu ps ;;
     result <- add_cpu_freq ps
                 [(PStr "usage_percent", percent);
                  (PStr "cores", count);
                  (PStr "per_core_usage", per_core)] ;;
     ret (PDict result))
    (fun e => ret (error_record ("Error getting CPU info: " ++ exn_str e))).

(** The body of [get_memory_info]: the share of the swap in use is
    computed only for a total above zero, and is [round(0, 1)], the integer
    zero, otherwise. *)
Definition get_memory_info_body (ps : Psutil) : Py pyval :=
  try_except
    (memory <- virtual_memory ps ;;
     swap <- swap_memory ps ;;
     ret (PDict
            [(PStr "total_gb", round_gb (vm_total memory));
             (PStr "available_gb", round_gb (vm_available memory));
             (PStr "used_gb", round_gb (vm_used memory));
             (PStr "percentage", vm_percent memory);
             (PStr "swap_total_gb", round_gb (swap_total swap));
             (PStr "swap_used_gb", round_gb (swap_used swap));
             (PStr "swap_percentage",
              if 0 <? swap_total swap
              then round_percent (swap_used swap) (swap_total swap)
              else PInt 0)]))
    (fun e => ret (error_record ("Error getting memory info: " ++ exn_str e))).

(** [(usage.used / usage.total) * 100], rounded: the division raises on a
    total of zero. *)
Definition usage_percentage (usage : sdiskusage) : outcome pyval :=
  if usage_total usage =? 0
  then Raises (Exn (OtherException "ZeroDivisionError") "division by zero")
  else Returns (round_percent (usage_used usage) (usage_total usage)).

(** The dict [get_disk_info] stores for a partition. *)
Definition disk_entry (partition : sdiskpart) (usage : sdiskusage) : outcome pyval :=
  match usage_percentage usage with
  | Returns percentage =>
      Returns (PDict
                 [(PStr "mountpoint", PStr (part_mountpoint partition));
                  (PStr "filesystem", PStr (part_fstype partition));
                  (PStr "total_gb", round_gb (usage_total usage));
                  (PStr "used_gb", round_gb (usage_used usage));
                  (PStr "free_gb", round_gb (usage_free usage));
                  (PStr "percentage", percentage)])
  | Raises e => Raises e
  end.

(** The loop of [get_disk_info] over the partitions still to visit. *)
Fixpoint scan_partitions (ps : Psutil) (partitions : list sdiskpart) (disks : pydict)
  : Py pydict :=
  match partitions with
  | [] => ret disks
  | partition :: rest =>
      disks' <- try_except_when is_OSError
                  (usage <- disk_usage ps (part_mountpoint partition) ;;
                   entry <- lift (disk_entry partition usage) ;;
                   ret (dict_set disks (PStr (part_device partition)) entry))
                  (fun _ => ret disks) ;;
      scan_partitions ps rest disks'
  end.

(** The body of [get_disk_info]. *)
Definition get_disk_info_body (ps : Psutil) : Py pyval :=
  try_except
    (partitions <- disk_partitions ps ;;
     disks <- scan_partitions ps partitions [] ;;
     ret (PDict disks))
    (fun e => ret (error_record ("Error getting disk info: " ++ exn_str e))).

(** The first loop of [get_processes_info]: the [info] of each process,
    those that are gone or denied left out. *)
Fixpoint collect_processes (procs : list (outcome pinfo)) : outcome (list pinfo) :=
  match procs with
  | [] => Returns []
  | Returns p :: rest =>
      match collect_processes rest with
      | Returns ps => Returns (p :: ps)
      | Raises e => Raises e
      end
  | Raises e :: rest => if is_gone e then collect_processes rest else Raises e
  end.

(** The sort key [x['cpu_percent'] or 0], as the number it stands for. *)
Definition cpu_key (p : pinfo) : Z * Z :=
  match info_cpu_percent p with
  | Some x => x
  | None => (0, 0)
  end.

(** [processes.sort(key=..., reverse=True)]: by falling key, processes of
    equal key in the order they had. *)
Fixpoint insert_process (p : pinfo) (sorted : list pinfo) : list pinfo :=
  match sorted with
  | [] => [p]
  | q :: rest =>
      if dyadic_ltb (cpu_key p) (cpu_key q) then q :: insert_process p rest
      else p :: sorted
  end.

Definition sort_processes (processes : list pinfo) : list pinfo :=
  fold_right insert_process [] processes.

(** [l[:limit]] *)
Definition slice_to {A : Type} (l : list A) (limit : pyval) : outcome (list A) :=
  match limit with
  | PNone => Returns l
  | PInt n =>
      Returns (firstn (Z.to_nat (if n <? 0 then Z.of_nat (List.length l) + n else n)) l)
  | PBool b => Returns (firstn (if b then 1 else 0) l)
  | _ => Raises (Exn TypeError
                   "slice indices must be integers or None or have an __index__ method")
  end.

(** The body of [get_processes_info] for a given [limit]. *)
Definition get_processes_info_body (ps : Psutil) (limit : pyval) : Py pyval :=
  try_except
    (procs <- process_iter ps ;;
     processes <- lift (collect_processes procs) ;;
     top <- lift (slice_to (sort_processes processes) limit) ;;
     ret (PDict [(PStr "top_processes", PList (map info_dict top))]))
    (fun e => ret (error_record ("Error getting process info: " ++ exn_str e))).

End Collectors.

Arguments sensors_battery {World} p.
Arguments cpu_percent_total {World} p.
Arguments cpu_count {World} p.
Arguments cpu_percent_percpu {World} p.
Arguments cpu_freq {World} p.
Arguments virtual_memory {World} p.
Arguments swap_memory {World} p.
Arguments get_memory_info_body {World} round_gb round_percent ps.
Arguments disk_partitions {World} p.
Arguments disk_usage {World} p mountpoint.
Arguments process_iter {World} p.
Arguments get_battery_info_body {World} ps.
Arguments add_cpu_freq {World} ps result.
Arguments get_cpu_info_body {World} ps.
Arguments scan_partitions {World} round_gb round_percent is_OSError ps partitions disks.
Arguments get_disk_info_body {World} round_gb round_percent is_OSError ps.
Arguments get_processes_info_body {World} is_gone ps limit.

(** ** [main.py] *)

(** What the program shows: the values, not the wording around them. *)
Inductive shown : Type :=
| KeyRequired
| ComponentStatus (results : pyval)
| ComponentsFailed
| InitFailed (message : string)
| FunctionList (functions : list string)
| AgentAnswer (response : string)
| UnexpectedError (message : string)
| Goodbye.

Inductive control : Type := Continue | Break.

Definition quit_words : list string := ["quit"; "exit"; "bye"; "q"].

(** [d.values()] *)
Definition dict_values (v : pyval) : outcome (list pyval) :=
  match v with
  | PDict d => Returns (map snd d)
  | _ => Raises (Exn AttributeError
                   ("'" ++ py_type_name v ++ "' object has no attribute 'values'"))
  end.

(** How a call that waits for the user ends: with its outcome, or with the
    [KeyboardInterrupt] of the user, which is no [Exception]. *)
Inductive interruptible (A : Type) : Type :=
| Completed (o : outcome A)
| Interrupted.
Arguments Completed {A} o.
Arguments Interrupted {A}.

Definition IM (World A : Type) : Type := World -> interruptible A * World.

(** A computation no interrupt arrives in. *)
Definition uninterrupted {World A : Type} (m : M World A) : IM World A :=
  fun w =>
    match m w with
    | (o, w') => (Completed o, w')
    end.

(** Sequencing: an exception and an interrupt both end what follows. *)
Definition bind_interruptible {World A B : Type} (m : IM World A) (k : A -> IM World B)
  : IM World B :=
  fun w =>
    match m w with
    | (Completed (Returns a), w') => k a w'
    | (Completed (Raises e), w') => (Completed (Raises e), w')
    | (Interrupted, w') => (Interrupted, w')
    end.

Section Main.

Variable World : Type.
Variable json_loads_str : string -> outcome pyval.
Variable print : console_line -> outcome unit.
Let Py : Type -> Type := M World.

(** What the program finds around it: the [OPENAI_API_KEY] of the
    environment, [input], which the user can interrupt, the constructor of
    the collector and that of the client ([OpenAI(api_key=...)]). *)
Record Runtime : Type := {
  getenv_api_key : option string;
  input : IM World string;
  new_SystemInfoCollector : Py (SystemInfoCollector World);
  new_OpenAI : option string -> Py (OpenAI World)
}.

(** [a or b] between two optional texts. *)
Definition key_or (a b : option string) : option string :=
  match a with
  | Some s => if String.eqb s "" then b else a
  | None => b
  end.

(** [LLMQueryProcessor.__init__] *)
Definition LLMQueryProcessor_init (rt : Runtime) (api_key : option string)
    (model : string) : Py (LLMQueryProcessor World) :=
  c <- new_OpenAI rt (key_or api_key (getenv_api_key rt)) ;;
  ret {| client := c; model := model |}.

(** [SystemMonitorAgent.__init__] *)
Definition SystemMonitorAgent_init (rt : Runtime) (api_key : option string)
    (llm_model : string) : Py (SystemMonitorAgent World) :=
  collector <- new_SystemInfoCollector rt ;;
  processor <- LLMQueryProcessor_init rt api_key llm_model ;;
  ret {| system_collector := collector; llm_processor := processor |}.

(** What the [try] inside the loop of [main] does with the line read. *)
Definition serve_line (agent : SystemMonitorAgent World) (line : string)
  : Py (control * list shown) :=
  let query := py_strip line in
  if existsb (String.eqb (py_lower query)) quit_words then ret (Break, [Goodbye])
  else if String.eqb query "" then ret (Continue, [])
  else if String.eqb (py_lower query) "functions"
  then ret (Continue, [FunctionList (get_available_functions agent)])
  else if String.eqb (py_lower query) "test"
  then results <- test_components agent ;; ret (Continue, [ComponentStatus results])
  else response <- handle_query json_loads_str print agent query ;;
       lift (print (Response response)) ;;;
       ret (Continue, [AgentAnswer response]).

(** The body of that [try]: one line is read and served. *)
Definition loop_body (rt : Runtime) (agent : SystemMonitorAgent World)
  : IM World (control * list shown) :=
  bind_interruptible (input rt) (fun line => uninterrupted (serve_line agent line)).

(** One turn of the loop, with its two [except] clauses: on the
    [KeyboardInterrupt] the program says goodbye and leaves the loop, an
    [Exception] is shown and the loop goes on. *)
Definition loop_iteration (rt : Runtime) (agent : SystemMonitorAgent World)
  : Py (control * list shown) :=
  fun w =>
    match loop_body rt agent w with
    | (Completed (Returns turn), w') => (Returns turn, w')
    | (Interrupted, w') => (Returns (Break, [Goodbye]), w')
    | (Completed (Raises e), w') => (Returns (Continue, [UnexpectedError (exn_str e)]), w')
    end.

(** [while True], for at most [fuel] turns: what was shown when the loop
    ended, or nothing when the turns ran out first. *)
Fixpoint main_loop (fuel : nat) (rt : Runtime) (agent : SystemMonitorAgent World)
    (log : list shown) : Py (option (list shown)) :=
  match fuel with
  | O => ret None
  | S fuel' =>
      turn <- loop_iteration rt agent ;;
      match fst turn with
      | Break => ret (Some (log ++ snd turn)%list)
      | Continue => main_loop fuel' rt agent (log ++ snd turn)%list
      end
  end.

(** The [try] of [main] that builds the agent and tests it: the agent when
    every component passed, with what was shown. *)
Definition start_agent (rt : Runtime) (api_key : string)
  : Py (option (SystemMonitorAgent World) * list shown) :=
  try_except
    (agent <- SystemMonitorAgent_init rt (Some api_key) "gpt-4o-mini" ;;
     test_results <- test_components agent ;;
     status <- lift (dict_values test_results) ;;
     if forallb py_truthy status
     then ret (Some agent, [ComponentStatus test_results])
     else ret (None, [ComponentStatus test_results; ComponentsFailed]))
    (fun e => ret (None, [InitFailed (exn_str e)])).

(** [main], its loop cut at [fuel] turns.  The [input] that asks for the
    key stands outside every [try]. *)
Definition main (fuel : nat) (rt : Runtime) : IM World (option (list shown)) :=
  bind_interruptible
    (match key_or (getenv_api_key rt) None with
     | Some k => uninterrupted (ret k)
     | None => bind_interruptible (input rt) (fun line => uninterrupted (ret (py_strip line)))
     end)
    (fun api_key =>
       uninterrupted
         (if String.eqb api_key "" then ret (Some [KeyRequired])
          else
            started <- start_agent rt api_key ;;
            match fst started with
            | None => ret (Some (snd started))
            | Some agent =>
                main_loop fuel rt agent
                  (snd started ++ [FunctionList (get_available_functions agent)])%list
            end)).

End Main.

Arguments getenv_api_key {World} r.
Arguments input {World} r.
Arguments new_SystemInfoCollector {World} r.
Arguments new_OpenAI {World} r.
Arguments SystemMonitorAgent_init {World} rt api_key llm_model.
Arguments serve_line {World} json_loads_str print agent line.
Arguments loop_body {World} json_loads_str print rt agent.
Arguments loop_iteration {World} json_loads_str print rt agent.
Arguments main_loop {World} json_loads_str print fuel rt agent log.
Arguments start_agent {World} rt api_key.
Arguments main {World} json_loads_str print fuel rt.

(** ** Reference definitions for the further properties *)

(** The names [SystemInfoCollector.__init__] registers, in its order. *)
Definition registry_names : list string :=
  ["get_battery_info"; "get_cpu_info"; "get_memory_info"; "get_disk_info";
   "get_network_info"; "get_processes_info"; "get_system_info"; "get_uptime_info";
   "get_temperature_info"].

(** A text with no white space at its start and none at its end. *)
Definition no_space_at_ends (s : string) : Prop :=
  match s with
  | EmptyString => True
  | String c _ => is_space c = false
  end
  /\ forall before c, s = before ++ String c "" -> is_space c = false.

(** What [call_function] makes of an exception of the collector. *)
Definition calling_error (name : string) (e : exn) : pyval :=
  error_record ("Error calling " ++ name ++ ": " ++ exn_str e).

(** A process comes before another in the sorted list only if its key is
    not smaller. *)
Definition not_below (p q : pinfo) : Prop :=
  dyadic_ltb (cpu_key p) (cpu_key q) = false.

(** ** A small concrete machine

    As in the installation above the world counts the readings taken.  The
    two roundings are stood for by whole gigabytes and whole percents. *)

Definition whole_gb (bytes : Z) : pyval := PInt (bytes / 1073741824).

Definition whole_percent (used total : Z) : pyval := PInt (100 * used / total).

Definition class_among (names : list string) (e : exn) : bool :=
  match exn_class_of e with
  | OtherException name => existsb (String.eqb name) names
  | _ => false
  end.

Definition demo_is_OSError : exn -> bool :=
  class_among ["OSError"; "PermissionError"; "FileNotFoundError"].

Definition demo_is_gone : exn -> bool :=
  class_among ["NoSuchProcess"; "AccessDenied"; "ZombieProcess"].

Definition demo_battery (secsleft : Z) : sbattery :=
  {| battery_percent := PFloat 87 0 "87.0";
     battery_secsleft := secsleft;
     battery_power_plugged := PBool false |}.

Definition demo_psutil (battery : option sbattery) (freq : outcome (option scpufreq))
    (partitions : list sdiskpart) (usage : string -> outcome sdiskusage)
    (procs : list (outcome pinfo)) : Psutil nat :=
  {| sensors_battery := fun w => (Returns battery, S w);
     cpu_percent_total := fun w => (Returns (PFloat 25 (-1) "12.5"), S w);
     cpu_count := fun w => (Returns (PInt 2), w);
     cpu_percent_percpu :=
       fun w => (Returns (PList [PFloat 5 1 "10.0"; PFloat 15 0 "15.0"]), S w);
     cpu_freq := fun w => (freq, w);
     virtual_memory :=
       fun w => (Returns {| vm_total := 17179869184; vm_available := 8589934592;
                            vm_used := 8589934592; vm_percent := PFloat 50 0 "50.0" |},
                 S w);
     swap_memory := fun w => (Returns {| swap_total := 0; swap_used := 0 |}, w);
     disk_partitions := fun w => (Returns partitions, w);
     disk_usage := fun mountpoint w => (usage mountpoint, S w);
     process_iter := fun w => (Returns procs, S w) |}.

Definition root_partition : sdiskpart :=
  {| part_device := "/dev/sda1"; part_mountpoint := "/"; part_fstype := "ext4" |}.

Definition empty_partition : sdiskpart :=
  {| part_device := "tmpfs"; part_mountpoint := "/run/lock"; part_fstype := "tmpfs" |}.

(** The root holds 100 GiB of which 40 are used; every other mount point
    reports nothing at all. *)
Definition demo_usage (mountpoint : string) : outcome sdiskusage :=
  if String.eqb mountpoint "/"
  then Returns {| usage_total := 107374182400; usage_used := 42949672960;
                  usage_free := 64424509440 |}
  else Returns {| usage_total := 0; usage_used := 0; usage_free := 0 |}.

(** The same disk, with the other mount points closed to the reader. *)
Definition guarded_usage (mountpoint : string) : outcome sdiskusage :=
  if String.eqb mountpoint "/" then demo_usage mountpoint
  else Raises (Exn (OtherException "PermissionError") "[Errno 13] Permission denied").

Definition demo_process (pid : Z) (cpu : option (Z * Z)) : pinfo :=
  {| info_dict := PDict [(PStr "pid", PInt pid)]; info_cpu_percent := cpu |}.

Definition demo_processes : list (outcome pinfo) :=
  [Returns (demo_process 1 (Some (3, 0)));
   Returns (demo_process 2 None);
   Returns (demo_process 3 (Some (25, -1)))].

Definition no_such_attribute : exn :=
  Exn AttributeError "module 'psutil' has no attribute 'cpu_freq'".

Definition vanished : exn := Exn (OtherException "NoSuchProcess") "process no longer exists".

Definition end_of_input : exn := Exn (OtherException "EOFError") "EOF when reading a line".

(** A program whose input gives the same [line] for ever, or is exhausted
    when there is none. *)
Definition demo_runtime (key : option string) (line : option string) (c : OpenAI nat)
  : Runtime nat :=
  {| getenv_api_key := key;
     input := fun w => (Completed match line with
                                  | Some l => Returns l
                                  | None => Raises end_of_input
                                  end, w);
     new_SystemInfoCollector := ret demo_collector;
     new_OpenAI := fun _ => ret c |}.

(** The same program with a user who answers every prompt with the
    interrupt key. *)
Definition interrupted_runtime (key : option string) (c : OpenAI nat) : Runtime nat :=
  {| getenv_api_key := key;
     input := fun w => (Interrupted, w);
     new_SystemInfoCollector := ret demo_collector;
     new_OpenAI := fun _ => ret c |}.

(** A method without parameters: a keyword argument is a [TypeError]. *)
Definition no_arguments (name : string) (body : M nat pyval) : collector nat :=
  fun kw =>
    match kw with
    | [] => body
    | (k, _) :: _ =>
        raise (Exn TypeError (name ++ "() got an unexpected keyword argument '" ++ k ++ "'"))
    end.

(** The collector whose battery, CPU and disk methods have the bodies of
    the source over a given [psutil]; the others stay the counting
    readings. *)
Definition measuring_collector (ps : Psutil nat) : SystemInfoCollector nat :=
  let battery := no_arguments "get_battery_info" (get_battery_info_body ps) in
  let cpu := no_arguments "get_cpu_info" (get_cpu_info_body ps) in
  let disk := no_arguments "get_disk_info"
                (get_disk_info_body whole_gb whole_percent demo_is_OSError ps) in
  {| get_battery_info := battery; get_cpu_info := cpu;
     get_memory_info := get_memory_info nat demo_collector;
     get_disk_info := disk;
     get_network_info := get_network_info nat demo_collector;
     get_processes_info := get_processes_info nat demo_collector;
     get_system_info := get_system_info nat demo_collector;
     get_uptime_info := get_uptime_info nat demo_collector;
     get_temperature_info := get_temperature_info nat demo_collector;
     available_functions :=
       [("get_battery_info", battery); ("get_cpu_info", cpu);
        ("get_memory_info", get_memory_info nat demo_collector);
        ("get_disk_info", disk);
        ("get_network_info", get_network_info nat demo_collector);
        ("get_processes_info", get_processes_info nat demo_collector);
        ("get_system_info", get_system_info nat demo_collector);
        ("get_uptime_info", get_uptime_info nat demo_collector);
        ("get_temperature_info", get_temperature_info nat demo_collector)] |}.

Definition measuring_agent (ps : Psutil nat) (c : OpenAI nat) : SystemMonitorAgent nat :=
  {| system_collector := measuring_collector ps;
     llm_processor := {| client := c; model := "gpt-4o-mini" |} |}.

(** * Properties *)

(** ** The embedding on examples *)

Example py_repr_bundle :
  py_repr (PDict [(PStr "get_cpu_info", PDict [(PStr "cores", PInt 8); (PStr "ok", PBool true)]);
                  (PStr "x", PList [PNone; PInt (-3); PStr "it's"])])
  = "{'get_cpu_info': {'cores': 8, 'ok': True}, 'x': [None, -3, " ++
    String double_quote ("it's" ++ String double_quote "]}").
Proof. reflexivity. Qed.

Example py_strip_example :
  py_strip (String (ascii_of_nat 10) "  CPU is fine. ") = "CPU is fine.".
Proof. reflexivity. Qed.

Example numeric_keys_share_an_entry :
  store_all [(PInt 1, PStr "a"); (PBool true, PStr "b"); (PFloat 1 0 "1.0", PStr "c")] []
  = [(PInt 1, PStr "c")].
Proof. reflexivity. Qed.

Example init_builds_demo_collector :
  SystemInfoCollector_init
    (get_battery_info _ demo_collector) (get_cpu_info demo_collector)
    (get_memory_info _ demo_collector) (get_disk_info _ demo_collector)
    (get_network_info _ demo_collector) (get_processes_info _ demo_collector)
    (get_system_info _ demo_collector) (get_uptime_info _ demo_collector)
    (get_temperature_info _ demo_collector) 0%nat
  = (Returns demo_collector, 3%nat).
Proof. reflexivity. Qed.

Example offline_answer :
  handle_query demo_json_loads utf8_console (demo_agent offline_client) "How is my CPU?" 0%nat
  = (Returns (response_fallback_prefix ++
              "{'get_battery_info': {'percentage': 0}, " ++
              "'get_cpu_info': {'usage_percent': 1}, " ++
              "'get_memory_info': {'used_gb': 2}}"), 3%nat).
Proof. reflexivity. Qed.

(** ** Names in the order of their first occurrence *)

Lemma py_eqb_str (a b : string) : py_eqb (PStr a) (PStr b) = String.eqb a b.
Proof. reflexivity. Qed.

Lemma filter_filter_and {A : Type} (p q : A -> bool) (l : list A) :
  filter p (filter q l) = filter (fun x => q x && p x) l.
Proof.
  induction l as [| x l IH]; simpl; [reflexivity |].
  destruct (q x); simpl; [destruct (p x) |]; now rewrite IH.
Qed.

Lemma first_occurrences_filter (p : string -> bool) (l : list string) :
  first_occurrences (filter p l) = filter p (first_occurrences l).
Proof.
  induction l as [| x l IH]; simpl; [reflexivity |].
  destruct (p x) eqn:Hp; simpl.
  - rewrite IH, !filter_filter_and. f_equal.
    apply filter_ext. intros a. apply andb_comm.
  - rewrite IH, filter_filter_and. apply filter_ext. intros a.
    destruct (String.eqb_spec x a) as [<- | _]; simpl; [now rewrite Hp | reflexivity].
Qed.

Lemma first_occurrences_In (l : list string) (x : string) :
  In x (first_occurrences l) <-> In x l.
Proof.
  induction l as [| y l IH]; simpl; [tauto |].
  rewrite filter_In, IH.
  destruct (String.eqb_spec y x) as [-> | Hne]; simpl; intuition congruence.
Qed.

Lemma first_occurrences_NoDup (l : list string) : NoDup (first_occurrences l).
Proof.
  induction l as [| y l IH]; simpl; constructor.
  - rewrite filter_In, String.eqb_refl. simpl. intros [_ H]. discriminate.
  - now apply NoDup_filter.
Qed.

Lemma first_occurrences_length (l : list string) :
  (List.length (first_occurrences l) <= List.length l)%nat.
Proof.
  induction l as [| y l IH]; simpl; [lia |].
  pose proof (filter_length_le (fun m => negb (String.eqb y m)) (first_occurrences l)).
  lia.
Qed.

Lemma first_occurrences_id (l : list string) : NoDup l -> first_occurrences l = l.
Proof.
  induction 1 as [| y l Hy _ IH]; simpl; [reflexivity |].
  rewrite IH. f_equal. apply forallb_filter_id, forallb_forall.
  intros m Hm. destruct (String.eqb_spec y m) as [-> | _]; [contradiction | reflexivity].
Qed.

Lemma first_occurrences_full (l : list string) :
  List.length (first_occurrences l) = List.length l <-> NoDup l.
Proof.
  split.
  - intros Hlen.
    apply (NoDup_incl_NoDup (first_occurrences_NoDup l)); [lia |].
    intros x Hx. now apply first_occurrences_In.
  - intros H. now rewrite first_occurrences_id.
Qed.

(** ** Dicts with string keys *)

Definition str_keyed (d : pydict) : Prop :=
  Forall (fun kv => exists s, fst kv = PStr s) d.

Lemma dict_set_str_keyed (d : pydict) (k : string) (v : pyval) :
  str_keyed d -> str_keyed (dict_set d (PStr k) v).
Proof.
  induction 1 as [| [k0 v0] rest Hk Hrest IH]; simpl.
  - repeat constructor. simpl. eauto.
  - destruct (py_eqb k0 (PStr k)); constructor; auto.
Qed.

Lemma dict_lookup_set_same (d : pydict) (k : string) (v : pyval) :
  dict_lookup (dict_set d (PStr k) v) (PStr k) = Some v.
Proof.
  induction d as [| [k0 v0] rest IH]; simpl.
  - now rewrite String.eqb_refl.
  - destruct (py_eqb k0 (PStr k)) eqn:Hk; simpl; now rewrite Hk.
Qed.

Lemma dict_lookup_set_other (d : pydict) (k k' : string) (v : pyval) :
  str_keyed d -> k <> k' ->
  dict_lookup (dict_set d (PStr k) v) (PStr k') = dict_lookup d (PStr k').
Proof.
  intros Hd Hne. induction Hd as [| [k0 v0] rest [s Hs] _ IH]; simpl in *.
  - destruct (String.eqb_spec k k'); [contradiction | reflexivity].
  - subst k0. simpl.
    destruct (String.eqb_spec s k) as [-> | Hsk]; simpl.
    + destruct (String.eqb_spec k k'); [contradiction | reflexivity].
    + now rewrite IH.
Qed.

Lemma dict_keys_set (d : pydict) (ks : list string) (n : string) (v : pyval) :
  dict_keys d = map PStr ks ->
  dict_keys (dict_set d (PStr n) v)
  = map PStr (if existsb (String.eqb n) ks then ks else ks ++ [n]).
Proof.
  revert ks. induction d as [| [k0 v0] rest IH]; intros [| k ks] Hk;
    simpl in *; try discriminate; [reflexivity |].
  injection Hk as -> Hrest. rewrite py_eqb_str, (String.eqb_sym n k).
  destruct (String.eqb k n); simpl.
  - now rewrite Hrest.
  - rewrite (IH ks Hrest).
    now destruct (existsb (String.eqb n) ks).
Qed.

Lemma dict_keys_str_keyed (d : pydict) (ks : list string) :
  dict_keys d = map PStr ks -> str_keyed d.
Proof.
  revert ks. induction d as [| [k0 v0] rest IH]; intros [| k ks] Hk;
    simpl in *; try discriminate; constructor.
  - injection Hk as -> _. simpl. eauto.
  - injection Hk as _ Hrest. exact (IH ks Hrest).
Qed.

Lemma count_key_keys (d : pydict) (ks : list string) (n : string) :
  dict_keys d = map PStr ks ->
  count_key n d = List.length (filter (fun k => String.eqb k n) ks).
Proof.
  unfold count_key. revert ks.
  induction d as [| [k0 v0] rest IH]; intros [| k ks] Hk;
    simpl in *; try discriminate; [reflexivity |].
  injection Hk as -> Hrest. rewrite py_eqb_str.
  destruct (String.eqb k n); simpl; now rewrite (IH ks Hrest).
Qed.

Lemma NoDup_count_one (l : list string) (n : string) :
  NoDup l -> In n l -> List.length (filter (fun k => String.eqb k n) l) = 1%nat.
Proof.
  induction 1 as [| x l Hx _ IH]; simpl; [tauto |].
  intros [-> | Hin].
  - rewrite String.eqb_refl. simpl. f_equal.
    assert (Hnone : filter (fun k => String.eqb k n) l = []).
    { destruct (filter (fun k => String.eqb k n) l) as [| z t] eqn:Hf; [reflexivity |].
      assert (Hz : In z (filter (fun k => String.eqb k n) l)) by (rewrite Hf; now left).
      apply filter_In in Hz. destruct Hz as [Hz Heq].
      apply String.eqb_eq in Heq. subst z. contradiction. }
    now rewrite Hnone.
  - destruct (String.eqb_spec x n) as [-> | _]; [contradiction | auto].
Qed.

(** ** Substrings *)

Lemma prefix_app (needle hay : string) :
  String.prefix needle hay = true <-> exists rest, hay = needle ++ rest.
Proof.
  revert hay. induction needle as [| c needle IH]; intros hay.
  - split; [intros _; now exists hay | intros _; now destruct hay].
  - destruct hay as [| d hay]; simpl.
    + split; [discriminate | intros (rest & H); discriminate].
    + destruct (Ascii.ascii_dec c d) as [<- | Hne].
      * rewrite IH. split; intros (rest & H); exists rest; [now rewrite H | now injection H].
      * split; [discriminate | intros (rest & H); injection H as H _; now subst d].
Qed.

(** [py_in_str] is the substring test. *)
Lemma py_in_str_spec (needle hay : string) :
  py_in_str needle hay = true <-> exists before rest, hay = before ++ needle ++ rest.
Proof.
  induction hay as [| c hay IH].
  - cbn [py_in_str]. rewrite orb_false_r, prefix_app. split.
    + intros (rest & H). now exists "", rest.
    + intros (before & rest & H). destruct before; simpl in H; [now exists rest | discriminate].
  - cbn [py_in_str]. rewrite orb_true_iff, prefix_app, IH. split.
    + intros [(rest & H) | (before & rest & H)].
      * now exists "", rest.
      * exists (String c before), rest. simpl. now rewrite H.
    + intros (before & rest & H). destruct before as [| d before]; simpl in H.
      * left. now exists rest.
      * right. injection H as _ H. now exists before, rest.
Qed.

Lemma string_app_assoc (a b c : string) : (a ++ b) ++ c = a ++ b ++ c.
Proof. induction a as [| x a IH]; simpl; [reflexivity | now rewrite IH]. Qed.

Lemma string_app_empty_r (a : string) : a ++ "" = a.
Proof. induction a as [| x a IH]; simpl; [reflexivity | now rewrite IH]. Qed.

(** A text of the list occurs in the list joined by a separator. *)
Lemma concat_In (sep x : string) (l : list string) :
  In x l -> exists before rest, String.concat sep l = before ++ x ++ rest.
Proof.
  induction l as [| y l IH]; [intros [] |].
  intros [-> | Hin].
  - exists "". destruct l as [| z l]; simpl.
    + exists "". now rewrite string_app_empty_r.
    + now exists (sep ++ String.concat sep (z :: l)).
  - destruct (IH Hin) as (before & rest & Heq).
    destruct l as [| z l]; [destruct Hin |].
    exists (y ++ sep ++ before), rest.
    change (String.concat sep (y :: z :: l)) with (y ++ sep ++ String.concat sep (z :: l)).
    now rewrite Heq, !string_app_assoc.
Qed.

(** ** Running a computation *)

Section Properties.

Context {World : Type}.
Variable json_loads_str : string -> outcome pyval.

Lemma bind_returns {A B : Type} (m : M World A) (k : A -> M World B) w a w' :
  m w = (Returns a, w') -> bind m k w = k a w'.
Proof. intros H. unfold bind. rewrite H. reflexivity. Qed.

Lemma bind_raises {A B : Type} (m : M World A) (k : A -> M World B) w e w' :
  m w = (Raises e, w') -> bind m k w = (Raises e, w').
Proof. intros H. unfold bind. rewrite H. reflexivity. Qed.

Lemma try_except_returns {A : Type} (body : M World A) handler w a w' :
  body w = (Returns a, w') -> try_except body handler w = (Returns a, w').
Proof. intros H. unfold try_except. rewrite H. reflexivity. Qed.

Lemma try_except_raises {A : Type} (body : M World A) handler w e w' :
  body w = (Raises e, w') -> try_except body handler w = handler e w'.
Proof. intros H. unfold try_except. rewrite H. reflexivity. Qed.

(** A [try] whose handler returns a value never raises. *)
Lemma try_except_total {A : Type} (body : M World A) (h : exn -> A) w :
  exists a w', try_except body (fun e => ret (h e)) w = (Returns a, w').
Proof.
  unfold try_except, ret. destruct (body w) as [[a | e] w']; eauto.
Qed.

(** ** The registry *)

Lemma registered_only_strings (fs : list (string * collector World)) (name : pyval) f :
  registered fs name = Some f -> exists s, name = PStr s.
Proof.
  induction fs as [| [k g] rest IH]; simpl; [discriminate |].
  destruct name; simpl; try exact IH.
  intros _. eauto.
Qed.

Lemma call_function_hashable (self : SystemInfoCollector World) name kw w :
  hashable name = true ->
  exists v w', call_function self name kw w = (Returns v, w').
Proof.
  intros Hh. unfold call_function. rewrite Hh.
  destruct (registered (available_functions self) name) as [f |].
  - apply try_except_total with (h := fun e =>
      error_record ("Error calling " ++ py_str name ++ ": " ++ exn_str e)).
  - unfold ret. eauto.
Qed.

Lemma call_function_unhashable (self : SystemInfoCollector World) name kw w :
  hashable name = false ->
  exists e, call_function self name kw w = (Raises e, w).
Proof.
  intros Hh. unfold call_function. rewrite Hh. unfold raise. eauto.
Qed.

Lemma call_function_str (self : SystemInfoCollector World) (name : string) kw :
  call_function self (PStr name) kw =
  match registered (available_functions self) (PStr name) with
  | Some f =>
      try_except (f kw)
        (fun e => ret (error_record ("Error calling " ++ name ++ ": " ++ exn_str e)))
  | None => ret (error_record ("Unknown function: " ++ name))
  end.
Proof. reflexivity. Qed.

Lemma call_function_unregistered (self : SystemInfoCollector World) (name : string) kw w :
  registered (available_functions self) (PStr name) = None ->
  call_function self (PStr name) kw w
  = (Returns (error_record ("Unknown function: " ++ name)), w).
Proof. intros H. rewrite call_function_str, H. reflexivity. Qed.

(** C4. [call_function] on a name (a string) never raises.  An unregistered
    name gives the error record that quotes it, the dict whose one key
    [error] holds the text [Unknown function: ] followed by the name,
    without touching the world; a registered collector that raises gives
    the dict whose one key [error] holds [Error calling ], the name, a
    colon and the text of the exception; one that returns gives its
    payload. *)
Theorem call_function_never_raises (self : SystemInfoCollector World)
    (function_name : string) (kw : kwargs) (w : World) :
  exists v w',
    call_function self (PStr function_name) kw w = (Returns v, w')
    /\ (registered (available_functions self) (PStr function_name) = None ->
        v = PDict [(PStr "error", PStr ("Unknown function: " ++ function_name))]
        /\ w' = w)
    /\ (forall f, registered (available_functions self) (PStr function_name) = Some f ->
        (forall e w1, f kw w = (Raises e, w1) ->
           v = PDict [(PStr "error",
                       PStr ("Error calling " ++ function_name ++ ": " ++ exn_str e))]
           /\ w' = w1)
        /\ (forall r w1, f kw w = (Returns r, w1) -> v = r /\ w' = w1)).
Proof.
  rewrite call_function_str. unfold error_record.
  destruct (registered (available_functions self) (PStr function_name)) as [f |] eqn:Hreg.
  - unfold try_except, ret. destruct (f kw w) as [[r | e] w1] eqn:Hf.
    + exists r, w1. split; [reflexivity |]. split; [discriminate |].
      intros g Hg. injection Hg as <-. rewrite Hf.
      split; intros ? ? Heq; inversion Heq; subst; auto.
    + eexists _, w1. split; [reflexivity |]. split; [discriminate |].
      intros g Hg. injection Hg as <-. rewrite Hf.
      split; intros ? ? Heq; inversion Heq; subst; auto.
  - eexists _, w. split; [reflexivity |]. split; [auto | discriminate].
Qed.

(** ** The loop of [call_multiple_functions] *)

Lemma call_multiple_functions_list (self : SystemInfoCollector World) names w :
  call_multiple_functions self (PList names) w =
  match call_each self names [] w with
  | (Returns results, w') => (Returns (PDict results), w')
  | (Raises e, w') => (Raises e, w')
  end.
Proof. reflexivity. Qed.

(** The loop stores what [invoke_in_order] produces, entry after entry. *)
Lemma call_each_invoke (self : SystemInfoCollector World) names results w :
  call_each self names results w =
  match invoke_in_order self names w with
  | (Returns entries, w') => (Returns (store_all entries results), w')
  | (Raises e, w') => (Raises e, w')
  end.
Proof.
  revert results w. induction names as [| n rest IH]; intros results w; simpl.
  - reflexivity.
  - unfold bind, ret.
    destruct (call_function self n [] w) as [[r | e] w1]; [| reflexivity].
    rewrite IH.
    destruct (invoke_in_order self rest w1) as [[entries | e] w2]; reflexivity.
Qed.

Lemma invoke_in_order_strings (self : SystemInfoCollector World) (names : list string) w :
  exists entries w',
    invoke_in_order self (map PStr names) w = (Returns entries, w')
    /\ map fst entries = map PStr names.
Proof.
  revert w. induction names as [| n rest IH]; intros w; simpl.
  - exists [], w. split; reflexivity.
  - destruct (call_function_hashable self (PStr n) [] w eq_refl) as (r & w1 & Hr).
    destruct (IH w1) as (entries & w2 & He & Hk).
    exists ((PStr n, r) :: entries), w2. split.
    + rewrite (bind_returns _ _ _ _ _ Hr), (bind_returns _ _ _ _ _ He). reflexivity.
    + simpl. now rewrite Hk.
Qed.

Lemma invoke_in_order_app (self : SystemInfoCollector World) l1 l2 w e1 w1 e2 w2 :
  invoke_in_order self l1 w = (Returns e1, w1) ->
  invoke_in_order self l2 w1 = (Returns e2, w2) ->
  invoke_in_order self (l1 ++ l2)%list w = (Returns (e1 ++ e2)%list, w2).
Proof.
  revert w e1. induction l1 as [| n rest IH]; intros w e1 H1 H2; simpl in *.
  - unfold ret in H1. injection H1 as <- <-. exact H2.
  - unfold bind in H1 |- *.
    destruct (call_function self n [] w) as [[r | e] wa]; [| discriminate].
    destruct (invoke_in_order self rest wa) as [[entries | e] wb] eqn:Hrest; [| discriminate].
    unfold ret in H1. injection H1 as <- <-.
    rewrite (IH wa entries Hrest H2). reflexivity.
Qed.

(** An entry made for an unregistered name is the error record for it. *)
Lemma invoke_in_order_unknown (self : SystemInfoCollector World) (names : list string) :
  forall w entries w',
    invoke_in_order self (map PStr names) w = (Returns entries, w') ->
    forall n r, In (PStr n, r) entries ->
      registered (available_functions self) (PStr n) = None ->
      r = error_record ("Unknown function: " ++ n).
Proof.
  induction names as [| m rest IH]; intros w entries w' H n r Hin Hreg; simpl in H.
  - unfold ret in H. injection H as <- _. destruct Hin.
  - unfold bind in H.
    destruct (call_function self (PStr m) [] w) as [[rm | e] w1] eqn:Hm; [| discriminate].
    destruct (invoke_in_order self (map PStr rest) w1) as [[es | e] w2] eqn:Hrest;
      [| discriminate].
    unfold ret in H. injection H as <- _.
    destruct Hin as [Heq | Hin].
    + injection Heq as -> ->.
      rewrite (call_function_unregistered self n [] w Hreg) in Hm.
      now injection Hm as <- _.
    + exact (IH _ _ _ Hrest n r Hin Hreg).
Qed.

Lemma store_all_app (e1 e2 : list (pyval * pyval)) (d : pydict) :
  store_all (e1 ++ e2)%list d = store_all e2 (store_all e1 d).
Proof. apply fold_left_app. Qed.

Lemma store_all_keys (entries : list (pyval * pyval)) (names : list string) :
  map fst entries = map PStr names ->
  forall (d : pydict) (ks : list string),
    dict_keys d = map PStr ks ->
    dict_keys (store_all entries d)
    = map PStr (ks ++ first_occurrences
                        (filter (fun n => negb (existsb (String.eqb n) ks)) names)).
Proof.
  revert names. induction entries as [| [k v] rest IH]; intros [| n names] Hk d ks Hd;
    simpl in Hk; try discriminate.
  - simpl. now rewrite app_nil_r.
  - injection Hk as -> Hrest. simpl.
    pose proof (dict_keys_set d ks n v Hd) as Hset.
    destruct (existsb (String.eqb n) ks) eqn:Hmem; simpl.
    + exact (IH names Hrest _ ks Hset).
    + rewrite (IH names Hrest _ (ks ++ [n])%list Hset), <- app_assoc. simpl.
      do 3 f_equal.
      rewrite <- first_occurrences_filter, filter_filter_and. f_equal.
      apply filter_ext. intros a.
      rewrite existsb_app. simpl. rewrite orb_false_r, negb_orb.
      now rewrite (String.eqb_sym n a).
Qed.

Lemma store_all_lookup_other (entries : list (pyval * pyval)) (names : list string) (n : string) :
  map fst entries = map PStr names -> ~ In n names ->
  forall d, str_keyed d ->
    dict_lookup (store_all entries d) (PStr n) = dict_lookup d (PStr n).
Proof.
  revert names. induction entries as [| [k v] rest IH]; intros [| m names] Hk Hn d Hd;
    simpl in Hk; try discriminate; [reflexivity |].
  injection Hk as -> Hrest. simpl.
  rewrite (IH names Hrest); [| intros H; apply Hn; now right | now apply dict_set_str_keyed].
  apply dict_lookup_set_other; [assumption |]. intros ->. apply Hn. now left.
Qed.

Lemma dict_set_fresh (d : pydict) (ks : list string) (n : string) (v : pyval) :
  dict_keys d = map PStr ks -> ~ In n ks -> dict_set d (PStr n) v = (d ++ [(PStr n, v)])%list.
Proof.
  revert ks. induction d as [| [k0 v0] rest IH]; intros [| k ks] Hk Hn;
    simpl in *; try discriminate; [reflexivity |].
  injection Hk as -> Hrest. simpl.
  destruct (String.eqb_spec k n) as [-> | _]; [exfalso; auto |].
  now rewrite (IH ks Hrest) by auto.
Qed.

Lemma store_all_fresh (entries : list (pyval * pyval)) (names : list string) :
  map fst entries = map PStr names ->
  forall (d : pydict) (ks : list string),
    dict_keys d = map PStr ks -> NoDup (ks ++ names)%list ->
    store_all entries d = (d ++ entries)%list.
Proof.
  revert names. induction entries as [| [k v] rest IH]; intros [| n names] Hk d ks Hd Hnd;
    simpl in Hk; try discriminate.
  - simpl. now rewrite app_nil_r.
  - injection Hk as -> Hrest. simpl.
    assert (Hn : ~ In n ks).
    { intros Hin. apply NoDup_remove_2 in Hnd. apply Hnd, in_or_app. now left. }
    rewrite (dict_set_fresh d ks n v Hd Hn).
    rewrite (IH names Hrest _ (ks ++ [n])%list).
    + now rewrite <- app_assoc.
    + unfold dict_keys in *. now rewrite !map_app, Hd.
    + now rewrite <- app_assoc.
Qed.

(** ** The bundle of [call_multiple_functions] *)

(** What the loop leaves for a list of names: the entries of
    [invoke_in_order], stored one after the other. *)
Lemma call_multiple_functions_names (self : SystemInfoCollector World)
    (names : list string) w :
  exists entries w',
    invoke_in_order self (map PStr names) w = (Returns entries, w')
    /\ map fst entries = map PStr names
    /\ call_multiple_functions self (PList (map PStr names)) w
       = (Returns (PDict (store_all entries [])), w')
    /\ dict_keys (store_all entries []) = map PStr (first_occurrences names).
Proof.
  destruct (invoke_in_order_strings self names w) as (entries & w' & He & Hk).
  exists entries, w'. repeat split; try assumption.
  - rewrite call_multiple_functions_list, call_each_invoke, He. reflexivity.
  - rewrite (store_all_keys entries names Hk [] [] eq_refl). simpl.
    do 2 f_equal. apply forallb_filter_id, forallb_forall. reflexivity.
Qed.

(** C6, amended.  The bundle has as many entries as [functions_to_call] has
    different names: never more than the list has elements, and as many
    exactly when no name is repeated. *)
Theorem bundle_size_distinct_names (self : SystemInfoCollector World)
    (functions_to_call : list string) (w : World) :
  exists bundle w',
    call_multiple_functions self (PList (map PStr functions_to_call)) w
    = (Returns (PDict bundle), w')
    /\ List.length bundle = List.length (first_occurrences functions_to_call)
    /\ (List.length bundle <= List.length functions_to_call)%nat
    /\ (List.length bundle = List.length functions_to_call <-> NoDup functions_to_call).
Proof.
  destruct (call_multiple_functions_names self functions_to_call w)
    as (entries & w' & _ & _ & Hcall & Hkeys).
  exists (store_all entries []), w'.
  assert (Hlen : List.length (store_all entries [])
                 = List.length (first_occurrences functions_to_call)).
  { rewrite <- (length_map fst (store_all entries [])).
    unfold dict_keys in Hkeys. now rewrite Hkeys, length_map. }
  split; [exact Hcall |]. split; [exact Hlen |]. rewrite Hlen. split.
  - apply first_occurrences_length.
  - apply first_occurrences_full.
Qed.

(** C7.  When a name is repeated, the bundle has exactly one entry for it,
    and that entry holds what the last call for the name returned: the
    call made in the world the names before it have left. *)
Theorem duplicate_name_last_write_wins (self : SystemInfoCollector World)
    (earlier later : list string) (name : string) (w : World) :
  In name earlier -> ~ In name later ->
  exists bundle w' seen w0 v w1,
    call_multiple_functions self (PList (map PStr (earlier ++ name :: later)%list)) w
    = (Returns (PDict bundle), w')
    /\ count_key name bundle = 1%nat
    /\ call_multiple_functions self (PList (map PStr earlier)) w
       = (Returns (PDict seen), w0)
    /\ call_function self (PStr name) [] w0 = (Returns v, w1)
    /\ dict_lookup bundle (PStr name) = Some v.
Proof.
  intros Hdup Hlast.
  destruct (call_multiple_functions_names self earlier w)
    as (e0 & w0 & He0 & Hk0 & Hcall0 & Hkeys0).
  destruct (call_function_hashable self (PStr name) [] w0 eq_refl) as (v & w1 & Hv).
  destruct (invoke_in_order_strings self later w1) as (e2 & w' & He2 & Hk2).
  assert (He1 : invoke_in_order self (map PStr (name :: later)) w0
                = (Returns ((PStr name, v) :: e2), w')).
  { simpl. rewrite (bind_returns _ _ _ _ _ Hv), (bind_returns _ _ _ _ _ He2). reflexivity. }
  pose proof (invoke_in_order_app self _ _ _ _ _ _ _ He0 He1) as Hall.
  rewrite <- map_app in Hall.
  set (names := (earlier ++ name :: later)%list) in *.
  set (entries := (e0 ++ (PStr name, v) :: e2)%list) in *.
  assert (Hk : map fst entries = map PStr names).
  { unfold entries, names. rewrite !map_app. simpl. now rewrite Hk0, Hk2. }
  exists (store_all entries []), w', (store_all e0 []), w0, v, w1.
  split; [| split; [| split; [| split]]].
  - rewrite call_multiple_functions_list, call_each_invoke, Hall. reflexivity.
  - assert (Hkeys : dict_keys (store_all entries []) = map PStr (first_occurrences names)).
    { rewrite (store_all_keys entries names Hk [] [] eq_refl). simpl.
      do 2 f_equal. apply forallb_filter_id, forallb_forall. reflexivity. }
    rewrite (count_key_keys _ _ name Hkeys).
    apply NoDup_count_one; [apply first_occurrences_NoDup |].
    apply first_occurrences_In. unfold names. apply in_or_app. right. now left.
  - exact Hcall0.
  - exact Hv.
  - unfold entries. rewrite store_all_app. simpl.
    rewrite (store_all_lookup_other e2 later name Hk2 Hlast).
    + apply dict_lookup_set_same.
    + apply dict_set_str_keyed. exact (dict_keys_str_keyed _ _ Hkeys0).
Qed.

(** C8.  [call_multiple_functions] calls [call_function] on each name in
    the order of the list, without keyword arguments, and stores each
    result under its name: the keys of the bundle are the names in the
    order of their first occurrence, the bundle is the list of the entries
    itself when no name is repeated, an unregistered name has its error
    record where it stands (the dict whose one key [error] holds
    [Unknown function: ] followed by the name), and the empty list gives
    the empty bundle. *)
Theorem call_multiple_functions_in_order (self : SystemInfoCollector World)
    (names : list string) (w : World) :
  (exists entries w',
      invoke_in_order self (map PStr names) w = (Returns entries, w')
      /\ map fst entries = map PStr names
      /\ call_multiple_functions self (PList (map PStr names)) w
         = (Returns (PDict (store_all entries [])), w')
      /\ dict_keys (store_all entries []) = map PStr (first_occurrences names)
      /\ (NoDup names -> store_all entries [] = entries)
      /\ (forall n r, In (PStr n, r) entries ->
            registered (available_functions self) (PStr n) = None ->
            r = PDict [(PStr "error", PStr ("Unknown function: " ++ n))]))
  /\ call_multiple_functions self (PList []) w = (Returns (PDict []), w).
Proof.
  split; [| reflexivity].
  destruct (call_multiple_functions_names self names w)
    as (entries & w' & He & Hk & Hcall & Hkeys).
  exists entries, w'. repeat split; try assumption.
  - intros Hnd. exact (store_all_fresh entries names Hk [] [] eq_refl Hnd).
  - intros n r. exact (invoke_in_order_unknown self names w entries w' He n r).
Qed.

(** ** The two round trips *)

Lemma parse_query_raised (self : LLMQueryProcessor World) q available w e w' :
  parse_query_body json_loads_str self q available w = (Raises e, w') ->
  parse_query json_loads_str self q available w = (Returns (parse_query_handler e), w').
Proof. intros H. unfold parse_query. now rewrite (try_except_raises _ _ _ _ _ H). Qed.

Lemma parse_query_returned (self : LLMQueryProcessor World) q available w v w' :
  parse_query_body json_loads_str self q available w = (Returns v, w') ->
  parse_query json_loads_str self q available w = (Returns v, w').
Proof. intros H. unfold parse_query. now rewrite (try_except_returns _ _ _ _ _ H). Qed.


Lemma parse_query_body_call_raises (self : LLMQueryProcessor World) q available w e w' :
  create (client self) (parsing_request self q available) w = (Raises e, w') ->
  parse_query_body json_loads_str self q available w = (Raises e, w').
Proof. intros H. unfold parse_query_body. now rewrite (bind_raises _ _ _ _ _ H). Qed.

Lemma parse_query_body_decodes (self : LLMQueryProcessor World) q available w response w' s :
  create (client self) (parsing_request self q available) w = (Returns response, w') ->
  first_content response = Returns (Some s) ->
  parse_query_body json_loads_str self q available w = (json_loads_str s, w').
Proof.
  intros Hc Hs. unfold parse_query_body. rewrite (bind_returns _ _ _ _ _ Hc).
  unfold bind, lift. rewrite Hs. reflexivity.
Qed.

Lemma generate_response_dict (self : LLMQueryProcessor World) q system_data d w :
  generate_response self q system_data (PDict d) w =
  try_except
    (bind (create (client self) (response_request self q system_data d))
       (fun response => bind (lift (first_content response))
                          (fun content => lift (strip_content content))))
    (fun _ => ret (response_fallback_prefix ++ py_str system_data)) w.
Proof. reflexivity. Qed.

Lemma generate_response_total (self : LLMQueryProcessor World) q system_data d w :
  exists answer w', generate_response self q system_data (PDict d) w = (Returns answer, w').
Proof.
  rewrite generate_response_dict.
  apply try_except_total with (h := fun _ => response_fallback_prefix ++ py_str system_data).
Qed.

(** C2, amended.  A reply that decodes is returned as it was decoded,
    whatever its shape. *)
Theorem parse_query_returns_decoded_value (self : LLMQueryProcessor World)
    (user_query : string) (available : list string) (w w' : World)
    (response : ChatCompletion) (text : string) (decoded : pyval) :
  create (client self) (parsing_request self user_query available) w
  = (Returns response, w') ->
  first_content response = Returns (Some text) ->
  json_loads_str text = Returns decoded ->
  parse_query json_loads_str self user_query available w = (Returns decoded, w').
Proof.
  intros Hc Hs Hd. apply parse_query_returned.
  rewrite (parse_query_body_decodes _ _ _ _ _ _ _ Hc Hs). now rewrite Hd.
Qed.

(** C3, amended.  When the call to the model raises, or the text of the
    reply does not decode, [parse_query] returns the fallback descriptor
    and does not raise: the three default collectors, the brief style, the
    general focus, and a reasoning that names the [except] clause taken and
    not the step that failed: the parsing error for a [JSONDecodeError],
    whichever of the two steps raised it, and the API error for every
    other exception. *)
Theorem parse_query_fallback (self : LLMQueryProcessor World)
    (user_query : string) (available : list string) (w w' : World) (e : exn) :
  create (client self) (parsing_request self user_query available) w = (Raises e, w')
  \/ (exists response text,
        create (client self) (parsing_request self user_query available) w
        = (Returns response, w')
        /\ first_content response = Returns (Some text)
        /\ json_loads_str text = Raises e) ->
  parse_query json_loads_str self user_query available w
  = (Returns
       (PDict [(PStr "functions_to_call",
                PList [PStr "get_battery_info"; PStr "get_cpu_info"; PStr "get_memory_info"]);
               (PStr "response_style", PStr "brief");
               (PStr "focus", PStr "general");
               (PStr "reasoning",
                PStr (if is_JSONDecodeError e then "Fallback due to parsing error"
                      else "Fallback due to API error"))]), w').
Proof.
  intros H.
  assert (Hb : parse_query_body json_loads_str self user_query available w = (Raises e, w')).
  { destruct H as [Hc | (response & text & Hc & Hs & Hd)].
    - now apply parse_query_body_call_raises.
    - rewrite (parse_query_body_decodes _ _ _ _ _ _ _ Hc Hs). now rewrite Hd. }
  rewrite (parse_query_raised _ _ _ _ _ _ Hb).
  unfold parse_query_handler. now destruct (is_JSONDecodeError e).
Qed.

(** C5.  When the call to the model raises during synthesis,
    [generate_response] returns the fallback text and does not raise: the
    sentence that no response could be produced, followed by the bundle as
    [str] renders it.  The text is not empty and the rendered bundle
    occurs in it; for a bundle that is a dict it is the sentence, an
    opening brace, the entries [repr(key): repr(value)] in the order of
    the dict and separated by a comma and a space, and a closing brace,
    so that every entry of the bundle occurs in the text. *)
Theorem generate_response_fallback (self : LLMQueryProcessor World)
    (user_query : string) (system_data : pyval) (parsing_result : pydict)
    (w w' : World) (e : exn) :
  create (client self) (response_request self user_query system_data parsing_result) w
  = (Raises e, w') ->
  exists answer,
    generate_response self user_query system_data (PDict parsing_result) w
    = (Returns answer, w')
    /\ answer =
       "I gathered your system information but had trouble generating a response. Here's the raw data: "
       ++ py_str system_data
    /\ answer <> ""
    /\ py_in_str (py_str system_data) answer = true
    /\ forall bundle, system_data = PDict bundle ->
         answer =
         "I gathered your system information but had trouble generating a response. Here's the raw data: {"
         ++ String.concat ", "
              (map (fun kv => py_repr (fst kv) ++ ": " ++ py_repr (snd kv)) bundle)
         ++ "}"
         /\ forall key value, In (key, value) bundle ->
              py_in_str (py_repr key ++ ": " ++ py_repr value) answer = true.
Proof.
  intros Hc. exists (response_fallback_prefix ++ py_str system_data).
  split; [| split; [reflexivity | split; [discriminate | split]]].
  - rewrite generate_response_dict.
    rewrite (try_except_raises _ _ _ _ _ (bind_raises _ _ _ _ _ Hc)). reflexivity.
  - apply py_in_str_spec. exists response_fallback_prefix, "".
    now rewrite string_app_empty_r.
  - intros bundle ->. split; [reflexivity |].
    intros key value Hin. apply py_in_str_spec.
    destruct (concat_In ", " (py_repr key ++ ": " ++ py_repr value)
                (map (fun kv => py_repr (fst kv) ++ ": " ++ py_repr (snd kv)) bundle))
      as (before & rest & Heq).
    { apply (in_map (fun kv => py_repr (fst kv) ++ ": " ++ py_repr (snd kv)) _ _ Hin). }
    exists (response_fallback_prefix ++ "{" ++ before), (rest ++ "}").
    change (py_str (PDict bundle))
      with ("{" ++ String.concat ", "
                     (map (fun kv => py_repr (fst kv) ++ ": " ++ py_repr (snd kv)) bundle)
            ++ "}").
    rewrite Heq, !string_app_assoc. reflexivity.
Qed.

(** ** The orchestrator *)

Variable print : console_line -> outcome unit.

Lemma dispatchable_handler (e : exn) : dispatchable (parse_query_handler e) = true.
Proof. unfold parse_query_handler. now destruct (is_JSONDecodeError e). Qed.

(** The loop returns when every name hashes and raises at the first one
    that does not. *)
Lemma call_each_outcome (self : SystemInfoCollector World) names results w :
  if forallb hashable names
  then exists bundle w', call_each self names results w = (Returns bundle, w')
  else exists e w', call_each self names results w = (Raises e, w').
Proof.
  revert results w. induction names as [| n rest IH]; intros results w; simpl.
  - unfold ret. eauto.
  - destruct (hashable n) eqn:Hn; simpl.
    + destruct (call_function_hashable self n [] w Hn) as (r & w1 & Hr).
      rewrite (bind_returns _ _ _ _ _ Hr). apply IH.
    + destruct (call_function_unhashable self n [] w Hn) as (e & He).
      rewrite (bind_raises _ _ _ _ _ He). eauto.
Qed.


(** [handle_query] after the parse: the first line the console refuses
    ends it; with every line written, a descriptor that is a dict goes to
    the collectors and the response, and any other one has no [get]. *)
Lemma handle_query_console (self : SystemMonitorAgent World) q w descriptor w1 :
  parse_query json_loads_str (llm_processor self) q
    (get_function_list (system_collector self)) w = (Returns descriptor, w1) ->
  handle_query json_loads_str print self q w =
  match first_refused print (console_lines q descriptor) with
  | Some e => (Raises e, match print (ProcessingQuery q) with
                         | Returns _ => w1
                         | Raises _ => w
                         end)
  | None =>
      match descriptor with
      | PDict d =>
          match call_multiple_functions (system_collector self)
                  (dict_get d "functions_to_call" (PList [])) w1 with
          | (Returns system_data, w2) =>
              generate_response (llm_processor self) q system_data (PDict d) w2
          | (Raises e, w2) => (Raises e, w2)
          end
      | _ => (Raises (Exn AttributeError
                        ("'" ++ py_type_name descriptor ++ "' object has no attribute 'get'")),
              w1)
      end
  end.
Proof.
  intros Hp. unfold handle_query, console_lines. cbn [first_refused].
  unfold bind at 1. unfold lift at 1.
  destruct (print (ProcessingQuery q)) as [[] | e0]; [| reflexivity].
  unfold bind at 1. rewrite Hp.
  destruct descriptor as [| b | z | m e r | s | l | d]; try reflexivity.
  cbn [py_get first_refused]. unfold bind at 1. unfold lift at 1.
  unfold bind at 1. unfold lift at 1.
  destruct (print (ParsedQuery (py_str (dict_get d "reasoning" (PStr "No reasoning provided")))))
    as [[] | e1]; [| reflexivity].
  unfold bind at 1. unfold lift at 1. unfold bind at 1. unfold lift at 1.
  destruct (print (CallingFunctions (py_str (dict_get d "functions_to_call" (PList [])))))
    as [[] | e2]; reflexivity.
Qed.

Lemma handle_query_outcome (self : SystemMonitorAgent World) q w descriptor w1 :
  parse_query json_loads_str (llm_processor self) q
    (get_function_list (system_collector self)) w = (Returns descriptor, w1) ->
  (exists answer w', handle_query json_loads_str print self q w = (Returns answer, w'))
  <-> first_refused print (console_lines q descriptor) = None
      /\ dispatchable descriptor = true.
Proof.
  intros Hp. rewrite (handle_query_console self q w descriptor w1 Hp).
  destruct (first_refused print (console_lines q descriptor)) as [e |].
  { split; [intros (a & w' & H); discriminate | intros [H _]; discriminate]. }
  destruct descriptor as [| b | z | m e r | s | l | d];
    try (split; [intros (a & w' & H); discriminate | intros [_ H]; discriminate]).
  unfold dispatchable. unfold call_multiple_functions, bind, lift.
  destruct (py_iter (dict_get d "functions_to_call" (PList []))) as [names | e].
  - pose proof (call_each_outcome (system_collector self) names [] w1) as Hloop.
    destruct (forallb hashable names).
    + destruct Hloop as (bundle & w2 & Hb). rewrite Hb. unfold ret.
      split; [auto | intros _]. apply generate_response_total.
    + destruct Hloop as (e & w2 & He). rewrite He.
      split; [intros (a & w' & H); discriminate | intros [_ H]; discriminate].
  - split; [intros (a & w' & H); discriminate | intros [_ H]; discriminate].
Qed.


(** C10.  When the descriptor [parse_query] returns is a dict without
    [functions_to_call], [handle_query] takes the empty list: the
    collectors leave the world as the parse left it, the bundle is empty,
    and once the console has taken the three lines, of which the last
    shows the empty list, the response is generated from that empty
    bundle; a line the console refuses raises before that. *)
Theorem handle_query_missing_functions_to_call (self : SystemMonitorAgent World)
    (user_query : string) (w w1 : World) (descriptor : pydict) :
  parse_query json_loads_str (llm_processor self) user_query
    (get_function_list (system_collector self)) w = (Returns (PDict descriptor), w1) ->
  dict_lookup descriptor (PStr "functions_to_call") = None ->
  call_multiple_functions (system_collector self)
    (dict_get descriptor "functions_to_call" (PList [])) w1 = (Returns (PDict []), w1)
  /\ match first_refused print
             [ProcessingQuery user_query;
              ParsedQuery (py_str (dict_get descriptor "reasoning"
                                     (PStr "No reasoning provided")));
              CallingFunctions "[]"] with
     | None =>
         handle_query json_loads_str print self user_query w
         = generate_response (llm_processor self) user_query (PDict []) (PDict descriptor) w1
     | Some e =>
         exists w', handle_query json_loads_str print self user_query w = (Raises e, w')
     end.
Proof.
  intros Hp Hmissing.
  assert (Hget : dict_get descriptor "functions_to_call" (PList []) = PList []).
  { unfold dict_get. now rewrite Hmissing. }
  split.
  - rewrite Hget. reflexivity.
  - rewrite (handle_query_console self user_query w (PDict descriptor) w1 Hp).
    unfold console_lines. rewrite Hget.
    change (py_str (PList [])) with "[]".
    destruct (first_refused print _) as [e |]; [eauto | reflexivity].
Qed.

Lemma test_connection_unreachable (self : LLMQueryProcessor World) w :
  unreachable (client self) -> exists w', test_connection self w = (Returns false, w').
Proof.
  intros Hu. destruct (Hu (ConnectionRequest (model self)) w) as (e & w' & He).
  exists w'. unfold test_connection.
  rewrite (try_except_raises _ _ _ _ _ (bind_raises _ _ _ _ _ He)). reflexivity.
Qed.

(** The lines of a query that fell back. *)
Lemma console_lines_handler (q : string) (e : exn) :
  console_lines q (parse_query_handler e)
  = [ProcessingQuery q;
     ParsedQuery (if is_JSONDecodeError e then "Fallback due to parsing error"
                  else "Fallback due to API error");
     CallingFunctions "['get_battery_info', 'get_cpu_info', 'get_memory_info']"].
Proof. unfold parse_query_handler. now destruct (is_JSONDecodeError e). Qed.

(** C9, amended.  When [get_cpu_info] returns and the model cannot be
    reached, [test_components] returns the dict with [system_collector]
    true and [llm_processor] false, and [handle_query] can still be called
    afterwards: for every query it returns an answer once the console has
    taken its three lines (the query, the reasoning of the fallback, the
    three default collectors), and raises only what [print] raised on a
    line the console refused. *)
Theorem test_components_llm_unreachable (self : SystemMonitorAgent World)
    (w w0 : World) (reading : pyval) :
  get_cpu_info (system_collector self) [] w = (Returns reading, w0) ->
  unreachable (client (llm_processor self)) ->
  exists w1,
    test_components self w
    = (Returns (PDict [(PStr "system_collector", PBool true);
                       (PStr "llm_processor", PBool false)]), w1)
    /\ forall user_query, exists reasoning,
         (reasoning = "Fallback due to parsing error"
          \/ reasoning = "Fallback due to API error")
         /\ match first_refused print
                    [ProcessingQuery user_query; ParsedQuery reasoning;
                     CallingFunctions
                       "['get_battery_info', 'get_cpu_info', 'get_memory_info']"] with
            | None =>
                exists answer w2,
                  handle_query json_loads_str print self user_query w1
                  = (Returns answer, w2)
            | Some e =>
                exists w2,
                  handle_query json_loads_str print self user_query w1 = (Raises e, w2)
            end.
Proof.
  intros Hcpu Hu.
  destruct (test_connection_unreachable (llm_processor self) w0 Hu) as (w1 & Ht).
  exists w1. split.
  - unfold test_components.
    rewrite (bind_returns _ _ w _ w0
               (try_except_returns _ _ _ _ _ (bind_returns _ _ _ _ _ Hcpu))).
    rewrite (bind_returns _ _ _ _ _ Ht). reflexivity.
  - intros q.
    destruct (Hu (parsing_request (llm_processor self) q
                    (get_function_list (system_collector self))) w1) as (e & w2 & He).
    pose proof (parse_query_raised _ _ _ _ _ _
                  (parse_query_body_call_raises _ _ _ _ _ _ He)) as Hp.
    exists (if is_JSONDecodeError e then "Fallback due to parsing error"
            else "Fallback due to API error").
    split; [destruct (is_JSONDecodeError e); auto |].
    rewrite <- (console_lines_handler q e).
    destruct (first_refused print (console_lines q (parse_query_handler e))) as [e0 |] eqn:Hr.
    + rewrite (handle_query_console self q w1 _ w2 Hp), Hr. eauto.
    + apply (handle_query_outcome self q w1 _ w2 Hp). split; [exact Hr |].
      apply dispatchable_handler.
Qed.

End Properties.

(** * The properties on the concrete installation *)


(** C2, as stated, fails: the empty object decodes, lacks
    [functions_to_call], and is returned as it is. *)
Lemma parse_query_keeps_ill_shaped_object :
  parse_query demo_json_loads
    (llm_processor (demo_agent (replying_client "{}" "All good.")))
    "How is my CPU?" (get_function_list demo_collector) 0%nat
  = (Returns (PDict []), 0%nat)
  /\ ~ (exists reasoning w',
          parse_query demo_json_loads
            (llm_processor (demo_agent (replying_client "{}" "All good.")))
            "How is my CPU?" (get_function_list demo_collector) 0%nat
          = (Returns (fallback_descriptor reasoning), w')).
Proof.
  split; [reflexivity |]. intros (reasoning & w' & H). discriminate H.
Qed.

Lemma parse_query_returns_decoded_value_witness :
  create (replying_client "{}" "All good.")
    (parsing_request (llm_processor (demo_agent (replying_client "{}" "All good.")))
       "How is my CPU?" (get_function_list demo_collector)) 0%nat
  = (Returns {| choices := [Some "{}"] |}, 0%nat)
  /\ first_content {| choices := [Some "{}"] |} = Returns (Some "{}")
  /\ demo_json_loads "{}" = Returns (PDict [])
  /\ parse_query demo_json_loads
       (llm_processor (demo_agent (replying_client "{}" "All good.")))
       "How is my CPU?" (get_function_list demo_collector) 0%nat
     = (Returns (PDict []), 0%nat).
Proof.
  split; [reflexivity |]. split; [reflexivity |]. split; [reflexivity |].
  apply (parse_query_returns_decoded_value demo_json_loads
           (llm_processor (demo_agent (replying_client "{}" "All good.")))
           "How is my CPU?" (get_function_list demo_collector) 0%nat 0%nat
           {| choices := [Some "{}"] |} "{}" (PDict [])); reflexivity.
Defined.

Lemma parse_query_fallback_witness :
  (create offline_client
     (parsing_request (llm_processor (demo_agent offline_client))
        "How is my CPU?" (get_function_list demo_collector)) 0%nat
   = (Raises connection_error, 0%nat)
   /\ parse_query demo_json_loads (llm_processor (demo_agent offline_client))
        "How is my CPU?" (get_function_list demo_collector) 0%nat
      = (Returns (fallback_descriptor "Fallback due to API error"), 0%nat))
  /\ (demo_json_loads "I am not sure."
      = Raises (Exn JSONDecodeError "Expecting value: line 1 column 1 (char 0)")
      /\ parse_query demo_json_loads
           (llm_processor (demo_agent (replying_client "I am not sure." "All good.")))
           "How is my CPU?" (get_function_list demo_collector) 0%nat
         = (Returns (fallback_descriptor "Fallback due to parsing error"), 0%nat)).
Proof.
  split; (split; [reflexivity |]).
  - apply (parse_query_fallback demo_json_loads (llm_processor (demo_agent offline_client))
             "How is my CPU?" (get_function_list demo_collector) 0%nat 0%nat
             connection_error).
    left. reflexivity.
  - apply (parse_query_fallback demo_json_loads
             (llm_processor (demo_agent (replying_client "I am not sure." "All good.")))
             "How is my CPU?" (get_function_list demo_collector) 0%nat 0%nat
             (Exn JSONDecodeError "Expecting value: line 1 column 1 (char 0)")).
    right. exists {| choices := [Some "I am not sure."] |}, "I am not sure.".
    repeat split.
Defined.

(** C3, as stated, fails: the reasoning does not tell which of the two
    paths failed.  A call that itself raises a [JSONDecodeError] is
    answered with the reasoning of a reply that did not parse, so no
    reading of the descriptor tells whether the call failed. *)
Lemma parse_query_reasoning_misses_failed_call :
  create garbled_client
    (parsing_request (llm_processor (demo_agent garbled_client))
       "How is my CPU?" (get_function_list demo_collector)) 0%nat
  = (Raises garbled_body, 0%nat)
  /\ parse_query demo_json_loads (llm_processor (demo_agent garbled_client))
       "How is my CPU?" (get_function_list demo_collector) 0%nat
     = (Returns (fallback_descriptor "Fallback due to parsing error"), 0%nat)
  /\ parse_query demo_json_loads
       (llm_processor (demo_agent (replying_client "I am not sure." "All good.")))
       "How is my CPU?" (get_function_list demo_collector) 0%nat
     = (Returns (fallback_descriptor "Fallback due to parsing error"), 0%nat)
  /\ ~ (exists call_failed : pyval -> bool,
          forall (c : OpenAI nat) descriptor w',
            parse_query demo_json_loads (llm_processor (demo_agent c))
              "How is my CPU?" (get_function_list demo_collector) 0%nat
            = (Returns descriptor, w') ->
            (call_failed descriptor = true <->
             exists e w1,
               create c
                 (parsing_request (llm_processor (demo_agent c))
                    "How is my CPU?" (get_function_list demo_collector)) 0%nat
               = (Raises e, w1))).
Proof.
  split; [reflexivity |]. split; [reflexivity |]. split; [reflexivity |].
  intros (call_failed & H).
  pose proof (H garbled_client _ _ eq_refl) as [_ Hcall].
  pose proof (H (replying_client "I am not sure." "All good.") _ _ eq_refl) as [Hreply _].
  assert (Hyes : call_failed (fallback_descriptor "Fallback due to parsing error") = true).
  { apply Hcall. exists garbled_body, 0%nat. reflexivity. }
  destruct (Hreply Hyes) as (e & w1 & Habs). discriminate Habs.
Qed.

Lemma generate_response_fallback_witness :
  create (half_client "{}")
    (response_request (llm_processor (demo_agent (half_client "{}")))
       "How is my CPU?" demo_bundle []) 0%nat
  = (Raises connection_error, 0%nat)
  /\ generate_response (llm_processor (demo_agent (half_client "{}")))
       "How is my CPU?" demo_bundle (PDict []) 0%nat
     = (Returns
          ("I gathered your system information but had trouble generating a response. "
           ++ "Here's the raw data: "
           ++ "{'get_cpu_info': {'usage_percent': 12.5, 'cpu_count': 8, "
           ++ "'per_cpu_usage': [10.0, -3], 'max_frequency': None, 'throttled': False}, "
           ++ "'get_wifi_info': {'error': 'Unknown function: get_wifi_info'}, "
           ++ "'plugged': True}"), 0%nat)
  /\ py_in_str "'get_wifi_info': {'error': 'Unknown function: get_wifi_info'}"
       ("I gathered your system information but had trouble generating a response. "
        ++ "Here's the raw data: " ++ py_str demo_bundle) = true.
Proof.
  split; [reflexivity |].
  destruct (generate_response_fallback (llm_processor (demo_agent (half_client "{}")))
              "How is my CPU?" demo_bundle [] 0%nat 0%nat connection_error eq_refl)
    as (answer & Hrun & Heq & _ & _ & Hentries).
  split.
  - rewrite Hrun, Heq. reflexivity.
  - destruct (Hentries _ eq_refl) as [_ Hin]. subst answer.
    exact (Hin (PStr "get_wifi_info")
             (PDict [(PStr "error", PStr "Unknown function: get_wifi_info")])
             (or_intror (or_introl eq_refl))).
Defined.

(** C6, as stated, fails: two requests for the same name leave one entry. *)
Lemma bundle_smaller_than_duplicated_list :
  call_multiple_functions demo_collector
    (PList [PStr "get_cpu_info"; PStr "get_cpu_info"]) 0%nat
  = (Returns (PDict [(PStr "get_cpu_info", PDict [(PStr "usage_percent", PInt 1)])]), 2%nat)
  /\ ~ (exists bundle w',
          call_multiple_functions demo_collector
            (PList (map PStr ["get_cpu_info"; "get_cpu_info"])) 0%nat
          = (Returns (PDict bundle), w')
          /\ List.length bundle = List.length ["get_cpu_info"; "get_cpu_info"]).
Proof.
  split; [reflexivity |]. intros (bundle & w' & H & Hlen).
  injection H as <- _. discriminate Hlen.
Qed.

Lemma duplicate_name_last_write_wins_witness :
  In "get_cpu_info" ["get_cpu_info"]
  /\ ~ In "get_cpu_info" (@nil string)
  /\ exists bundle w' seen w0 v w1,
       call_multiple_functions demo_collector
         (PList (map PStr (["get_cpu_info"] ++ "get_cpu_info" :: [])%list)) 0%nat
       = (Returns (PDict bundle), w')
       /\ count_key "get_cpu_info" bundle = 1%nat
       /\ call_multiple_functions demo_collector (PList (map PStr ["get_cpu_info"])) 0%nat
          = (Returns (PDict seen), w0)
       /\ call_function demo_collector (PStr "get_cpu_info") [] w0 = (Returns v, w1)
       /\ dict_lookup bundle (PStr "get_cpu_info") = Some v.
Proof.
  split; [now left |]. split; [intros H; exact H |].
  apply (duplicate_name_last_write_wins demo_collector ["get_cpu_info"] [] "get_cpu_info" 0%nat).
  - now left.
  - intros H; exact H.
Defined.

(** The second reading is the one that is kept. *)
Example duplicate_name_keeps_second_reading :
  call_function demo_collector (PStr "get_cpu_info") [] 1%nat
  = (Returns (PDict [(PStr "usage_percent", PInt 1)]), 2%nat)
  /\ call_multiple_functions demo_collector
       (PList [PStr "get_cpu_info"; PStr "get_cpu_info"]) 0%nat
     = (Returns (PDict [(PStr "get_cpu_info", PDict [(PStr "usage_percent", PInt 1)])]),
        2%nat).
Proof. split; reflexivity. Qed.

(** C9, as stated, fails: the keys of the dict are [system_collector] and
    [llm_processor]. *)
Lemma test_components_keys :
  test_components (demo_agent offline_client) 0%nat
  = (Returns (PDict [(PStr "system_collector", PBool true);
                     (PStr "llm_processor", PBool false)]), 1%nat)
  /\ ~ (exists w',
          test_components (demo_agent offline_client) 0%nat
          = (Returns (PDict [(PStr "metrics_registry", PBool true);
                             (PStr "llm_connection", PBool false)]), w')).
Proof.
  split; [reflexivity |]. intros (w' & H). discriminate H.
Qed.

Lemma offline_client_unreachable : unreachable offline_client.
Proof. intros req w. exists connection_error, w. reflexivity. Defined.

Lemma test_components_llm_unreachable_witness :
  get_cpu_info (system_collector (demo_agent offline_client)) [] 0%nat
  = (Returns (PDict [(PStr "usage_percent", PInt 0)]), 1%nat)
  /\ unreachable (client (llm_processor (demo_agent offline_client)))
  /\ exists w1,
       test_components (demo_agent offline_client) 0%nat
       = (Returns (PDict [(PStr "system_collector", PBool true);
                          (PStr "llm_processor", PBool false)]), w1)
       /\ forall user_query, exists answer w2,
            handle_query demo_json_loads utf8_console (demo_agent offline_client)
              user_query w1
            = (Returns answer, w2).
Proof.
  split; [reflexivity |]. split; [exact offline_client_unreachable |].
  destruct (test_components_llm_unreachable demo_json_loads utf8_console
              (demo_agent offline_client) 0%nat 1%nat
              (PDict [(PStr "usage_percent", PInt 0)]) eq_refl offline_client_unreachable)
    as (w1 & Htest & Hopen).
  exists w1. split; [exact Htest |].
  intros q. destruct (Hopen q) as (reasoning & _ & H). exact H.
Defined.

Lemma handle_query_missing_functions_to_call_witness :
  parse_query demo_json_loads
    (llm_processor (demo_agent (replying_client "{}" " All good. ")))
    "How is my CPU?" (get_function_list demo_collector) 0%nat
  = (Returns (PDict []), 0%nat)
  /\ dict_lookup (@nil (pyval * pyval)) (PStr "functions_to_call") = None
  /\ call_multiple_functions demo_collector
       (dict_get [] "functions_to_call" (PList [])) 0%nat = (Returns (PDict []), 0%nat)
  /\ first_refused utf8_console
       [ProcessingQuery "How is my CPU?"; ParsedQuery "No reasoning provided";
        CallingFunctions "[]"] = None
  /\ handle_query demo_json_loads utf8_console
       (demo_agent (replying_client "{}" " All good. ")) "How is my CPU?" 0%nat
     = generate_response (llm_processor (demo_agent (replying_client "{}" " All good. ")))
         "How is my CPU?" (PDict []) (PDict []) 0%nat.
Proof.
  split; [reflexivity |]. split; [reflexivity |].
  destruct (handle_query_missing_functions_to_call demo_json_loads utf8_console
              (demo_agent (replying_client "{}" " All good. ")) "How is my CPU?"
              0%nat 0%nat [] eq_refl eq_refl) as [Hbundle Hanswer].
  split; [exact Hbundle |]. split; [reflexivity | exact Hanswer].
Defined.

(** The answer in that run, with no reading taken. *)
Example answer_without_collectors :
  handle_query demo_json_loads utf8_console (demo_agent (replying_client "{}" " All good. "))
    "How is my CPU?" 0%nat
  = (Returns "All good.", 0%nat).
Proof. reflexivity. Qed.

(** On a console that was closed the same query raises at its first
    line, before the model is asked. *)
Example closed_console_raises :
  handle_query demo_json_loads closed_console
    (demo_agent (replying_client "{}" " All good. ")) "How is my CPU?" 0%nat
  = (Raises closed_file, 0%nat).
Proof. reflexivity. Qed.

(** * Further properties of the code *)

(** ** Stripping *)

Lemma lstrip_head (s : string) :
  match lstrip s with
  | EmptyString => True
  | String c _ => is_space c = false
  end.
Proof.
  induction s as [| c s IH]; simpl; [exact I |].
  destruct (is_space c) eqn:Hc; [exact IH | exact Hc].
Qed.

Lemma rstrip_head (s : string) :
  match s with
  | EmptyString => True
  | String c _ => is_space c = false
  end ->
  match rstrip s with
  | EmptyString => s = EmptyString
  | String c _ => is_space c = false
  end.
Proof.
  destruct s as [| c s]; simpl; [reflexivity |]. intros Hc.
  destruct (rstrip s); [rewrite Hc |]; exact Hc.
Qed.

Lemma rstrip_last (s before : string) (c : ascii) :
  rstrip s = before ++ String c "" -> is_space c = false.
Proof.
  revert before. induction s as [| d s IH]; intros before; simpl.
  - destruct before; discriminate.
  - destruct (rstrip s) as [| k kept] eqn:Hk.
    + destruct (is_space d) eqn:Hd.
      * destruct before; discriminate.
      * destruct before as [| b before]; simpl; intros H.
        -- now injection H as <-.
        -- injection H as _ H. destruct before; discriminate.
    + destruct before as [| b before]; simpl; intros H; [discriminate |].
      injection H as _ H. exact (IH before H).
Qed.

Lemma py_strip_no_space_at_ends (s : string) : no_space_at_ends (py_strip s).
Proof.
  unfold py_strip. split.
  - pose proof (rstrip_head (lstrip s) (lstrip_head s)) as H.
    destruct (rstrip (lstrip s)); [exact I | exact H].
  - intros before c H. exact (rstrip_last _ _ _ H).
Qed.

Lemma rstrip_empty (s : string) :
  rstrip s = EmptyString <-> forallb is_space (list_ascii_of_string s) = true.
Proof.
  induction s as [| c s IH]; simpl; [tauto |].
  destruct (rstrip s) as [| k kept].
  - destruct (is_space c); simpl; [| split; discriminate].
    destruct IH as [IH _]. split; [intros _; now apply IH | reflexivity].
  - split; [discriminate |]. intros H. apply andb_true_iff in H.
    destruct IH as [_ IH]. now discriminate IH.
Qed.

Lemma lstrip_suffix (s : string) :
  exists spaces, s = spaces ++ lstrip s
                 /\ forallb is_space (list_ascii_of_string spaces) = true.
Proof.
  induction s as [| c s (spaces & Hs & Hsp)]; simpl.
  - now exists "".
  - destruct (is_space c) eqn:Hc.
    + exists (String c spaces). simpl. rewrite Hc, Hsp. split; [now rewrite <- Hs | reflexivity].
    + now exists "".
Qed.

Lemma forallb_is_space_app (a b : string) :
  forallb is_space (list_ascii_of_string (a ++ b))
  = forallb is_space (list_ascii_of_string a) && forallb is_space (list_ascii_of_string b).
Proof.
  induction a as [| c a IH]; simpl; [reflexivity |]. now rewrite IH, andb_assoc.
Qed.

(** [strip] leaves nothing exactly when the text is all white space. *)
Lemma py_strip_empty (s : string) :
  py_strip s = EmptyString <-> forallb is_space (list_ascii_of_string s) = true.
Proof.
  unfold py_strip. rewrite rstrip_empty.
  destruct (lstrip_suffix s) as (spaces & Hs & Hsp).
  rewrite Hs at 2. rewrite forallb_is_space_app, Hsp. reflexivity.
Qed.

(** ** The registry and the dispatch, continued *)

Section DispatchProperties.

Context {World : Type}.

(** X1.  Building the collector never raises, whatever its three core
    collectors do in the self test: the object lists the nine names in
    the order of the source, each bound to its method, and the world is
    the one the self test leaves. *)
Theorem SystemInfoCollector_init_returns
    (battery cpu memory disk network processes system uptime temperature : collector World)
    (w : World) :
  exists self w',
    SystemInfoCollector_init battery cpu memory disk network processes system uptime
      temperature w = (Returns self, w')
    /\ _test_core_functions self w = (Returns tt, w')
    /\ get_function_list self = registry_names
    /\ map (registered (available_functions self)) (map PStr registry_names)
       = map Some [battery; cpu; memory; disk; network; processes; system; uptime;
                   temperature]
    /\ get_cpu_info self = cpu.
Proof.
  unfold SystemInfoCollector_init.
  match goal with |- context [ _test_core_functions ?s ] => set (self := s) end.
  destruct (try_except_total
              (bind (get_battery_info World self [])
                 (fun _ => bind (get_cpu_info self [])
                   (fun _ => bind (get_memory_info World self []) (fun _ => ret tt))))
              (fun _ => tt) w) as ([] & w' & Ht).
  exists self, w'. split; [| split; [exact Ht | repeat split]].
  unfold bind at 1. unfold _test_core_functions. now rewrite Ht.
Qed.

(** The self test stops at the first core collector that raises: the
    later ones are not called, and nothing is raised. *)
Lemma test_core_functions_stops (self : SystemInfoCollector World) (w : World) :
  (forall e w1, get_battery_info World self [] w = (Raises e, w1) ->
     _test_core_functions self w = (Returns tt, w1))
  /\ (forall r w1 e w2,
        get_battery_info World self [] w = (Returns r, w1) ->
        get_cpu_info self [] w1 = (Raises e, w2) ->
        _test_core_functions self w = (Returns tt, w2))
  /\ (forall r w1 r' w2 o w3,
        get_battery_info World self [] w = (Returns r, w1) ->
        get_cpu_info self [] w1 = (Returns r', w2) ->
        get_memory_info World self [] w2 = (o, w3) ->
        _test_core_functions self w = (Returns tt, w3)).
Proof.
  unfold _test_core_functions, try_except, bind, ret. repeat split.
  - intros e w1 H. now rewrite H.
  - intros r w1 e w2 H1 H2. now rewrite H1, H2.
  - intros r w1 r' w2 o w3 H1 H2 H3. rewrite H1, H2, H3. now destruct o.
Qed.

Lemma registered_listed (fs : list (string * collector World)) (name : string) :
  (In name (map fst fs) <-> exists f, registered fs (PStr name) = Some f)
  /\ (forall f, registered fs (PStr name) = Some f -> In (name, f) fs).
Proof.
  induction fs as [| [k g] rest [IH1 IH2]]; simpl.
  - split; [split; [tauto | intros (f & H); discriminate] | discriminate].
  - destruct (String.eqb_spec k name) as [-> | Hne].
    + split; [split; [eauto | auto] |]. intros f H. injection H as <-. now left.
    + split.
      * rewrite <- IH1. tauto.
      * intros f H. right. auto.
Qed.

Lemma call_function_unlisted (self : SystemInfoCollector World) (name : string) kw w :
  ~ In name (get_function_list self) ->
  call_function self (PStr name) kw w
  = (Returns (error_record ("Unknown function: " ++ name)), w).
Proof.
  intros Hnot. apply call_function_unregistered.
  destruct (registered (available_functions self) (PStr name)) as [f |] eqn:Hf;
    [| reflexivity].
  exfalso. apply Hnot. apply (proj1 (registered_listed (available_functions self) name)).
  eauto.
Qed.

Lemma dict_set_In (d : pydict) (key value k v : pyval) :
  In (k, v) (dict_set d key value) ->
  In (k, v) d
  \/ (v = value /\ (k = key \/ exists v0, In (k, v0) d /\ py_eqb k key = true)).
Proof.
  induction d as [| [k0 v0] rest IH]; simpl.
  - intros [H | []]. injection H as <- <-. right. split; [reflexivity | now left].
  - destruct (py_eqb k0 key) eqn:Hk; simpl.
    + intros [H | H]; [| left; now right].
      injection H as <- <-. right. split; [reflexivity |]. right. exists v0. split; [now left | exact Hk].
    + intros [H | H]; [left; now left |].
      destruct (IH H) as [Hin | (-> & [-> | (v1 & Hin & Heq)])].
      * left. now right.
      * right. split; [reflexivity | now left].
      * right. split; [reflexivity |]. right. exists v1. split; [now right | exact Heq].
Qed.

(** X2.  The catalogue and the dispatch agree: [call_function] calls a
    collector exactly for the names [get_function_list] gives.  For any
    other name it leaves the world alone and reports the unknown function;
    for a listed name it runs the registered collector with the keyword
    arguments and returns its payload, or the record of its exception. *)
Theorem call_function_follows_catalogue (self : SystemInfoCollector World)
    (name : string) (kw : kwargs) (w : World) :
  (~ In name (get_function_list self) ->
   call_function self (PStr name) kw w
   = (Returns (error_record ("Unknown function: " ++ name)), w))
  /\ (In name (get_function_list self) ->
      exists f, In (name, f) (available_functions self)
        /\ call_function self (PStr name) kw w
           = match f kw w with
             | (Returns payload, w') => (Returns payload, w')
             | (Raises e, w') => (Returns (calling_error name e), w')
             end).
Proof.
  destruct (registered_listed (available_functions self) name) as [Hin Hreg].
  split.
  - apply call_function_unlisted.
  - unfold get_function_list. intros Hl. apply Hin in Hl. destruct Hl as (f & Hf).
    exists f. split; [now apply Hreg |].
    rewrite call_function_str, Hf. unfold try_except, ret, calling_error.
    now destruct (f kw w) as [[payload | e] w'].
Qed.

Lemma call_each_raises_TypeError (self : SystemInfoCollector World) names results w e w' :
  call_each self names results w = (Raises e, w') -> exn_class_of e = TypeError.
Proof.
  revert results w. induction names as [| n rest IH]; intros results w; simpl.
  - discriminate.
  - unfold bind. destruct (hashable n) eqn:Hn.
    + destruct (call_function_hashable self n [] w Hn) as (r & w1 & Hr). rewrite Hr.
      apply IH.
    + unfold call_function. rewrite Hn. unfold raise. intros H. now injection H as <- _.
Qed.

(** X3.  [call_multiple_functions], and so [get_raw_system_data], returns
    a bundle exactly when its argument can be iterated and every item
    hashes; otherwise it raises a [TypeError]. *)
Theorem call_multiple_functions_returns_iff (self : SystemInfoCollector World)
    (function_names : pyval) (w : World) :
  ((exists bundle w', call_multiple_functions self function_names w
                      = (Returns (PDict bundle), w'))
   <-> exists names, py_iter function_names = Returns names
                     /\ forallb hashable names = true)
  /\ (forall e w', call_multiple_functions self function_names w = (Raises e, w') ->
      exn_class_of e = TypeError).
Proof.
  unfold call_multiple_functions, bind, lift.
  destruct (py_iter function_names) as [names | e0] eqn:Hiter.
  - pose proof (call_each_outcome self names [] w) as Hloop.
    pose proof (call_each_raises_TypeError self names [] w) as Hty.
    destruct (forallb hashable names) eqn:Hall.
    + destruct Hloop as (bundle & w' & Hb). rewrite Hb. unfold ret. split.
      * split; [intros _; now exists names | intros _; now exists bundle, w'].
      * discriminate.
    + destruct Hloop as (e & w' & He). rewrite He. split.
      * split; [intros (b & w2 & H); discriminate |].
        intros (names' & Hn & Hh). injection Hn as <-. congruence.
      * intros e' w2 H. injection H as <- _. exact (Hty e w' He).
  - split.
    + split; [intros (b & w2 & H); discriminate | intros (names & H & _); discriminate].
    + intros e w' H. injection H as <- _.
      destruct function_names; simpl in Hiter; try discriminate;
        now injection Hiter as <-.
Qed.

(** X4.  Dispatching a list followed by another is dispatching the first
    and going on with the loop over the second, from the bundle and the
    world the first has left. *)
Theorem call_multiple_functions_app (self : SystemInfoCollector World)
    (first second : list pyval) (w w1 : World) (bundle : pydict) :
  call_multiple_functions self (PList first) w = (Returns (PDict bundle), w1) ->
  call_multiple_functions self (PList (first ++ second)%list) w
  = match call_each self second bundle w1 with
    | (Returns results, w2) => (Returns (PDict results), w2)
    | (Raises e, w2) => (Raises e, w2)
    end.
Proof.
  rewrite !call_multiple_functions_list.
  assert (Happ : forall l results w0,
             call_each self (l ++ second)%list results w0
             = match call_each self l results w0 with
               | (Returns r, w') => call_each self second r w'
               | (Raises e, w') => (Raises e, w')
               end).
  { induction l as [| n l IH]; intros results w0; simpl.
    - reflexivity.
    - unfold bind. destruct (call_function self n [] w0) as [[r | e] w']; [apply IH | reflexivity]. }
  rewrite Happ. destruct (call_each self first [] w) as [[r | e] w']; [| discriminate].
  intros H. injection H as -> ->. reflexivity.
Qed.

Lemma dict_lookup_keys (d : pydict) (ks : list string) (n : string) :
  dict_keys d = map PStr ks ->
  (In n ks <-> exists v, dict_lookup d (PStr n) = Some v).
Proof.
  revert ks. induction d as [| [k0 v0] rest IH]; intros [| k ks] Hk;
    simpl in *; try discriminate.
  - split; [tauto | intros (v & H); discriminate].
  - injection Hk as -> Hrest. simpl.
    destruct (String.eqb_spec k n) as [-> | Hne].
    + split; [eauto | auto].
    + rewrite <- (IH ks Hrest). split; [intros [H | H]; [contradiction | exact H] | auto].
Qed.

(** X5.  No requested name is dropped and none is invented: the bundle has
    an entry under a name exactly when the name is in the list. *)
Theorem bundle_has_requested_names (self : SystemInfoCollector World)
    (names : list string) (w : World) :
  exists bundle w',
    call_multiple_functions self (PList (map PStr names)) w = (Returns (PDict bundle), w')
    /\ forall name, In name names <-> exists v, dict_lookup bundle (PStr name) = Some v.
Proof.
  destruct (call_multiple_functions_names self names w)
    as (entries & w' & _ & _ & Hcall & Hkeys).
  exists (store_all entries []), w'. split; [exact Hcall |].
  intros name. rewrite <- (dict_lookup_keys _ _ name Hkeys).
  symmetry. apply first_occurrences_In.
Qed.

(** X6.  A string passed where the list of names is expected is walked
    character by character: with a registry that has no name of one
    character, no collector is called and every entry of the bundle is
    the error record of a character. *)
Theorem call_multiple_functions_on_a_string (self : SystemInfoCollector World)
    (text : string) (w : World) :
  (forall name, In name (get_function_list self) -> String.length name <> 1%nat) ->
  exists bundle,
    call_multiple_functions self (PStr text) w = (Returns (PDict bundle), w)
    /\ forall key value, In (key, value) bundle ->
         exists c, In c (list_ascii_of_string text)
           /\ key = PStr (String c "")
           /\ value = error_record ("Unknown function: " ++ String c "").
Proof.
  intros Hlen.
  assert (Hunk : forall c w0, call_function self (PStr (String c "")) [] w0
                 = (Returns (error_record ("Unknown function: " ++ String c "")), w0)).
  { intros c w0. apply call_function_unlisted.
    intros Hin. now apply (Hlen _ Hin). }
  unfold call_multiple_functions, bind, lift. simpl py_iter. cbv iota beta.
  assert (Hloop : forall chars results,
             (forall key value, In (key, value) results ->
                exists c, In c (list_ascii_of_string text)
                  /\ key = PStr (String c "")
                  /\ value = error_record ("Unknown function: " ++ String c "")) ->
             (forall c, In c chars -> In c (list_ascii_of_string text)) ->
             exists bundle,
               call_each self (map (fun c => PStr (String c "")) chars) results w
               = (Returns bundle, w)
               /\ forall key value, In (key, value) bundle ->
                    exists c, In c (list_ascii_of_string text)
                      /\ key = PStr (String c "")
                      /\ value = error_record ("Unknown function: " ++ String c "")).
  { induction chars as [| c chars IH]; intros results Hres Hsub; simpl.
    - exists results. now split.
    - unfold bind. rewrite Hunk. apply IH.
      + intros key value Hin. apply dict_set_In in Hin.
        destruct Hin as [Hin | (-> & [-> | (v0 & Hold & Heq)])].
        * now apply Hres.
        * exists c. split; [apply Hsub; now left | now split].
        * exists c. split; [apply Hsub; now left |].
          destruct (Hres _ _ Hold) as (c' & _ & -> & _).
          rewrite py_eqb_str in Heq. apply String.eqb_eq in Heq.
          injection Heq as ->. now split.
      + intros c' Hc'. apply Hsub. now right. }
  destruct (Hloop (list_ascii_of_string text) []) as (bundle & Hb & Hall).
  - intros key value [].
  - auto.
  - exists bundle. rewrite Hb. now split.
Qed.

Lemma invoke_in_order_calls (self : SystemInfoCollector World) (names : list pyval) :
  forall w entries w',
    invoke_in_order self names w = (Returns entries, w') ->
    forall k r, In (k, r) entries ->
      exists w0 w1, call_function self k [] w0 = (Returns r, w1).
Proof.
  induction names as [| n rest IH]; intros w entries w' H k r Hin; simpl in H.
  - unfold ret in H. injection H as <- _. destruct Hin.
  - unfold bind in H.
    destruct (call_function self n [] w) as [[rn | e] w1] eqn:Hn; [| discriminate].
    destruct (invoke_in_order self rest w1) as [[es | e] w2] eqn:Hrest; [| discriminate].
    unfold ret in H. injection H as <- _.
    destruct Hin as [Heq | Hin].
    + injection Heq as <- <-. eauto.
    + exact (IH _ _ _ Hrest k r Hin).
Qed.

(** X7.  Asking an agent for the raw data of all the functions it lists
    gives the full overview when the list has no repeated name: one entry
    per listed function, in the order of the list, each holding what the
    registered collector returned, or the record of what it raised; no
    entry is an unknown function. *)
Theorem raw_data_of_all_functions (agent : SystemMonitorAgent World) (w : World) :
  NoDup (get_available_functions agent) ->
  exists bundle w',
    get_raw_system_data agent (PList (map PStr (get_available_functions agent))) w
    = (Returns (PDict bundle), w')
    /\ dict_keys bundle = map PStr (get_available_functions agent)
    /\ forall name r, In (PStr name, r) bundle ->
         exists f w0 w1,
           In (name, f) (available_functions (system_collector agent))
           /\ (f [] w0 = (Returns r, w1)
               \/ exists e, f [] w0 = (Raises e, w1) /\ r = calling_error name e).
Proof.
  intros Hnd. unfold get_raw_system_data, get_available_functions in *.
  set (self := system_collector agent) in *.
  destruct (call_multiple_functions_names self (get_function_list self) w)
    as (entries & w' & He & Hk & Hcall & Hkeys).
  pose proof (store_all_fresh entries (get_function_list self) Hk [] [] eq_refl Hnd) as Hsame.
  simpl in Hsame.
  exists entries, w'. split; [now rewrite <- Hsame at 1 |]. split.
  - unfold dict_keys. exact Hk.
  - intros name r Hin.
    destruct (invoke_in_order_calls self _ _ _ _ He _ _ Hin) as (w0 & w1 & Hc).
    assert (Hl : In name (get_function_list self)).
    { assert (Hf : In (PStr name) (map fst entries)) by (apply in_map_iff; now exists (PStr name, r)).
      rewrite Hk in Hf. apply in_map_iff in Hf. destruct Hf as (n & Hn & Hn').
      now injection Hn as <-. }
    destruct (registered_listed (available_functions self) name) as [Hreg Hin'].
    apply Hreg in Hl. destruct Hl as (f & Hf).
    exists f, w0, w1. split; [now apply Hin' |].
    rewrite call_function_str, Hf in Hc. unfold try_except, ret in Hc.
    destruct (f [] w0) as [[payload | e] w2].
    + left. now injection Hc as <- <-.
    + right. exists e. now injection Hc as <- <-.
Qed.

End DispatchProperties.

(** ** The language-model processor, continued *)

Section ProcessorProperties.

Context {World : Type}.

(** X8.  [test_connection] never raises, and it answers [True] exactly
    when the call returns a first choice whose text contains [OK], in
    capitals, anywhere. *)
Theorem test_connection_true_iff (self : LLMQueryProcessor World) (w : World) :
  exists connected w',
    test_connection self w = (Returns connected, w')
    /\ (connected = true <->
        exists response text before rest,
          create (client self) (ConnectionRequest (model self)) w = (Returns response, w')
          /\ first_content response = Returns (Some text)
          /\ text = before ++ "OK" ++ rest).
Proof.
  unfold test_connection, try_except, bind, lift, ret.
  destruct (create (client self) (ConnectionRequest (model self)) w)
    as [[response | e] w'] eqn:Hc.
  - destruct (first_content response) as [[text |] | e] eqn:Hf; simpl.
    + exists (py_in_str "OK" text), w'. split; [reflexivity |].
      rewrite py_in_str_spec. split.
      * intros (before & rest & H). now exists response, text, before, rest.
      * intros (r & t & before & rest & Hr & Ht & H).
        injection Hr as <-. rewrite Hf in Ht. injection Ht as <-. now exists before, rest.
    + exists false, w'. split; [reflexivity |]. split; [discriminate |].
      intros (r & t & before & rest & Hr & Ht & H).
      injection Hr as <-. rewrite Hf in Ht. discriminate.
    + exists false, w'. split; [reflexivity |]. split; [discriminate |].
      intros (r & t & before & rest & Hr & Ht & H).
      injection Hr as <-. rewrite Hf in Ht. discriminate.
  - exists false, w'. split; [reflexivity |]. split; [discriminate |].
    intros (r & t & before & rest & Hr & _). discriminate.
Qed.

(** X9.  For a descriptor that is a dict, [generate_response] never
    raises.  Its answer is the stripped text of the first choice when the
    call returns one; it is the fallback text with the bundle when the
    call raises, returns no choice, or returns a choice without text. *)
Theorem generate_response_outcome (self : LLMQueryProcessor World)
    (user_query : string) (system_data : pyval) (parsing_result : pydict) (w : World) :
  exists answer w',
    generate_response self user_query system_data (PDict parsing_result) w
    = (Returns answer, w')
    /\ ((exists response text,
           create (client self)
             (response_request self user_query system_data parsing_result) w
           = (Returns response, w')
           /\ first_content response = Returns (Some text)
           /\ answer = py_strip text)
        \/ (answer = response_fallback_prefix ++ py_str system_data
            /\ ((exists e, create (client self)
                             (response_request self user_query system_data parsing_result) w
                           = (Raises e, w'))
                \/ exists response,
                     create (client self)
                       (response_request self user_query system_data parsing_result) w
                     = (Returns response, w')
                     /\ (choices response = [] \/ exists rest, choices response = None :: rest)))).
Proof.
  rewrite generate_response_dict. unfold try_except, bind, lift, ret.
  destruct (create (client self)
              (response_request self user_query system_data parsing_result) w)
    as [[response | e] w'] eqn:Hc.
  - unfold first_content. destruct (choices response) as [| [text |] rest] eqn:Hch; simpl.
    + eexists _, w'. split; [reflexivity |]. right. split; [reflexivity |].
      right. exists response. split; [reflexivity | now left].
    + eexists _, w'. split; [reflexivity |]. left. exists response, text.
      unfold first_content. now rewrite Hch.
    + eexists _, w'. split; [reflexivity |]. right. split; [reflexivity |].
      right. exists response. split; [reflexivity |]. right. now exists rest.
  - eexists _, w'. split; [reflexivity |]. right. split; [reflexivity |]. left. now exists e.
Qed.

(** X10.  When the model answers, what [generate_response] returns has no
    white space at either end, and it is the empty string exactly when the
    model's text is white space only. *)
Theorem generate_response_answer_stripped (self : LLMQueryProcessor World)
    (user_query : string) (system_data : pyval) (parsing_result : pydict)
    (w w' : World) (response : ChatCompletion) (text : string) :
  create (client self) (response_request self user_query system_data parsing_result) w
  = (Returns response, w') ->
  first_content response = Returns (Some text) ->
  exists answer,
    generate_response self user_query system_data (PDict parsing_result) w
    = (Returns answer, w')
    /\ no_space_at_ends answer
    /\ (answer = "" <-> forallb is_space (list_ascii_of_string text) = true).
Proof.
  intros Hc Hf. exists (py_strip text). split; [| split].
  - rewrite generate_response_dict. unfold try_except, bind, lift.
    rewrite Hc, Hf. reflexivity.
  - apply py_strip_no_space_at_ends.
  - apply py_strip_empty.
Qed.

(** X11.  With a descriptor that is not a dict, [generate_response] raises
    an [AttributeError] while it formats its prompt: the model is not
    called and the world is left as it was. *)
Theorem generate_response_needs_a_dict (self : LLMQueryProcessor World)
    (user_query : string) (system_data parsing_result : pyval) (w : World) :
  (forall d, parsing_result <> PDict d) ->
  generate_response self user_query system_data parsing_result w
  = (Raises (Exn AttributeError
               ("'" ++ py_type_name parsing_result ++ "' object has no attribute 'get'")), w).
Proof.
  intros Hv. destruct parsing_result; try reflexivity. now destruct (Hv d).
Qed.

End ProcessorProperties.

Lemma find_all_false {A : Type} (f : A -> bool) (l : list A) :
  (forall x, In x l -> f x = false) -> find f l = None.
Proof.
  induction l as [| x l IH]; simpl; [reflexivity |]. intros H.
  rewrite (H x (or_introl eq_refl)). apply IH. intros y Hy. apply H. now right.
Qed.

(** X12.  The descriptions of the prompt cover the registry: a name has a
    description of its own exactly when it is one of the nine names
    [SystemInfoCollector] registers; any other name is described as
    [System information]. *)
Theorem descriptions_cover_registry (func_name : string) :
  In func_name registry_names <-> _get_function_description func_name <> "System information".
Proof.
  split.
  - intros H Heq. unfold registry_names in H.
    repeat (destruct H as [<- | H]; [vm_compute in Heq; discriminate Heq |]).
    destruct H.
  - intros H. destruct (in_dec string_dec func_name registry_names) as [Hin | Hout];
      [exact Hin | exfalso]. apply H. unfold _get_function_description.
    rewrite find_all_false; [reflexivity |].
    intros [k d] Hk. simpl. apply String.eqb_neq. intros ->. apply Hout.
    unfold descriptions in Hk. unfold registry_names.
    repeat (destruct Hk as [Hk | Hk]; [injection Hk as <- _; simpl; tauto |]).
    destruct Hk.
Qed.

(** ** The modelled collectors *)

Section CollectorProperties.

Context {World : Type}.
Variable round_gb : Z -> pyval.
Variable round_percent : Z -> Z -> pyval.
Variable is_OSError : exn -> bool.
Variable is_gone : exn -> bool.

Lemma get_cpu_info_body_returns (ps : Psutil World) (w : World) :
  exists v w', get_cpu_info_body ps w = (Returns v, w').
Proof.
  apply try_except_total with (h := fun e => error_record ("Error getting CPU info: " ++ exn_str e)).
Qed.

(** X13.  The five modelled collectors never raise: whatever [psutil]
    does, each returns a value, an error record at worst. *)
Theorem collector_bodies_never_raise (ps : Psutil World) (limit : pyval) (w : World) :
  (exists v w', get_battery_info_body ps w = (Returns v, w'))
  /\ (exists v w', get_cpu_info_body ps w = (Returns v, w'))
  /\ (exists v w', get_memory_info_body round_gb round_percent ps w = (Returns v, w'))
  /\ (exists v w', get_disk_info_body round_gb round_percent is_OSError ps w
                   = (Returns v, w'))
  /\ (exists v w', get_processes_info_body is_gone ps limit w = (Returns v, w')).
Proof.
  repeat split.
  - apply try_except_total
      with (h := fun e => error_record ("Error getting battery info: " ++ exn_str e)).
  - apply get_cpu_info_body_returns.
  - apply try_except_total
      with (h := fun e => error_record ("Error getting memory info: " ++ exn_str e)).
  - apply try_except_total
      with (h := fun e => error_record ("Error getting disk info: " ++ exn_str e)).
  - apply try_except_total
      with (h := fun e => error_record ("Error getting process info: " ++ exn_str e)).
Qed.

Lemma time_left_split (secsleft : Z) :
  0 <= (secsleft mod 3600) / 60 < 60
  /\ 3600 * (secsleft / 3600) + 60 * ((secsleft mod 3600) / 60) <= secsleft
     < 3600 * (secsleft / 3600) + 60 * ((secsleft mod 3600) / 60) + 60.
Proof.
  pose proof (Z.div_mod secsleft 3600 ltac:(lia)) as Hs.
  pose proof (Z.mod_pos_bound secsleft 3600 ltac:(lia)) as Hr.
  pose proof (Z.div_mod (secsleft mod 3600) 60 ltac:(lia)) as Hm.
  pose proof (Z.mod_pos_bound (secsleft mod 3600) 60 ltac:(lia)) as Hr'.
  lia.
Qed.

(** X14.  For a battery whose time left is not the unlimited mark,
    [get_battery_info] reports the seconds as they are and formats them as
    hours and minutes by floor division: the minutes are between 0 and 59
    and the two account for the seconds up to less than a minute.  The
    unknown mark [-1] goes the same way and reads [-1h 59m]. *)
Theorem get_battery_info_time_left (ps : Psutil World) (w w' : World) (b : sbattery) :
  sensors_battery ps w = (Returns (Some b), w') ->
  battery_secsleft b <> POWER_TIME_UNLIMITED ->
  exists d hours minutes,
    get_battery_info_body ps w = (Returns (PDict d), w')
    /\ dict_lookup d (PStr "time_left_seconds") = Some (PInt (battery_secsleft b))
    /\ dict_lookup d (PStr "time_left_formatted")
       = Some (PStr (py_int_str hours ++ "h " ++ py_int_str minutes ++ "m"))
    /\ 0 <= minutes < 60
    /\ 3600 * hours + 60 * minutes <= battery_secsleft b < 3600 * hours + 60 * minutes + 60.
Proof.
  intros Hb Hne.
  assert (Htest : (battery_secsleft b =? POWER_TIME_UNLIMITED) = false)
    by now apply Z.eqb_neq.
  eexists _, (battery_secsleft b / 3600), ((battery_secsleft b mod 3600) / 60).
  split; [| split; [| split; [| apply time_left_split]]].
  - unfold get_battery_info_body, try_except, bind, ret. rewrite Hb. reflexivity.
  - simpl. now rewrite Htest.
  - simpl. unfold time_left_formatted. now rewrite Htest.
Qed.

(** X15.  When the three readings of [get_cpu_info] succeed, a failure of
    [cpu_freq] costs nothing but the frequencies: the result is the dict
    that starts with the three readings, and it has the frequency entries
    exactly when [cpu_freq] returned some. *)
Theorem get_cpu_info_keeps_readings (ps : Psutil World) (w w1 w2 w3 : World)
    (percent count per_core : pyval) :
  cpu_percent_total ps w = (Returns percent, w1) ->
  cpu_count ps w1 = (Returns count, w2) ->
  cpu_percent_percpu ps w2 = (Returns per_core, w3) ->
  exists d w',
    get_cpu_info_body ps w = (Returns (PDict d), w')
    /\ firstn 3 d = [(PStr "usage_percent", percent); (PStr "cores", count);
                     (PStr "per_core_usage", per_core)]
    /\ ((exists f, cpu_freq ps w3 = (Returns (Some f), w')
                   /\ skipn 3 d = [(PStr "frequency_mhz", freq_current f);
                                   (PStr "frequency_max", freq_max f);
                                   (PStr "frequency_min", freq_min f)])
        \/ (d = [(PStr "usage_percent", percent); (PStr "cores", count);
                 (PStr "per_core_usage", per_core)]
            /\ (cpu_freq ps w3 = (Returns None, w')
                \/ exists e, cpu_freq ps w3 = (Raises e, w')))).
Proof.
  intros H1 H2 H3.
  unfold get_cpu_info_body, add_cpu_freq, try_except, bind, ret.
  rewrite H1, H2, H3.
  destruct (cpu_freq ps w3) as [[[f |] | e] w'] eqn:Hf.
  - eexists _, w'. split; [reflexivity |]. split; [reflexivity |]. left. now exists f.
  - eexists _, w'. split; [reflexivity |]. split; [reflexivity |]. right. split; [reflexivity | now left].
  - eexists _, w'. split; [reflexivity |]. split; [reflexivity |]. right.
    split; [reflexivity |]. right. now exists e.
Qed.

(** X16.  On a machine without swap [get_memory_info] does not divide by
    zero: with a swap total of zero it returns its seven readings, the
    share of the swap in use being the integer 0. *)
Theorem get_memory_info_without_swap (ps : Psutil World) (w w1 w2 : World)
    (memory : svmem) (swap : sswap) :
  virtual_memory ps w = (Returns memory, w1) ->
  swap_memory ps w1 = (Returns swap, w2) ->
  swap_total swap = 0 ->
  exists d,
    get_memory_info_body round_gb round_percent ps w = (Returns (PDict d), w2)
    /\ dict_keys d = map PStr ["total_gb"; "available_gb"; "used_gb"; "percentage";
                               "swap_total_gb"; "swap_used_gb"; "swap_percentage"]
    /\ dict_lookup d (PStr "swap_percentage") = Some (PInt 0).
Proof.
  intros Hm Hs Hzero. eexists. split; [| split].
  - unfold get_memory_info_body, try_except, bind, ret. rewrite Hm, Hs. reflexivity.
  - reflexivity.
  - simpl. now rewrite Hzero.
Qed.

Lemma scan_partitions_app (ps : Psutil World) (first second : list sdiskpart) :
  forall disks w,
    scan_partitions round_gb round_percent is_OSError ps (first ++ second)%list disks w
    = match scan_partitions round_gb round_percent is_OSError ps first disks w with
      | (Returns d, w') => scan_partitions round_gb round_percent is_OSError ps second d w'
      | (Raises e, w') => (Raises e, w')
      end.
Proof.
  induction first as [| p first IH]; intros disks w; simpl; [reflexivity |].
  unfold bind.
  destruct (try_except_when is_OSError _ _ w) as [[d | e] w']; [apply IH | reflexivity].
Qed.

(** X17.  One partition that reports a total of zero bytes costs the whole
    report: the division by zero is not among the exceptions the loop
    skips, so [get_disk_info] returns only the error record, without the
    partitions it had already read. *)
Theorem get_disk_info_zero_total (ps : Psutil World) (w w0 w1 w2 : World)
    (before after : list sdiskpart) (partition : sdiskpart) (disks : pydict)
    (usage : sdiskusage) :
  is_OSError (Exn (OtherException "ZeroDivisionError") "division by zero") = false ->
  disk_partitions ps w = (Returns (before ++ partition :: after)%list, w0) ->
  scan_partitions round_gb round_percent is_OSError ps before [] w0 = (Returns disks, w1) ->
  disk_usage ps (part_mountpoint partition) w1 = (Returns usage, w2) ->
  usage_total usage = 0 ->
  get_disk_info_body round_gb round_percent is_OSError ps w
  = (Returns (error_record "Error getting disk info: division by zero"), w2).
Proof.
  intros Hos Hparts Hbefore Husage Hzero.
  unfold get_disk_info_body, try_except. unfold bind at 1. rewrite Hparts.
  unfold bind at 1. rewrite scan_partitions_app, Hbefore. simpl.
  unfold bind at 1. unfold try_except_when. unfold bind at 1. rewrite Husage.
  unfold bind, lift, disk_entry, usage_percentage. rewrite Hzero. simpl. rewrite Hos.
  reflexivity.
Qed.

(** X18.  A partition whose usage cannot be read for an [OSError] is left
    out and the loop goes on with the next one, from the dict it had. *)
Theorem get_disk_info_skips_unreadable (ps : Psutil World) (w w0 w1 w2 : World)
    (before after : list sdiskpart) (partition : sdiskpart) (disks : pydict) (e : exn) :
  disk_partitions ps w = (Returns (before ++ partition :: after)%list, w0) ->
  scan_partitions round_gb round_percent is_OSError ps before [] w0 = (Returns disks, w1) ->
  disk_usage ps (part_mountpoint partition) w1 = (Raises e, w2) ->
  is_OSError e = true ->
  get_disk_info_body round_gb round_percent is_OSError ps w
  = match scan_partitions round_gb round_percent is_OSError ps after disks w2 with
    | (Returns d, w') => (Returns (PDict d), w')
    | (Raises e', w') => (Returns (error_record ("Error getting disk info: " ++ exn_str e')), w')
    end.
Proof.
  intros Hparts Hbefore Husage Hos.
  unfold get_disk_info_body, try_except. unfold bind at 1. rewrite Hparts.
  unfold bind at 1. rewrite scan_partitions_app, Hbefore. simpl.
  unfold bind at 1. unfold try_except_when. unfold bind at 1. rewrite Husage, Hos.
  unfold ret.
  destruct (scan_partitions round_gb round_percent is_OSError ps after disks w2)
    as [[d | e'] w']; reflexivity.
Qed.

End CollectorProperties.

(** ** The sort of [get_processes_info] *)

Lemma dyadic_ltb_asym (x y : Z * Z) : dyadic_ltb x y = true -> dyadic_ltb y x = false.
Proof.
  unfold dyadic_ltb. rewrite (Z.min_comm (snd y) (snd x)).
  intros H. apply Z.ltb_lt in H. apply Z.ltb_ge. lia.
Qed.

Lemma insert_process_perm (p : pinfo) (l : list pinfo) :
  Permutation (insert_process p l) (p :: l).
Proof.
  induction l as [| q l IH]; simpl; [reflexivity |].
  destruct (dyadic_ltb (cpu_key p) (cpu_key q)); [| reflexivity].
  rewrite IH. apply perm_swap.
Qed.

Lemma insert_process_sorted (p : pinfo) (l : list pinfo) :
  Sorted not_below l -> Sorted not_below (insert_process p l).
Proof.
  induction 1 as [| q l Hl IH Hhd]; simpl.
  - repeat constructor.
  - destruct (dyadic_ltb (cpu_key p) (cpu_key q)) eqn:Hpq.
    + constructor; [exact IH |].
      destruct Hhd as [| r l Hqr]; simpl.
      * constructor. now apply dyadic_ltb_asym.
      * destruct (dyadic_ltb (cpu_key p) (cpu_key r)); constructor;
          [exact Hqr | now apply dyadic_ltb_asym].
    + constructor; [now constructor | constructor; exact Hpq].
Qed.

Lemma sort_processes_perm (l : list pinfo) : Permutation (sort_processes l) l.
Proof.
  induction l as [| p l IH]; simpl; [reflexivity |].
  rewrite insert_process_perm. now constructor.
Qed.

Lemma sort_processes_sorted (l : list pinfo) : Sorted not_below (sort_processes l).
Proof.
  induction l as [| p l IH]; simpl; [constructor | now apply insert_process_sorted].
Qed.

Lemma sort_processes_id (l : list pinfo) : Sorted not_below l -> sort_processes l = l.
Proof.
  induction 1 as [| p l Hl IH Hhd]; [reflexivity |].
  change (insert_process p (sort_processes l) = p :: l). rewrite IH.
  destruct Hhd as [| q l Hpq]; simpl; [reflexivity |].
  unfold not_below in Hpq. now rewrite Hpq.
Qed.

Section ProcessProperties.

Context {World : Type}.
Variable is_gone : exn -> bool.

(** X19.  [get_processes_info] with a limit that is an integer returns
    the head of the processes sorted by falling CPU use, a missing reading
    counting as zero: what it returns followed by what it leaves out is a
    rearrangement of the processes read, each of them no lower than the
    next.  A limit of zero or more keeps that many processes at most; a
    negative limit does not empty the list but cuts that many from its
    end. *)
Theorem get_processes_info_top (ps : Psutil World) (limit : Z) (w w' : World)
    (procs : list (outcome pinfo)) (processes : list pinfo) :
  process_iter ps w = (Returns procs, w') ->
  collect_processes is_gone procs = Returns processes ->
  exists top rest,
    get_processes_info_body is_gone ps (PInt limit) w
    = (Returns (PDict [(PStr "top_processes", PList (map info_dict top))]), w')
    /\ Permutation (top ++ rest)%list processes
    /\ Sorted not_below (top ++ rest)%list
    /\ (0 <= limit ->
        List.length top = Nat.min (Z.to_nat limit) (List.length processes))
    /\ (limit < 0 ->
        List.length top = (List.length processes - Z.to_nat (- limit))%nat).
Proof.
  intros Hiter Hcollect.
  set (sorted := sort_processes processes).
  set (n := Z.to_nat (if limit <? 0 then Z.of_nat (List.length sorted) + limit else limit)).
  assert (Hlen : List.length sorted = List.length processes)
    by apply Permutation_length, sort_processes_perm.
  exists (firstn n sorted), (skipn n sorted).
  rewrite firstn_skipn. split; [| split; [| split; [| split]]].
  - unfold get_processes_info_body, try_except, bind, lift, ret.
    rewrite Hiter, Hcollect. reflexivity.
  - apply sort_processes_perm.
  - apply sort_processes_sorted.
  - intros Hpos. rewrite length_firstn, Hlen. unfold n.
    destruct (Z.ltb_spec limit 0); [lia | reflexivity].
  - intros Hneg. rewrite length_firstn, Hlen. unfold n.
    destruct (Z.ltb_spec limit 0); [| lia]. rewrite Hlen. lia.
Qed.

(** X20.  The sort is stable on what is already in order: when the
    processes are read with no CPU use rising from one to the next, ties
    included, as when all of them are idle, they are returned in the order
    they were read. *)
Theorem get_processes_info_keeps_order (ps : Psutil World) (limit : pyval) (w w' : World)
    (procs : list (outcome pinfo)) (processes top : list pinfo) :
  process_iter ps w = (Returns procs, w') ->
  collect_processes is_gone procs = Returns processes ->
  Sorted not_below processes ->
  slice_to processes limit = Returns top ->
  get_processes_info_body is_gone ps limit w
  = (Returns (PDict [(PStr "top_processes", PList (map info_dict top))]), w').
Proof.
  intros Hiter Hcollect Hsorted Hslice.
  unfold get_processes_info_body, try_except, bind, lift, ret.
  rewrite Hiter, Hcollect, (sort_processes_id _ Hsorted), Hslice. reflexivity.
Qed.

End ProcessProperties.

(** ** The orchestrator and the program *)

Section AgentProperties.

Context {World : Type}.
Variable json_loads_str : string -> outcome pyval.
Variable print : console_line -> outcome unit.

(** X21.  [test_components] never raises and always returns the dict of
    two flags in the same order: [system_collector] tells whether
    [get_cpu_info] returned rather than raised, and [llm_processor] is
    what [test_connection] answers in the world [get_cpu_info] left. *)
Theorem test_components_outcome (self : SystemMonitorAgent World) (w : World) :
  exists reading w0 connected w',
    get_cpu_info (system_collector self) [] w = (reading, w0)
    /\ test_connection (llm_processor self) w0 = (Returns connected, w')
    /\ test_components self w
       = (Returns (PDict [(PStr "system_collector",
                           PBool match reading with
                                 | Returns _ => true
                                 | Raises _ => false
                                 end);
                          (PStr "llm_processor", PBool connected)]), w').
Proof.
  destruct (get_cpu_info (system_collector self) [] w) as [reading w0] eqn:Hcpu.
  destruct (try_except_total
              (bind (create (client (llm_processor self))
                       (ConnectionRequest (model (llm_processor self))))
                 (fun response => bind (lift (first_content response))
                                    (fun content => lift (ok_in_content content))))
              (fun _ => false) w0) as (connected & w' & Ht).
  exists reading, w0, connected, w'. split; [reflexivity |]. split; [exact Ht |].
  unfold test_components, try_except. unfold bind at 1. unfold bind at 1.
  rewrite Hcpu. unfold test_connection in *. destruct reading; simpl.
  - unfold bind at 1. rewrite Ht. reflexivity.
  - unfold bind at 1. rewrite Ht. reflexivity.
Qed.

(** X22.  With the [get_cpu_info] of the source, which turns every failure
    of [psutil] into an error record, [test_components] reports
    [system_collector] as true whatever [psutil] does. *)
Theorem test_components_collector_always_true (self : SystemMonitorAgent World)
    (ps : Psutil World) (w : World) :
  (forall w0, get_cpu_info (system_collector self) [] w0 = get_cpu_info_body ps w0) ->
  exists connected w',
    test_components self w
    = (Returns (PDict [(PStr "system_collector", PBool true);
                       (PStr "llm_processor", PBool connected)]), w').
Proof.
  intros Hcpu.
  destruct (get_cpu_info_body_returns ps w) as (v & w0 & Hv).
  destruct (try_except_total
              (bind (create (client (llm_processor self))
                       (ConnectionRequest (model (llm_processor self))))
                 (fun response => bind (lift (first_content response))
                                    (fun content => lift (ok_in_content content))))
              (fun _ => false) w0) as (connected & w' & Ht).
  exists connected, w'.
  unfold test_components, try_except. unfold bind at 1. unfold bind at 1.
  rewrite Hcpu, Hv. simpl. unfold bind at 1. unfold test_connection. rewrite Ht.
  reflexivity.
Qed.

(** X23.  With the model out of reach, [handle_query] still answers: it
    calls the three default collectors, battery, CPU and memory in that
    order, in the world the failed parsing call left, and, the console
    having taken the query, the reasoning of the fallback and the three
    names, returns the fallback text with the bundle of the three; a line
    the console refuses is the only thing that makes it raise. *)
Theorem handle_query_offline (self : SystemMonitorAgent World)
    (user_query : string) (w : World) :
  unreachable (client (llm_processor self)) ->
  exists e w1 bundle w2 w',
    create (client (llm_processor self))
      (parsing_request (llm_processor self) user_query
         (get_function_list (system_collector self))) w = (Raises e, w1)
    /\ call_multiple_functions (system_collector self)
         (PList [PStr "get_battery_info"; PStr "get_cpu_info"; PStr "get_memory_info"]) w1
       = (Returns (PDict bundle), w2)
    /\ dict_keys bundle
       = [PStr "get_battery_info"; PStr "get_cpu_info"; PStr "get_memory_info"]
    /\ match first_refused print
               [ProcessingQuery user_query;
                ParsedQuery (if is_JSONDecodeError e then "Fallback due to parsing error"
                             else "Fallback due to API error");
                CallingFunctions
                  "['get_battery_info', 'get_cpu_info', 'get_memory_info']"] with
       | None =>
           handle_query json_loads_str print self user_query w
           = (Returns (response_fallback_prefix ++ py_str (PDict bundle)), w')
       | Some refused =>
           exists w0,
             handle_query json_loads_str print self user_query w = (Raises refused, w0)
       end.
Proof.
  intros Hu.
  destruct (Hu (parsing_request (llm_processor self) user_query
                  (get_function_list (system_collector self))) w) as (e & w1 & He).
  pose proof (parse_query_raised json_loads_str _ _ _ _ _ _
                (parse_query_body_call_raises json_loads_str _ _ _ _ _ _ He)) as Hp.
  destruct (call_multiple_functions_names (system_collector self)
              ["get_battery_info"; "get_cpu_info"; "get_memory_info"] w1)
    as (entries & w2 & _ & _ & Hcall & Hkeys).
  pose proof (handle_query_console json_loads_str print self user_query w _ w1 Hp) as Hrun.
  rewrite (console_lines_handler user_query e) in Hrun.
  set (descriptor := parse_query_handler e) in *.
  assert (Hd : exists d, descriptor = PDict d
                         /\ dict_get d "functions_to_call" (PList [])
                            = PList [PStr "get_battery_info"; PStr "get_cpu_info";
                                     PStr "get_memory_info"]).
  { unfold descriptor, parse_query_handler.
    destruct (is_JSONDecodeError e); eexists; split; reflexivity. }
  destruct Hd as (d & Hd & Hget). rewrite Hd in Hrun.
  destruct (Hu (response_request (llm_processor self) user_query
                  (PDict (store_all entries [])) d) w2) as (e' & w' & He').
  exists e, w1, (store_all entries []), w2, w'.
  split; [exact He |]. split; [exact Hcall |]. split; [exact Hkeys |].
  rewrite Hrun.
  destruct (first_refused print _) as [refused |]; [eauto |].
  rewrite Hget. simpl map in Hcall. rewrite Hcall. rewrite generate_response_dict.
  rewrite (try_except_raises _ _ _ _ _ (bind_raises _ _ _ _ _ He')). reflexivity.
Qed.

(** X24.  The whole round trip: when the parsing reply decodes to a dict,
    the collectors named by its [functions_to_call] are called, the
    response request carries that bundle and that descriptor, and, the
    console having taken the query, the reasoning and the names, the
    answer is the stripped text of the reply to it; a line the console
    refuses makes [handle_query] raise what [print] raised. *)
Theorem handle_query_round_trip (self : SystemMonitorAgent World)
    (user_query : string) (w w1 w2 w3 : World)
    (parsed answered : ChatCompletion) (parsed_text answer_text : string)
    (descriptor : pydict) (system_data : pyval) :
  create (client (llm_processor self))
    (parsing_request (llm_processor self) user_query
       (get_function_list (system_collector self))) w = (Returns parsed, w1) ->
  first_content parsed = Returns (Some parsed_text) ->
  json_loads_str parsed_text = Returns (PDict descriptor) ->
  call_multiple_functions (system_collector self)
    (dict_get descriptor "functions_to_call" (PList [])) w1 = (Returns system_data, w2) ->
  create (client (llm_processor self))
    (response_request (llm_processor self) user_query system_data descriptor) w2
  = (Returns answered, w3) ->
  first_content answered = Returns (Some answer_text) ->
  match first_refused print
          [ProcessingQuery user_query;
           ParsedQuery (py_str (dict_get descriptor "reasoning"
                                  (PStr "No reasoning provided")));
           CallingFunctions (py_str (dict_get descriptor "functions_to_call" (PList [])))] with
  | None =>
      handle_query json_loads_str print self user_query w
      = (Returns (py_strip answer_text), w3)
  | Some refused =>
      exists w0, handle_query json_loads_str print self user_query w = (Raises refused, w0)
  end.
Proof.
  intros Hc1 Hf1 Hj Hcall Hc2 Hf2.
  assert (Hp : parse_query json_loads_str (llm_processor self) user_query
                 (get_function_list (system_collector self)) w
               = (Returns (PDict descriptor), w1)).
  { apply parse_query_returned.
    rewrite (parse_query_body_decodes json_loads_str _ _ _ _ _ _ _ Hc1 Hf1). now rewrite Hj. }
  rewrite (handle_query_console json_loads_str print self user_query w _ w1 Hp).
  unfold console_lines.
  destruct (first_refused print _) as [refused |]; [eauto |].
  rewrite Hcall, generate_response_dict. unfold try_except, bind, lift.
  rewrite Hc2, Hf2. reflexivity.
Qed.

(** ** The loop of [main] *)

Lemma loop_iteration_total (rt : Runtime World) (agent : SystemMonitorAgent World) w :
  exists turn w', loop_iteration json_loads_str print rt agent w = (Returns turn, w').
Proof.
  unfold loop_iteration.
  destruct (loop_body json_loads_str print rt agent w) as [[[turn | e] |] w']; eauto.
Qed.

Lemma quit_word_found (query : string) :
  existsb (String.eqb query) quit_words = true <-> In query quit_words.
Proof.
  rewrite existsb_exists. split.
  - intros (x & Hx & Heq). apply String.eqb_eq in Heq. now subst x.
  - intros H. exists query. split; [exact H | apply String.eqb_refl].
Qed.

Lemma serve_line_quit (agent : SystemMonitorAgent World) (line : string) w :
  In (py_lower (py_strip line)) quit_words ->
  serve_line json_loads_str print agent line w = (Returns (Break, [Goodbye]), w).
Proof.
  intros Hq. apply quit_word_found in Hq. unfold serve_line. now rewrite Hq.
Qed.



(** X26.  A line that is neither blank nor a command is served as a query,
    stripped but in the case it was typed, and the answer is printed; when
    [handle_query] raises, or the console refuses the answer, the turn
    shows the error and the loop goes on. *)
Theorem loop_iteration_serves_query (rt : Runtime World) (agent : SystemMonitorAgent World)
    (w w1 : World) (line : string) :
  input rt w = (Completed (Returns line), w1) ->
  py_strip line <> "" ->
  ~ In (py_lower (py_strip line)) (quit_words ++ ["functions"; "test"])%list ->
  loop_iteration json_loads_str print rt agent w
  = match handle_query json_loads_str print agent (py_strip line) w1 with
    | (Returns response, w2) =>
        match print (Response response) with
        | Returns _ => (Returns (Continue, [AgentAnswer response]), w2)
        | Raises e => (Returns (Continue, [UnexpectedError (exn_str e)]), w2)
        end
    | (Raises e, w2) => (Returns (Continue, [UnexpectedError (exn_str e)]), w2)
    end.
Proof.
  intros Hin Hne Hcmd.
  assert (Hq : existsb (String.eqb (py_lower (py_strip line))) quit_words = false).
  { destruct (existsb _ quit_words) eqn:Hq; [| reflexivity].
    apply quit_word_found in Hq. exfalso. apply Hcmd, in_or_app. now left. }
  assert (He : String.eqb (py_strip line) "" = false) by now apply String.eqb_neq.
  assert (Hf : String.eqb (py_lower (py_strip line)) "functions" = false).
  { apply String.eqb_neq. intros H. apply Hcmd, in_or_app. right. rewrite H. now left. }
  assert (Ht : String.eqb (py_lower (py_strip line)) "test" = false).
  { apply String.eqb_neq. intros H. apply Hcmd, in_or_app. right. rewrite H. right. now left. }
  unfold loop_iteration, loop_body, bind_interruptible, uninterrupted, serve_line.
  rewrite Hin, Hq, He, Hf, Ht. unfold bind at 1.
  destruct (handle_query json_loads_str print agent (py_strip line) w1) as [[r | e] w2];
    [| reflexivity].
  unfold bind, lift, ret. now destruct (print (Response r)) as [[] | e].
Qed.

(** X27.  A quit word ends the loop at once: whatever the number of turns
    still allowed, the loop returns what was shown so far followed by the
    farewell, and nothing but the line is taken from the world. *)
Theorem main_loop_ends_at_quit (rt : Runtime World) (agent : SystemMonitorAgent World)
    (fuel : nat) (log : list shown) (w w1 : World) (line : string) :
  input rt w = (Completed (Returns line), w1) ->
  In (py_lower (py_strip line)) quit_words ->
  main_loop json_loads_str print (S fuel) rt agent log w
  = (Returns (Some (log ++ [Goodbye])%list), w1).
Proof.
  intros Hin Hq.
  assert (Hturn : loop_iteration json_loads_str print rt agent w
                  = (Returns (Break, [Goodbye]), w1)).
  { unfold loop_iteration, loop_body, bind_interruptible, uninterrupted.
    rewrite Hin, (serve_line_quit agent line w1 Hq). reflexivity. }
  simpl. rewrite (bind_returns _ _ _ _ _ Hturn). reflexivity.
Qed.

(** X28.  At the end of the input the loop does not end: when [input]
    raises an exception at every call, as it does with [EOFError] once
    the input is exhausted, each turn shows the error and goes on, so that
    no number of turns finishes the loop. *)
Theorem main_loop_never_ends_without_input (rt : Runtime World)
    (agent : SystemMonitorAgent World) :
  (forall w, exists e w', input rt w = (Completed (Raises e), w')) ->
  forall fuel log w,
    exists w', main_loop json_loads_str print fuel rt agent log w = (Returns None, w').
Proof.
  intros Heof. induction fuel as [| fuel IH]; intros log w; simpl.
  - exists w. reflexivity.
  - destruct (Heof w) as (e & w1 & He).
    assert (Hturn : loop_iteration json_loads_str print rt agent w
                    = (Returns (Continue, [UnexpectedError (exn_str e)]), w1)).
    { unfold loop_iteration, loop_body, bind_interruptible. now rewrite He. }
    rewrite (bind_returns _ _ _ _ _ Hturn). simpl. apply IH.
Qed.

(** X29.  [main] serves no query when a component fails its test: once the
    agent is built and [test_components] reports a flag that is false,
    [main] shows the status and returns, without reading a line and
    whatever the number of turns allowed. *)
Theorem main_refuses_failed_component (rt : Runtime World) (fuel : nat)
    (api_key : string) (w w1 w2 : World) (agent : SystemMonitorAgent World)
    (results : pydict) :
  getenv_api_key rt = Some api_key ->
  api_key <> "" ->
  SystemMonitorAgent_init rt (Some api_key) "gpt-4o-mini" w = (Returns agent, w1) ->
  test_components agent w1 = (Returns (PDict results), w2) ->
  forallb py_truthy (map snd results) = false ->
  main json_loads_str print fuel rt w
  = (Completed (Returns (Some [ComponentStatus (PDict results); ComponentsFailed])), w2).
Proof.
  intros Hkey Hne Hinit Htest Hfail.
  assert (Hk : String.eqb api_key "" = false) by now apply String.eqb_neq.
  assert (Hstart : start_agent rt api_key w
                   = (Returns (None, [ComponentStatus (PDict results); ComponentsFailed]), w2)).
  { unfold start_agent, try_except. unfold bind at 1. rewrite Hinit.
    unfold bind at 1. rewrite Htest. unfold bind, lift. simpl. rewrite Hfail. reflexivity. }
  unfold main. rewrite Hkey. unfold key_or. rewrite Hk.
  unfold bind_interruptible, uninterrupted. cbn [ret fst snd]. rewrite Hk.
  rewrite (bind_returns _ _ _ _ _ Hstart). reflexivity.
Qed.

(** X30.  Without a key in the environment [main] asks for one: a blank
    answer makes it stop before anything is built, and since this [input]
    is outside every [try], an input that is already exhausted makes
    [main] itself raise and an interrupt leaves [main] as it is. *)
Theorem main_without_key (rt : Runtime World) (fuel : nat) (w : World) :
  getenv_api_key rt = None \/ getenv_api_key rt = Some "" ->
  (forall line w1, input rt w = (Completed (Returns line), w1) -> py_strip line = "" ->
     main json_loads_str print fuel rt w = (Completed (Returns (Some [KeyRequired])), w1))
  /\ (forall e w1, input rt w = (Completed (Raises e), w1) ->
      main json_loads_str print fuel rt w = (Completed (Raises e), w1))
  /\ (forall w1, input rt w = (Interrupted, w1) ->
      main json_loads_str print fuel rt w = (Interrupted, w1)).
Proof.
  intros Hkey.
  assert (Hk : key_or (getenv_api_key rt) None = None)
    by (destruct Hkey as [-> | ->]; reflexivity).
  unfold main. rewrite Hk. unfold bind_interruptible, uninterrupted.
  split; [| split].
  - intros line w1 Hin Hblank. rewrite Hin. cbn [ret fst snd]. rewrite Hblank. reflexivity.
  - intros e w1 Hin. now rewrite Hin.
  - intros w1 Hin. now rewrite Hin.
Qed.

End AgentProperties.

(** * The further properties on the concrete machine *)

Example unknown_time_left : time_left_formatted (-1) = "-1h 59m".
Proof. reflexivity. Qed.

Example ninety_minutes_left : time_left_formatted 5400 = "1h 30m".
Proof. reflexivity. Qed.

Example busiest_process_first :
  get_processes_info_body demo_is_gone
    (demo_psutil None (Returns None) [] demo_usage demo_processes) (PInt 2) 0%nat
  = (Returns (PDict [(PStr "top_processes",
                      PList [PDict [(PStr "pid", PInt 3)]; PDict [(PStr "pid", PInt 1)]])]),
     1%nat).
Proof. reflexivity. Qed.

Lemma call_multiple_functions_app_witness :
  call_multiple_functions demo_collector (PList [PStr "get_cpu_info"]) 0%nat
  = (Returns (PDict [(PStr "get_cpu_info", PDict [(PStr "usage_percent", PInt 0)])]), 1%nat)
  /\ call_multiple_functions demo_collector
       (PList ([PStr "get_cpu_info"] ++ [PStr "get_memory_info"])%list) 0%nat
     = match call_each demo_collector [PStr "get_memory_info"]
               [(PStr "get_cpu_info", PDict [(PStr "usage_percent", PInt 0)])] 1%nat with
       | (Returns results, w2) => (Returns (PDict results), w2)
       | (Raises e, w2) => (Raises e, w2)
       end.
Proof.
  split; [reflexivity |].
  apply (call_multiple_functions_app demo_collector [PStr "get_cpu_info"]
           [PStr "get_memory_info"] 0%nat 1%nat
           [(PStr "get_cpu_info", PDict [(PStr "usage_percent", PInt 0)])]).
  reflexivity.
Defined.

Lemma demo_names_are_long :
  forall name, In name (get_function_list demo_collector) -> String.length name <> 1%nat.
Proof.
  intros name H. simpl in H.
  repeat (destruct H as [<- | H]; [discriminate |]). destruct H.
Defined.

Lemma call_multiple_functions_on_a_string_witness :
  (forall name, In name (get_function_list demo_collector) -> String.length name <> 1%nat)
  /\ exists bundle,
       call_multiple_functions demo_collector (PStr "get_cpu_info") 0%nat
       = (Returns (PDict bundle), 0%nat)
       /\ forall key value, In (key, value) bundle ->
            exists c, In c (list_ascii_of_string "get_cpu_info")
              /\ key = PStr (String c "")
              /\ value = error_record ("Unknown function: " ++ String c "").
Proof.
  split; [exact demo_names_are_long |].
  apply (call_multiple_functions_on_a_string demo_collector "get_cpu_info" 0%nat).
  exact demo_names_are_long.
Defined.

Lemma generate_response_answer_stripped_witness :
  create (replying_client "{}" "   ")
    (response_request (llm_processor (demo_agent (replying_client "{}" "   ")))
       "How is my CPU?" (PDict []) []) 0%nat
  = (Returns {| choices := [Some "   "] |}, 0%nat)
  /\ first_content {| choices := [Some "   "] |} = Returns (Some "   ")
  /\ exists answer,
       generate_response (llm_processor (demo_agent (replying_client "{}" "   ")))
         "How is my CPU?" (PDict []) (PDict []) 0%nat = (Returns answer, 0%nat)
       /\ no_space_at_ends answer
       /\ (answer = "" <-> forallb is_space (list_ascii_of_string "   ") = true).
Proof.
  split; [reflexivity |]. split; [reflexivity |].
  apply (generate_response_answer_stripped
           (llm_processor (demo_agent (replying_client "{}" "   ")))
           "How is my CPU?" (PDict []) [] 0%nat 0%nat {| choices := [Some "   "] |} "   ");
    reflexivity.
Defined.

Lemma generate_response_needs_a_dict_witness :
  (forall d, PList [] <> PDict d)
  /\ generate_response (llm_processor (demo_agent offline_client))
       "How is my CPU?" (PDict []) (PList []) 0%nat
     = (Raises (Exn AttributeError "'list' object has no attribute 'get'"), 0%nat).
Proof.
  split; [discriminate |].
  apply (generate_response_needs_a_dict (llm_processor (demo_agent offline_client))
           "How is my CPU?" (PDict []) (PList []) 0%nat).
  discriminate.
Defined.

Lemma get_battery_info_time_left_witness :
  sensors_battery
    (demo_psutil (Some (demo_battery (-1))) (Returns None) [] demo_usage []) 0%nat
  = (Returns (Some (demo_battery (-1))), 1%nat)
  /\ battery_secsleft (demo_battery (-1)) <> POWER_TIME_UNLIMITED
  /\ exists d hours minutes,
       get_battery_info_body
         (demo_psutil (Some (demo_battery (-1))) (Returns None) [] demo_usage []) 0%nat
       = (Returns (PDict d), 1%nat)
       /\ dict_lookup d (PStr "time_left_seconds")
          = Some (PInt (battery_secsleft (demo_battery (-1))))
       /\ dict_lookup d (PStr "time_left_formatted")
          = Some (PStr (py_int_str hours ++ "h " ++ py_int_str minutes ++ "m"))
       /\ 0 <= minutes < 60
       /\ 3600 * hours + 60 * minutes <= battery_secsleft (demo_battery (-1))
          < 3600 * hours + 60 * minutes + 60.
Proof.
  split; [reflexivity |]. split; [discriminate |].
  apply (get_battery_info_time_left
           (demo_psutil (Some (demo_battery (-1))) (Returns None) [] demo_usage [])
           0%nat 1%nat (demo_battery (-1))); [reflexivity | discriminate].
Defined.

Lemma get_cpu_info_keeps_readings_witness :
  cpu_percent_total (demo_psutil None (Raises no_such_attribute) [] demo_usage []) 0%nat
  = (Returns (PFloat 25 (-1) "12.5"), 1%nat)
  /\ cpu_count (demo_psutil None (Raises no_such_attribute) [] demo_usage []) 1%nat
     = (Returns (PInt 2), 1%nat)
  /\ cpu_percent_percpu (demo_psutil None (Raises no_such_attribute) [] demo_usage []) 1%nat
     = (Returns (PList [PFloat 5 1 "10.0"; PFloat 15 0 "15.0"]), 2%nat)
  /\ exists d w',
       get_cpu_info_body (demo_psutil None (Raises no_such_attribute) [] demo_usage [])
         0%nat = (Returns (PDict d), w')
       /\ firstn 3 d = [(PStr "usage_percent", PFloat 25 (-1) "12.5");
                        (PStr "cores", PInt 2);
                        (PStr "per_core_usage",
                         PList [PFloat 5 1 "10.0"; PFloat 15 0 "15.0"])]
       /\ ((exists f,
              cpu_freq (demo_psutil None (Raises no_such_attribute) [] demo_usage []) 2%nat
              = (Returns (Some f), w')
              /\ skipn 3 d = [(PStr "frequency_mhz", freq_current f);
                              (PStr "frequency_max", freq_max f);
                              (PStr "frequency_min", freq_min f)])
           \/ (d = [(PStr "usage_percent", PFloat 25 (-1) "12.5");
                    (PStr "cores", PInt 2);
                    (PStr "per_core_usage",
                     PList [PFloat 5 1 "10.0"; PFloat 15 0 "15.0"])]
               /\ (cpu_freq (demo_psutil None (Raises no_such_attribute) [] demo_usage [])
                     2%nat = (Returns None, w')
                   \/ exists e,
                        cpu_freq
                          (demo_psutil None (Raises no_such_attribute) [] demo_usage [])
                          2%nat = (Raises e, w')))).
Proof.
  split; [reflexivity |]. split; [reflexivity |]. split; [reflexivity |].
  apply (get_cpu_info_keeps_readings
           (demo_psutil None (Raises no_such_attribute) [] demo_usage [])
           0%nat 1%nat 1%nat 2%nat (PFloat 25 (-1) "12.5") (PInt 2)
           (PList [PFloat 5 1 "10.0"; PFloat 15 0 "15.0"])); reflexivity.
Defined.

Lemma get_disk_info_zero_total_witness :
  demo_is_OSError (Exn (OtherException "ZeroDivisionError") "division by zero") = false
  /\ disk_partitions
       (demo_psutil None (Returns None) [root_partition; empty_partition] demo_usage [])
       0%nat
     = (Returns ([root_partition] ++ empty_partition :: [])%list, 0%nat)
  /\ scan_partitions whole_gb whole_percent demo_is_OSError
       (demo_psutil None (Returns None) [root_partition; empty_partition] demo_usage [])
       [root_partition] [] 0%nat
     = (Returns [(PStr "/dev/sda1",
                  PDict [(PStr "mountpoint", PStr "/"); (PStr "filesystem", PStr "ext4");
                         (PStr "total_gb", PInt 100); (PStr "used_gb", PInt 40);
                         (PStr "free_gb", PInt 60); (PStr "percentage", PInt 40)])], 1%nat)
  /\ get_disk_info_body whole_gb whole_percent demo_is_OSError
       (demo_psutil None (Returns None) [root_partition; empty_partition] demo_usage [])
       0%nat
     = (Returns (error_record "Error getting disk info: division by zero"), 2%nat).
Proof.
  split; [reflexivity |]. split; [reflexivity |]. split; [reflexivity |].
  apply (get_disk_info_zero_total whole_gb whole_percent demo_is_OSError
           (demo_psutil None (Returns None) [root_partition; empty_partition] demo_usage [])
           0%nat 0%nat 1%nat 2%nat [root_partition] [] empty_partition
           [(PStr "/dev/sda1",
             PDict [(PStr "mountpoint", PStr "/"); (PStr "filesystem", PStr "ext4");
                    (PStr "total_gb", PInt 100); (PStr "used_gb", PInt 40);
                    (PStr "free_gb", PInt 60); (PStr "percentage", PInt 40)])]
           {| usage_total := 0; usage_used := 0; usage_free := 0 |});
    reflexivity.
Defined.

Lemma get_disk_info_skips_unreadable_witness :
  disk_partitions
    (demo_psutil None (Returns None) [empty_partition; root_partition] guarded_usage [])
    0%nat
  = (Returns ([] ++ empty_partition :: [root_partition])%list, 0%nat)
  /\ demo_is_OSError (Exn (OtherException "PermissionError") "[Errno 13] Permission denied")
     = true
  /\ get_disk_info_body whole_gb whole_percent demo_is_OSError
       (demo_psutil None (Returns None) [empty_partition; root_partition] guarded_usage [])
       0%nat
     = (Returns (PDict [(PStr "/dev/sda1",
                         PDict [(PStr "mountpoint", PStr "/");
                                (PStr "filesystem", PStr "ext4");
                                (PStr "total_gb", PInt 100); (PStr "used_gb", PInt 40);
                                (PStr "free_gb", PInt 60); (PStr "percentage", PInt 40)])]),
        2%nat).
Proof.
  split; [reflexivity |]. split; [reflexivity |].
  rewrite (get_disk_info_skips_unreadable whole_gb whole_percent demo_is_OSError
             (demo_psutil None (Returns None) [empty_partition; root_partition]
                guarded_usage [])
             0%nat 0%nat 0%nat 1%nat [] [root_partition] empty_partition []
             (Exn (OtherException "PermissionError") "[Errno 13] Permission denied")
             eq_refl eq_refl eq_refl eq_refl).
  reflexivity.
Defined.

Lemma get_processes_info_top_witness :
  process_iter (demo_psutil None (Returns None) [] demo_usage demo_processes) 0%nat
  = (Returns demo_processes, 1%nat)
  /\ collect_processes demo_is_gone demo_processes
     = Returns [demo_process 1 (Some (3, 0)); demo_process 2 None;
                demo_process 3 (Some (25, -1))]
  /\ exists top rest,
       get_processes_info_body demo_is_gone
         (demo_psutil None (Returns None) [] demo_usage demo_processes) (PInt 2) 0%nat
       = (Returns (PDict [(PStr "top_processes", PList (map info_dict top))]), 1%nat)
       /\ Permutation (top ++ rest)%list
            [demo_process 1 (Some (3, 0)); demo_process 2 None;
             demo_process 3 (Some (25, -1))]
       /\ Sorted not_below (top ++ rest)%list
       /\ (0 <= 2 -> List.length top = Nat.min (Z.to_nat 2) 3)
       /\ (2 < 0 -> List.length top = (3 - Z.to_nat (- 2))%nat).
Proof.
  split; [reflexivity |]. split; [reflexivity |].
  apply (get_processes_info_top demo_is_gone
           (demo_psutil None (Returns None) [] demo_usage demo_processes) 2 0%nat 1%nat
           demo_processes
           [demo_process 1 (Some (3, 0)); demo_process 2 None;
            demo_process 3 (Some (25, -1))]); reflexivity.
Defined.

Lemma get_processes_info_keeps_order_witness :
  process_iter
    (demo_psutil None (Returns None) [] demo_usage
       [Returns (demo_process 1 None); Returns (demo_process 2 (Some (0, 0)));
        Raises vanished; Returns (demo_process 4 None)]) 0%nat
  = (Returns [Returns (demo_process 1 None); Returns (demo_process 2 (Some (0, 0)));
              Raises vanished; Returns (demo_process 4 None)], 1%nat)
  /\ collect_processes demo_is_gone
       [Returns (demo_process 1 None); Returns (demo_process 2 (Some (0, 0)));
        Raises vanished; Returns (demo_process 4 None)]
     = Returns [demo_process 1 None; demo_process 2 (Some (0, 0)); demo_process 4 None]
  /\ Sorted not_below
       [demo_process 1 None; demo_process 2 (Some (0, 0)); demo_process 4 None]
  /\ get_processes_info_body demo_is_gone
       (demo_psutil None (Returns None) [] demo_usage
          [Returns (demo_process 1 None); Returns (demo_process 2 (Some (0, 0)));
           Raises vanished; Returns (demo_process 4 None)]) (PInt 2) 0%nat
     = (Returns (PDict [(PStr "top_processes",
                         PList [PDict [(PStr "pid", PInt 1)];
                                PDict [(PStr "pid", PInt 2)]])]), 1%nat).
Proof.
  assert (Hs : Sorted not_below
                 [demo_process 1 None; demo_process 2 (Some (0, 0)); demo_process 4 None]).
  { repeat (constructor; try reflexivity). }
  split; [reflexivity |]. split; [reflexivity |]. split; [exact Hs |].
  apply (get_processes_info_keeps_order demo_is_gone
           (demo_psutil None (Returns None) [] demo_usage
              [Returns (demo_process 1 None); Returns (demo_process 2 (Some (0, 0)));
               Raises vanished; Returns (demo_process 4 None)])
           (PInt 2) 0%nat 1%nat
           [Returns (demo_process 1 None); Returns (demo_process 2 (Some (0, 0)));
            Raises vanished; Returns (demo_process 4 None)]
           [demo_process 1 None; demo_process 2 (Some (0, 0)); demo_process 4 None]
           [demo_process 1 None; demo_process 2 (Some (0, 0))]);
    [reflexivity | reflexivity | exact Hs | reflexivity].
Defined.

Lemma get_memory_info_without_swap_witness :
  virtual_memory (demo_psutil None (Returns None) [] demo_usage []) 0%nat
  = (Returns {| vm_total := 17179869184; vm_available := 8589934592;
                vm_used := 8589934592; vm_percent := PFloat 50 0 "50.0" |}, 1%nat)
  /\ swap_memory (demo_psutil None (Returns None) [] demo_usage []) 1%nat
     = (Returns {| swap_total := 0; swap_used := 0 |}, 1%nat)
  /\ exists d,
       get_memory_info_body whole_gb whole_percent
         (demo_psutil None (Returns None) [] demo_usage []) 0%nat
       = (Returns (PDict d), 1%nat)
       /\ dict_keys d = map PStr ["total_gb"; "available_gb"; "used_gb"; "percentage";
                                  "swap_total_gb"; "swap_used_gb"; "swap_percentage"]
       /\ dict_lookup d (PStr "swap_percentage") = Some (PInt 0).
Proof.
  split; [reflexivity |]. split; [reflexivity |].
  apply (get_memory_info_without_swap whole_gb whole_percent
           (demo_psutil None (Returns None) [] demo_usage []) 0%nat 1%nat 1%nat
           {| vm_total := 17179869184; vm_available := 8589934592;
              vm_used := 8589934592; vm_percent := PFloat 50 0 "50.0" |}
           {| swap_total := 0; swap_used := 0 |}); reflexivity.
Defined.

Lemma test_components_collector_always_true_witness :
  (forall w0,
     get_cpu_info
       (system_collector
          (measuring_agent
             (demo_psutil None (Raises no_such_attribute) [] demo_usage []) offline_client))
       [] w0
     = get_cpu_info_body (demo_psutil None (Raises no_such_attribute) [] demo_usage []) w0)
  /\ exists connected w',
       test_components
         (measuring_agent
            (demo_psutil None (Raises no_such_attribute) [] demo_usage []) offline_client)
         0%nat
       = (Returns (PDict [(PStr "system_collector", PBool true);
                          (PStr "llm_processor", PBool connected)]), w').
Proof.
  split; [reflexivity |].
  apply (test_components_collector_always_true
           (measuring_agent
              (demo_psutil None (Raises no_such_attribute) [] demo_usage []) offline_client)
           (demo_psutil None (Raises no_such_attribute) [] demo_usage []) 0%nat).
  reflexivity.
Defined.

Lemma handle_query_offline_witness :
  unreachable (client (llm_processor (demo_agent offline_client)))
  /\ exists e w1 bundle w2 w',
       create (client (llm_processor (demo_agent offline_client)))
         (parsing_request (llm_processor (demo_agent offline_client)) "How is my CPU?"
            (get_function_list (system_collector (demo_agent offline_client)))) 0%nat
       = (Raises e, w1)
       /\ call_multiple_functions (system_collector (demo_agent offline_client))
            (PList [PStr "get_battery_info"; PStr "get_cpu_info"; PStr "get_memory_info"]) w1
          = (Returns (PDict bundle), w2)
       /\ dict_keys bundle
          = [PStr "get_battery_info"; PStr "get_cpu_info"; PStr "get_memory_info"]
       /\ handle_query demo_json_loads utf8_console (demo_agent offline_client)
            "How is my CPU?" 0%nat
          = (Returns (response_fallback_prefix ++ py_str (PDict bundle)), w').
Proof.
  split; [exact offline_client_unreachable |].
  destruct (handle_query_offline demo_json_loads utf8_console (demo_agent offline_client)
              "How is my CPU?" 0%nat offline_client_unreachable)
    as (e & w1 & bundle & w2 & w' & Hcall & Hbundle & Hkeys & Hanswer).
  exists e, w1, bundle, w2, w'. repeat split; assumption.
Defined.

Lemma handle_query_round_trip_witness :
  create (client (llm_processor (demo_agent (replying_client "{}" " All good. "))))
    (parsing_request (llm_processor (demo_agent (replying_client "{}" " All good. ")))
       "How is my CPU?"
       (get_function_list (system_collector (demo_agent (replying_client "{}" " All good. ")))))
    0%nat
  = (Returns {| choices := [Some "{}"] |}, 0%nat)
  /\ demo_json_loads "{}" = Returns (PDict [])
  /\ call_multiple_functions
       (system_collector (demo_agent (replying_client "{}" " All good. ")))
       (dict_get [] "functions_to_call" (PList [])) 0%nat = (Returns (PDict []), 0%nat)
  /\ handle_query demo_json_loads utf8_console
       (demo_agent (replying_client "{}" " All good. ")) "How is my CPU?" 0%nat
     = (Returns (py_strip " All good. "), 0%nat)
  /\ exists w0,
       handle_query demo_json_loads closed_console
         (demo_agent (replying_client "{}" " All good. ")) "How is my CPU?" 0%nat
       = (Raises closed_file, w0).
Proof.
  split; [reflexivity |]. split; [reflexivity |]. split; [reflexivity |].
  split.
  - exact (handle_query_round_trip demo_json_loads utf8_console
             (demo_agent (replying_client "{}" " All good. ")) "How is my CPU?"
             0%nat 0%nat 0%nat 0%nat {| choices := [Some "{}"] |}
             {| choices := [Some " All good. "] |} "{}" " All good. " [] (PDict [])
             eq_refl eq_refl eq_refl eq_refl eq_refl eq_refl).
  - exact (handle_query_round_trip demo_json_loads closed_console
             (demo_agent (replying_client "{}" " All good. ")) "How is my CPU?"
             0%nat 0%nat 0%nat 0%nat {| choices := [Some "{}"] |}
             {| choices := [Some " All good. "] |} "{}" " All good. " [] (PDict [])
             eq_refl eq_refl eq_refl eq_refl eq_refl eq_refl).
Defined.

Lemma loop_iteration_serves_query_witness :
  input (demo_runtime (Some "sk-demo") (Some " How is my CPU? ")
           (replying_client "[]" "All good.")) 0%nat
  = (Completed (Returns " How is my CPU? "), 0%nat)
  /\ py_strip " How is my CPU? " <> ""
  /\ ~ In (py_lower (py_strip " How is my CPU? ")) (quit_words ++ ["functions"; "test"])%list
  /\ loop_iteration demo_json_loads utf8_console
       (demo_runtime (Some "sk-demo") (Some " How is my CPU? ")
          (replying_client "[]" "All good."))
       (demo_agent (replying_client "[]" "All good.")) 0%nat
     = (Returns (Continue, [UnexpectedError "'list' object has no attribute 'get'"]), 0%nat).
Proof.
  assert (Hcmd : ~ In (py_lower (py_strip " How is my CPU? "))
                   (quit_words ++ ["functions"; "test"])%list).
  { intros H. simpl in H. repeat (destruct H as [H | H]; [discriminate H |]). exact H. }
  split; [reflexivity |]. split; [discriminate |]. split; [exact Hcmd |].
  rewrite (loop_iteration_serves_query demo_json_loads utf8_console
             (demo_runtime (Some "sk-demo") (Some " How is my CPU? ")
                (replying_client "[]" "All good."))
             (demo_agent (replying_client "[]" "All good.")) 0%nat 0%nat
             " How is my CPU? " eq_refl ltac:(discriminate) Hcmd).
  reflexivity.
Defined.

Lemma input_exhausted :
  forall w, exists e w',
    input (demo_runtime (Some "sk-demo") None offline_client) w = (Completed (Raises e), w').
Proof. intros w. exists end_of_input, w. reflexivity. Defined.

Lemma main_loop_never_ends_without_input_witness :
  (forall w, exists e w',
     input (demo_runtime (Some "sk-demo") None offline_client) w
     = (Completed (Raises e), w'))
  /\ forall fuel log w, exists w',
       main_loop demo_json_loads utf8_console fuel
         (demo_runtime (Some "sk-demo") None offline_client)
         (demo_agent offline_client) log w = (Returns None, w').
Proof.
  split; [exact input_exhausted |].
  apply (main_loop_never_ends_without_input demo_json_loads utf8_console
           (demo_runtime (Some "sk-demo") None offline_client) (demo_agent offline_client)).
  exact input_exhausted.
Defined.

Lemma main_refuses_failed_component_witness :
  getenv_api_key (demo_runtime (Some "sk-demo") (Some "How is my CPU?") offline_client)
  = Some "sk-demo"
  /\ "sk-demo" <> ""
  /\ SystemMonitorAgent_init
       (demo_runtime (Some "sk-demo") (Some "How is my CPU?") offline_client)
       (Some "sk-demo") "gpt-4o-mini" 0%nat
     = (Returns (demo_agent offline_client), 0%nat)
  /\ test_components (demo_agent offline_client) 0%nat
     = (Returns (PDict [(PStr "system_collector", PBool true);
                        (PStr "llm_processor", PBool false)]), 1%nat)
  /\ main demo_json_loads utf8_console 5
       (demo_runtime (Some "sk-demo") (Some "How is my CPU?") offline_client) 0%nat
     = (Completed (Returns (Some [ComponentStatus
                                    (PDict [(PStr "system_collector", PBool true);
                                            (PStr "llm_processor", PBool false)]);
                                  ComponentsFailed])), 1%nat).
Proof.
  split; [reflexivity |]. split; [discriminate |]. split; [reflexivity |].
  split; [reflexivity |].
  apply (main_refuses_failed_component demo_json_loads utf8_console
           (demo_runtime (Some "sk-demo") (Some "How is my CPU?") offline_client) 5
           "sk-demo" 0%nat 0%nat 1%nat (demo_agent offline_client)
           [(PStr "system_collector", PBool true); (PStr "llm_processor", PBool false)]);
    try reflexivity. discriminate.
Defined.

(** With a working model the same program serves a query and stops at the
    first [quit]. *)
Example main_quits :
  main demo_json_loads utf8_console 3
    (demo_runtime (Some "sk-demo") (Some " QUIT ") (replying_client "{}" "All good.")) 0%nat
  = (Completed (Returns (Some [ComponentStatus
                                 (PDict [(PStr "system_collector", PBool true);
                                         (PStr "llm_processor", PBool true)]);
                               FunctionList registry_names; Goodbye])), 1%nat).
Proof. reflexivity. Qed.

(** A user who interrupts the first prompt of the loop gets the farewell
    as well, and one who interrupts the prompt for the key leaves [main]
    with the interrupt. *)
Example main_interrupted_in_the_loop :
  main demo_json_loads utf8_console 3
    (interrupted_runtime (Some "sk-demo") (replying_client "{}" "All good.")) 0%nat
  = (Completed (Returns (Some [ComponentStatus
                                 (PDict [(PStr "system_collector", PBool true);
                                         (PStr "llm_processor", PBool true)]);
                               FunctionList registry_names; Goodbye])), 1%nat).
Proof. reflexivity. Qed.

Example main_interrupted_at_the_key :
  main demo_json_loads utf8_console 3
    (interrupted_runtime None (replying_client "{}" "All good.")) 0%nat
  = (Interrupted, 0%nat).
Proof. reflexivity. Qed.

(** The answer of the model is shown, and the next line is read. *)
Example main_answers_then_runs_out_of_turns :
  main_loop demo_json_loads utf8_console 2
    (demo_runtime (Some "sk-demo") (Some "How is my CPU?") (replying_client "{}" " Fine. "))
    (demo_agent (replying_client "{}" " Fine. ")) [] 0%nat
  = (Returns None, 0%nat)
  /\ loop_iteration demo_json_loads utf8_console
       (demo_runtime (Some "sk-demo") (Some "How is my CPU?") (replying_client "{}" " Fine. "))
       (demo_agent (replying_client "{}" " Fine. ")) 0%nat
     = (Returns (Continue, [AgentAnswer "Fine."]), 0%nat).
Proof. split; reflexivity. Qed.

Lemma raw_data_of_all_functions_witness :
  NoDup (get_available_functions (demo_agent offline_client))
  /\ exists bundle w',
       get_raw_system_data (demo_agent offline_client)
         (PList (map PStr (get_available_functions (demo_agent offline_client)))) 0%nat
       = (Returns (PDict bundle), w')
       /\ dict_keys bundle = map PStr (get_available_functions (demo_agent offline_client))
       /\ forall name r, In (PStr name, r) bundle ->
            exists f w0 w1,
              In (name, f) (available_functions (system_collector (demo_agent offline_client)))
              /\ (f [] w0 = (Returns r, w1)
                  \/ exists e, f [] w0 = (Raises e, w1) /\ r = calling_error name e).
Proof.
  assert (Hnd : NoDup (get_available_functions (demo_agent offline_client))).
  { repeat (constructor; [simpl; intuition discriminate |]). constructor. }
  split; [exact Hnd |].
  apply (raw_data_of_all_functions (demo_agent offline_client) 0%nat). exact Hnd.
Defined.

Lemma main_without_key_witness :
  (getenv_api_key (demo_runtime None None offline_client) = None
   \/ getenv_api_key (demo_runtime None None offline_client) = Some "")
  /\ (forall line w1,
        input (demo_runtime None None offline_client) 0%nat
        = (Completed (Returns line), w1) ->
        py_strip line = "" ->
        main demo_json_loads utf8_console 5 (demo_runtime None None offline_client) 0%nat
        = (Completed (Returns (Some [KeyRequired])), w1))
  /\ (forall e w1,
        input (demo_runtime None None offline_client) 0%nat = (Completed (Raises e), w1) ->
        main demo_json_loads utf8_console 5 (demo_runtime None None offline_client) 0%nat
        = (Completed (Raises e), w1))
  /\ (forall w1,
        input (demo_runtime None None offline_client) 0%nat = (Interrupted, w1) ->
        main demo_json_loads utf8_console 5 (demo_runtime None None offline_client) 0%nat
        = (Interrupted, w1)).
Proof.
  split; [now left |].
  apply (main_without_key demo_json_loads utf8_console
           (demo_runtime None None offline_client) 5 0%nat).
  now left.
Defined.

Example main_raises_at_exhausted_input :
  main demo_json_loads utf8_console 5 (demo_runtime None None offline_client) 0%nat
  = (Completed (Raises end_of_input), 0%nat).
Proof. reflexivity. Qed.

Lemma main_loop_ends_at_quit_witness :
  input (demo_runtime (Some "sk-demo") (Some " Exit ") offline_client) 0%nat
  = (Completed (Returns " Exit "), 0%nat)
  /\ In (py_lower (py_strip " Exit ")) quit_words
  /\ main_loop demo_json_loads utf8_console 1
       (demo_runtime (Some "sk-demo") (Some " Exit ") offline_client)
       (demo_agent offline_client) [] 0%nat
     = (Returns (Some ([] ++ [Goodbye])%list), 0%nat).
Proof.
  split; [reflexivity |]. split; [right; now left |].
  apply (main_loop_ends_at_quit demo_json_loads utf8_console
           (demo_runtime (Some "sk-demo") (Some " Exit ") offline_client)
           (demo_agent offline_client) 0 [] 0%nat 0%nat " Exit ");
    [reflexivity | right; now left].
Defined.
